(** * Band-topology wrappers of pymatgen: a shallow embedding

    The development follows two source files:
    - [pymatgen/command_line/vasp2trace_caller.py]
      ([Vasp2TraceCaller], [Vasp2TraceOutput]);
    - [pymatgen/analysis/topology/analyzer.py]
      ([BandTopologyAnalyzer], [BandTopologyAnalyzerOutput]).

    Python values are embedded as Rocq data: [int] as [Z], [str] as
    [string], [bytes] as a list of bytes, a list of lines as
    [list string], a [dict] as a [gmap], an exception as the [Raise]
    branch of an error monad.  The text of a trace file is ASCII, and the
    string functions are those of Python on ASCII text.  Floating-point
    conversion of a token is a parameter of the development. *)

From Stdlib Require Import ZArith Ascii String List Sorted.
From stdpp Require Import base gmap strings list fin_maps pretty.

Set Default Proof Using "Type".
Set Warnings "-register-all".

(** ** Python primitives *)

Module Py.

(** The exceptions the two source files can raise or let through. An
    exception is identified by the class that is raised: the subclasses
    of [OSError] raised by the file system have constructors of their own,
    [OSError] stands for the others; [UnicodeDecodeError] is raised by a
    decoding, [UserWarning] by [warnings.warn] under a filter that turns
    warnings into exceptions. *)
Inductive exn : Type :=
| ValueError
| IndexError
| TypeError
| KeyError
| AttributeError
| FileNotFoundError
| IsADirectoryError
| NotADirectoryError
| PermissionError
| OSError
| UnicodeDecodeError
| UserWarning (msg : string)
| RuntimeError (msg : string).

Inductive result (A : Type) : Type :=
| Ok (a : A)
| Raise (e : exn).
Arguments Ok {A} a.
Arguments Raise {A} e.

#[export] Instance result_ret : MRet result := λ A, Ok.
#[export] Instance result_bind : MBind result := λ A B k m,
  match m with
  | Ok a => k a
  | Raise e => Raise e
  end.

Definition of_option {A} (e : exn) (o : option A) : result A :=
  match o with
  | Some a => Ok a
  | None => Raise e
  end.

Definition is_ok {A} (m : result A) : bool :=
  match m with Ok _ => true | Raise _ => false end.

(** A loop body run over a list, stopping at the first exception. *)
Fixpoint for_each {A B} (body : B → A → result B) (l : list A) (acc : B)
  : result B :=
  match l with
  | [] => Ok acc
  | x :: l' => acc' ← body acc x; for_each body l' acc'
  end.

(** A list comprehension whose element expression can raise. *)
Fixpoint comprehension {A B} (f : A → result B) (l : list A)
  : result (list B) :=
  match l with
  | [] => Ok []
  | x :: l' => y ← f x; ys ← comprehension f l'; Ok (y :: ys)
  end.

(** *** Strings *)

(** [str.isspace] on the ASCII range: tab, line feed, vertical tab, form
    feed, carriage return, the four separators 0x1c-0x1f and the space. *)
Definition is_space (c : ascii) : bool :=
  let n := nat_of_ascii c in
  ((9 <=? n)%nat && (n <=? 13)%nat) || ((28 <=? n)%nat && (n <=? 32)%nat).

Definition is_newline (c : ascii) : bool := Ascii.eqb c "010"%char.

Definition nonempty (s : string) : bool :=
  match s with EmptyString => false | String _ _ => true end.

(** Cut [s] at every character satisfying [p]; empty fragments are kept,
    so that the empty string yields one empty fragment. *)
Fixpoint split_at (p : ascii → bool) (s : string) : list string :=
  match s with
  | EmptyString => [EmptyString]
  | String c s' =>
      if p c then EmptyString :: split_at p s'
      else match split_at p s' with
           | [] => [String c EmptyString]
           | w :: ws => String c w :: ws
           end
  end.

(** [s.split(" ")]: cut at every single space character. *)
Definition split_space (s : string) : list string :=
  split_at (Ascii.eqb " "%char) s.

(** [s.split()]: cut at runs of whitespace, no empty fragment. *)
Definition split_ws (s : string) : list string :=
  List.filter nonempty (split_at is_space s).

Fixpoint lstrip (p : ascii → bool) (s : string) : string :=
  match s with
  | EmptyString => EmptyString
  | String c s' => if p c then lstrip p s' else s
  end.

Fixpoint rstrip (p : ascii → bool) (s : string) : string :=
  match s with
  | EmptyString => EmptyString
  | String c s' =>
      let r := rstrip p s' in
      if p c && negb (nonempty r) then EmptyString else String c r
  end.

Definition strip (p : ascii → bool) (s : string) : string :=
  rstrip p (lstrip p s).

(** *** [int(s)] on a string, base ten *)

(** The whitespace that [int] ignores around the number: on ASCII text
    the characters of C's [isspace], that is tab, line feed, vertical tab,
    form feed, carriage return and the space. The separators 0x1c-0x1f,
    which [str.isspace] accepts, make [int] raise. *)
Definition is_int_space (c : ascii) : bool :=
  let n := nat_of_ascii c in
  ((9 <=? n)%nat && (n <=? 13)%nat) || (n =? 32)%nat.

(** The largest number of digits that [int] converts: the default value
    of [sys.int_info.default_max_str_digits] in CPython 3.11 and later. *)
Definition max_str_digits : nat := 4300.

Definition digit_val (c : ascii) : option Z :=
  let n := nat_of_ascii c in
  if (48 <=? n)%nat && (n <=? 57)%nat then Some (Z.of_nat n - 48)%Z else None.

(** Digits after the first one; a single underscore may separate two
    digits. [after_us] records that the previous character was one. *)
Fixpoint int_digits (acc : Z) (after_us : bool) (s : string) : option Z :=
  match s with
  | EmptyString => if after_us then None else Some acc
  | String c s' =>
      if Ascii.eqb c "_"%char then
        if after_us then None else int_digits acc true s'
      else
        match digit_val c with
        | Some d => int_digits (10 * acc + d)%Z false s'
        | None => None
        end
  end.

(** The number of digits of [s], leading zeros included, underscores
    not. *)
Fixpoint count_digits (s : string) : nat :=
  match s with
  | EmptyString => O
  | String c s' =>
      match digit_val c with
      | Some _ => S (count_digits s')
      | None => count_digits s'
      end
  end.

Definition int_literal (s : string) : option Z :=
  match s with
  | EmptyString => None
  | String c s' =>
      match digit_val c with
      | Some d =>
          if (count_digits s <=? max_str_digits)%nat
          then int_digits d false s'
          else None
      | None => None
      end
  end.

Definition int_of_string (s : string) : option Z :=
  match strip is_int_space s with
  | String "+" r => int_literal r
  | String "-" r => Z.opp <$> int_literal r
  | t => int_literal t
  end.

(** [int(s)] on ASCII text: surrounding whitespace is ignored, a sign is
    optional, the digits may be grouped by single underscores and are at
    most [max_str_digits]; anything else raises [ValueError]. *)
Definition int (s : string) : result Z := of_option ValueError (int_of_string s).

(** *** [bytes] and [bytes.decode()]

    A byte string is the list of its bytes. The text that decoding gives
    is held as the bytes it was decoded from: ASCII text is itself, and a
    text with other characters, which the code only hands on (as a path,
    as the text of a warning), is held as its UTF-8 encoding. *)

Definition bytes : Type := list ascii.

(** The bytes of a literal. *)
Definition bytes_of (s : string) : bytes := list_ascii_of_string s.

(** Well-formed UTF-8: [pending] continuation bytes are still due, the
    next of which lies between [lo] and [hi]. Overlong forms, surrogates
    and code points above U+10FFFF are refused. *)
Fixpoint utf8 (pending lo hi : nat) (bs : bytes) : bool :=
  match bs with
  | [] => (pending =? 0)%nat
  | c :: bs' =>
      let n := nat_of_ascii c in
      match pending with
      | O =>
          if (n <=? 127)%nat then utf8 0 0 0 bs'
          else if (194 <=? n)%nat && (n <=? 223)%nat then utf8 1 128 191 bs'
          else if (n =? 224)%nat then utf8 2 160 191 bs'
          else if (225 <=? n)%nat && (n <=? 236)%nat then utf8 2 128 191 bs'
          else if (n =? 237)%nat then utf8 2 128 159 bs'
          else if (238 <=? n)%nat && (n <=? 239)%nat then utf8 2 128 191 bs'
          else if (n =? 240)%nat then utf8 3 144 191 bs'
          else if (241 <=? n)%nat && (n <=? 243)%nat then utf8 3 128 191 bs'
          else if (n =? 244)%nat then utf8 3 128 143 bs'
          else false
      | S pending' =>
          (lo <=? n)%nat && (n <=? hi)%nat && utf8 pending' 128 191 bs'
      end
  end.

(** [bs.decode()]: UTF-8, strict. *)
Definition decode (bs : bytes) : result string :=
  if utf8 0 0 0 bs then Ok (string_of_list_ascii bs)
  else Raise UnicodeDecodeError.

(** *** Lists: indexing and slicing with Python's negative indices *)

Definition len {A} (l : list A) : Z := Z.of_nat (length l).

(** [l[i]] *)
Definition index {A} (l : list A) (i : Z) : result A :=
  let j := if (i <? 0)%Z then (i + len l)%Z else i in
  if (0 <=? j)%Z then of_option IndexError (l !! Z.to_nat j)
  else Raise IndexError.

(** A slice bound is clipped to [0..len]. *)
Definition slice_bound (n i : Z) : nat :=
  Z.to_nat (if (i <? 0)%Z then Z.max (i + n) 0 else Z.min i n).

(** [l[a:b]] *)
Definition slice {A} (l : list A) (a b : Z) : list A :=
  let lo := slice_bound (len l) a in
  let hi := slice_bound (len l) b in
  take (hi - lo) (drop lo l).

(** [l[a:]] *)
Definition slice_from {A} (l : list A) (a : Z) : list A :=
  drop (slice_bound (len l) a) l.

(** [enumerate(l, start)] *)
Fixpoint enumerate {A} (l : list A) (start : Z) : list (Z * A) :=
  match l with
  | [] => []
  | x :: l' => (start, x) :: enumerate l' (start + 1)%Z
  end.

End Py.

Import Py.

(** ** [numpy.loadtxt] on a list of lines

    The conversion of one token to a floating-point number is the
    parameter [float]; everything else follows the documented behaviour of
    [loadtxt] with its default arguments: [#] starts a comment, columns
    are separated by whitespace, blank lines are skipped, every row must
    have as many columns as the first one, and the result is squeezed. *)

Module Numpy.

Inductive ndarray (F : Type) : Type :=
| Scalar (x : F)
| Vector (xs : list F)
| Matrix (rows : list (list F)).
Arguments Scalar {F} x.
Arguments Vector {F} xs.
Arguments Matrix {F} rows.

(** [len(a)], also the number of steps of [for x in a]. *)
Definition array_len {F} (a : ndarray F) : result nat :=
  match a with
  | Scalar _ => Raise TypeError
  | Vector xs => Ok (length xs)
  | Matrix rows => Ok (length rows)
  end.

Definition cut_comment (line : string) : string :=
  match split_at (Ascii.eqb "#"%char) line with
  | [] => EmptyString
  | s :: _ => s
  end.

Definition split_line (line : string) : list string :=
  split_ws (cut_comment line).

Definition is_nil {A} (l : list A) : bool :=
  match l with [] => true | _ => false end.

Definition column {F} (rows : list (list F)) : list F :=
  concat rows.

(** [numpy.squeeze] of a table with [ncols] columns: axes of length one
    are dropped. *)
Definition squeeze {F} (ncols : nat) (rows : list (list F)) : ndarray F :=
  match rows with
  | [[x]] => Scalar x
  | [row] => Vector row
  | _ => if (ncols =? 1)%nat then Vector (column rows) else Matrix rows
  end.

Section loadtxt.
Context {F : Type} (float : string → option F).

Definition convert_row (ncols : nat) (vals : list string) : result (list F) :=
  if (length vals =? ncols)%nat
  then comprehension (λ v, of_option ValueError (float v)) vals
  else Raise ValueError.

Definition loadtxt (lines : list string) : result (ndarray F) :=
  let table := List.filter (λ vals, negb (is_nil vals)) (split_line <$> lines) in
  match table with
  | [] => Ok (Vector [])
  | first_vals :: _ =>
      let ncols := length first_vals in
      rows ← comprehension (convert_row ncols) table;
      Ok (squeeze ncols rows)
  end.
End loadtxt.

End Numpy.

Import Numpy.

(** ** The file system and the process state seen by the code *)

Module OS.

(** Why a path cannot be opened, or entered: nothing is there, it is a
    directory, it is not one, permission is denied, the path holds a null
    character, the bytes of the file are not text, or another error of
    the operating system (a name that is too long, a loop of links). *)
Inductive io_error : Type :=
| NoEntry
| IsDirectory
| NotDirectory
| Denied
| BadPath
| Undecodable
| OtherError.

Definition raise_io (e : io_error) : exn :=
  match e with
  | NoEntry => FileNotFoundError
  | IsDirectory => IsADirectoryError
  | NotDirectory => NotADirectoryError
  | Denied => PermissionError
  | BadPath => ValueError
  | Undecodable => UnicodeDecodeError
  | OtherError => OSError
  end.

(** What a path leads to, as far as the code can tell: whether
    [os.path.isfile] holds of it, what [open(p, "r")] followed by
    [readlines()] gives (the lines, each with its terminator, or an
    error), and whether [os.chdir] enters it ([None]) or fails. *)
Record node : Type := Node {
  regular : bool;
  opened : io_error + list string;
  entered : option io_error;
}.

Definition text_file (lines : list string) : node :=
  {| regular := true; opened := inr lines; entered := Some NotDirectory |}.

Definition directory : node :=
  {| regular := false; opened := inl IsDirectory; entered := None |}.

Definition nothing : node :=
  {| regular := false; opened := inl NoEntry; entered := Some NoEntry |}.

(** The file system maps a path to its node; a path without entry leads
    to nothing. Paths are kept as written, without normalising [.] and
    [..]: two spellings of a path are two keys. The open file descriptors
    are those that can be read as text. *)
Record world : Type := World {
  files : gmap string node;
  descriptors : gmap Z (io_error + list string);
  cwd : string;
}.

Definition is_absolute (p : string) : bool :=
  match p with
  | String "/" _ => true
  | _ => false
  end.

Definition resolve (w : world) (p : string) : string :=
  if is_absolute p then p else cwd w +:+ "/" +:+ p.

(** A path that holds a null character is refused before the file
    system is asked. *)
Fixpoint has_null (p : string) : bool :=
  match p with
  | EmptyString => false
  | String c p' => Ascii.eqb c "000"%char || has_null p'
  end.

Definition bad_path : node :=
  {| regular := false; opened := inl BadPath; entered := Some BadPath |}.

(** The node of a path; the empty path leads to nothing. *)
Definition stat (w : world) (p : string) : node :=
  if has_null p then bad_path
  else if nonempty p then default nothing (files w !! resolve w p)
  else nothing.

Definition lift_io {A} (r : io_error + A) : result A :=
  match r with
  | inl e => Raise (raise_io e)
  | inr a => Ok a
  end.

(** [os.path.isfile(p)] *)
Definition isfile (w : world) (p : string) : bool := regular (stat w p).

(** [os.chdir(p)] *)
Definition chdir (w : world) (p : string) : result world :=
  match entered (stat w p) with
  | None =>
      Ok {| files := files w; descriptors := descriptors w;
            cwd := resolve w p |}
  | Some e => Raise (raise_io e)
  end.

(** [open(p, "r")] followed by [readlines()] *)
Definition readlines (w : world) (p : string) : result (list string) :=
  lift_io (opened (stat w p)).

(** [open(fd, "r")] followed by [readlines()], for an integer: a file
    descriptor when it fits a C [int], which must not be negative and must
    be open. The descriptor is closed afterwards; it is read once. *)
Definition readlines_fd (w : world) (fd : Z) : result (list string) :=
  if ((fd <? - 2 ^ 31) || (2 ^ 31 <=? fd))%Z then Raise TypeError
  else if (fd <? 0)%Z then Raise ValueError
  else match descriptors w !! fd with
       | Some r => lift_io r
       | None => Raise OSError
       end.

End OS.

Import OS.

(** ** [Vasp2TraceOutput] ([vasp2trace_caller.py], lines 88-198) *)

Module Vasp2TraceOutput.

(** The values an attribute of the instance, or an entry of its
    serialised form, can hold. *)
Inductive value (F : Type) : Type :=
| VNone
| VStr (s : string)
| VInt (z : Z)
| VArray (a : ndarray F)
| VCounts (d : gmap nat Z)
| VIndices (d : gmap nat (list Z))
| VTraces (d : gmap nat (ndarray F)).
Arguments VNone {F}.
Arguments VStr {F} s.
Arguments VInt {F} z.
Arguments VArray {F} a.
Arguments VCounts {F} d.
Arguments VIndices {F} d.
Arguments VTraces {F} d.

(** The attributes of an instance. *)
Record instance (F : Type) : Type := Instance {
  _vasp2trace_stdout : value F;
  num_occ_bands : value F;
  soc : value F;
  num_symm_ops : value F;
  symm_ops : value F;
  num_max_kvec : value F;
  kvecs : value F;
  num_kvec_symm_ops : value F;
  symm_ops_in_little_cogroup : value F;
  traces : value F;
}.
Arguments Instance {F}.
Arguments _vasp2trace_stdout {F} _.
Arguments num_occ_bands {F} _.
Arguments soc {F} _.
Arguments num_symm_ops {F} _.
Arguments symm_ops {F} _.
Arguments num_max_kvec {F} _.
Arguments kvecs {F} _.
Arguments num_kvec_symm_ops {F} _.
Arguments symm_ops_in_little_cogroup {F} _.
Arguments traces {F} _.

(** The three dictionaries filled by the loop over the k-vectors. *)
Record dicts (F : Type) : Type := Dicts {
  d_num_kvec_symm_ops : gmap nat Z;
  d_symm_ops_in_little_cogroup : gmap nat (list Z);
  d_traces : gmap nat (ndarray F);
}.
Arguments Dicts {F}.
Arguments d_num_kvec_symm_ops {F} _.
Arguments d_symm_ops_in_little_cogroup {F} _.
Arguments d_traces {F} _.

(** The header values read before the blocks. *)
Record header (F : Type) : Type := Header {
  h_num_occ_bands : Z;
  h_soc : Z;
  h_num_symm_ops : Z;
  h_symm_ops : ndarray F;
  h_num_max_kvec : Z;
  h_kvecs : ndarray F;
}.
Arguments Header {F}.
Arguments h_num_occ_bands {F} _.
Arguments h_soc {F} _.
Arguments h_num_symm_ops {F} _.
Arguments h_symm_ops {F} _.
Arguments h_num_max_kvec {F} _.
Arguments h_kvecs {F} _.

(** The three assignments [d[idx] = ...] that end a turn of the loop. *)
Definition store {F} (acc : dicts F) (idx : nat) (count : Z) (soilcg : list Z)
    (trace : ndarray F) : dicts F :=
  {| d_num_kvec_symm_ops := <[idx := count]> (d_num_kvec_symm_ops acc);
     d_symm_ops_in_little_cogroup :=
       <[idx := soilcg]> (d_symm_ops_in_little_cogroup acc);
     d_traces := <[idx := trace]> (d_traces acc) |}.

(** [len([i for i in line.split(" ") if i]) == 1] *)
Definition single_entry (line : string) : bool :=
  let line := List.filter nonempty (split_space line) in
  (length line =? 1)%nat.

(** One turn of the loop that collects [block_starts], lines 160-165. *)
Definition collect (block_starts : list Z) (entry : Z * string) : list Z :=
  let '(jdx, line) := entry in
  if single_entry line then block_starts ++ [jdx] else block_starts.

(** The loop itself: every line from [trace_start - 1] on is tested, with
    its line number. *)
Definition find_block_starts (lines : list string) (trace_start : Z) : list Z :=
  fold_left collect
    (enumerate (slice_from lines (trace_start - 1)) (trace_start - 1)) [].

(** The list of operation indices on the second line of a block. *)
Definition little_cogroup (line : string) : result (list Z) :=
  comprehension (λ i, int (strip is_newline i))
    (List.filter (λ i, nonempty (strip is_newline i)) (split_space line)).

Section parse.
Context {F : Type} (float : string → option F).

(** The header, lines 140-148 of the source: the lines before the
    blocks. *)
Definition get_header_info (lines : list string) : result (header F) :=
  line0 ← index lines 0;
  num_occ_bands ← int line0;
  line1 ← index lines 1;
  soc ← int line1;
  line2 ← index lines 2;
  num_symm_ops ← int line2;
  symm_ops ← loadtxt float (slice lines 3 (3 + num_symm_ops));
  line_k ← index lines (3 + num_symm_ops);
  num_max_kvec ← int line_k;
  kvecs ← loadtxt float
    (slice lines (4 + num_symm_ops) (4 + num_symm_ops + num_max_kvec));
  Ok {| h_num_occ_bands := num_occ_bands;
        h_soc := soc;
        h_num_symm_ops := num_symm_ops;
        h_symm_ops := symm_ops;
        h_num_max_kvec := num_max_kvec;
        h_kvecs := kvecs |}.

(** The lines [trace_str] of the table of turn [idx], from the line
    after the index list to the next block start, or to the end of the
    file in the last turn. *)
Definition trace_rows (lines : list string) (num_max_kvec : Z)
    (block_starts : list Z) (idx : nat) (start_block : Z)
  : result (list string) :=
  if (Z.of_nat idx <? num_max_kvec - 1)%Z then
    next_block ← index block_starts (Z.of_nat idx + 1);
    Ok (slice lines (start_block + 2) next_block)
  else Ok (slice_from lines (start_block + 2)).

(** One turn of [for idx, kpt in enumerate(kvecs)], lines 168-187. *)
Definition block_body (lines : list string) (num_max_kvec : Z)
    (block_starts : list Z) (acc : dicts F) (idx : nat) : result (dicts F) :=
  start_block ← index block_starts (Z.of_nat idx);
  trace_str ← trace_rows lines num_max_kvec block_starts idx start_block;
  count_line ← index lines start_block;
  count ← int count_line;
  index_line ← index lines (start_block + 1);
  soilcg ← little_cogroup index_line;
  trace ← loadtxt float trace_str;
  Ok (store acc idx count soilcg trace).

(** The body of the [with] block of [_parse_stdout] on the lines read,
    followed by the assignment of the attributes. *)
Definition parse_lines (self : instance F) (lines : list string)
  : result (instance F) :=
  h ← get_header_info lines;
  let num_symm_ops := h_num_symm_ops h in
  let num_max_kvec := h_num_max_kvec h in
  let trace_start := (5 + num_max_kvec + num_symm_ops)%Z in
  let block_starts := find_block_starts lines trace_start in
  turns ← array_len (h_kvecs h);
  d ← for_each (block_body lines num_max_kvec block_starts) (seq 0 turns)
        (Dicts ∅ ∅ ∅);
  Ok {| _vasp2trace_stdout := _vasp2trace_stdout self;
        num_occ_bands := VInt (h_num_occ_bands h);
        soc := VInt (h_soc h);
        num_symm_ops := VInt num_symm_ops;
        symm_ops := VArray (h_symm_ops h);
        num_max_kvec := VInt num_max_kvec;
        kvecs := VArray (h_kvecs h);
        num_kvec_symm_ops := VCounts (d_num_kvec_symm_ops d);
        symm_ops_in_little_cogroup := VIndices (d_symm_ops_in_little_cogroup d);
        traces := VTraces (d_traces d) |}.

(** [open(vasp2trace_stdout, "r")] needs a path or a file descriptor. *)
Definition open_readlines (w : world) (path : value F) : result (list string) :=
  match path with
  | VStr p => readlines w p
  | VInt fd => readlines_fd w fd
  | _ => Raise TypeError
  end.

Definition _parse_stdout (w : world) (self : instance F)
    (vasp2trace_stdout : value F) : result (instance F) :=
  lines ← open_readlines w vasp2trace_stdout;
  parse_lines self lines.

(** The constructor, lines 89-133: the keyword arguments are stored, then
    the file is parsed; an exception of the parse leaves the caller without
    instance. *)
Definition __init__ (w : world) (vasp2trace_stdout : value F)
    (num_occ_bands soc num_symm_ops symm_ops num_max_kvec kvecs
     num_kvec_symm_ops symm_ops_in_little_cogroup traces : value F)
  : result (instance F) :=
  let self :=
    {| _vasp2trace_stdout := vasp2trace_stdout;
       num_occ_bands := num_occ_bands;
       soc := soc;
       num_symm_ops := num_symm_ops;
       symm_ops := symm_ops;
       num_max_kvec := num_max_kvec;
       kvecs := kvecs;
       num_kvec_symm_ops := num_kvec_symm_ops;
       symm_ops_in_little_cogroup := symm_ops_in_little_cogroup;
       traces := traces |} in
  _parse_stdout w self vasp2trace_stdout.

(** [Vasp2TraceOutput(path)], every keyword argument at its default. *)
Definition new (w : world) (path : string) : result (instance F) :=
  __init__ w (VStr path) VNone VNone VNone VNone VNone VNone VNone VNone VNone.

End parse.

(** Every attribute filled by the parse holds a value of its kind. *)
Definition populated {F} (self : instance F) : bool :=
  match num_occ_bands self, soc self, num_symm_ops self, symm_ops self,
        num_max_kvec self, kvecs self, num_kvec_symm_ops self,
        symm_ops_in_little_cogroup self, traces self with
  | VInt _, VInt _, VInt _, VArray _, VInt _, VArray _,
    VCounts _, VIndices _, VTraces _ => true
  | _, _, _, _, _, _, _, _, _ => false
  end.

(** *** Serialisation inherited from [monty.json.MSONable]

    [as_dict] has one entry per argument of the constructor, holding the
    attribute of the same name or, failing that, of that name with a
    leading underscore, next to the entries [@module] and [@class].
    [from_dict] calls the constructor with the entries whose key does not
    start with [@] as keyword arguments. *)

Definition as_dict {F} (self : instance F) : gmap string (value F) :=
  <["@module" := VStr "pymatgen.command_line.vasp2trace_caller"]>
  (<["@class" := VStr "Vasp2TraceOutput"]>
  (<["vasp2trace_stdout" := _vasp2trace_stdout self]>
  (<["num_occ_bands" := num_occ_bands self]>
  (<["soc" := soc self]>
  (<["num_symm_ops" := num_symm_ops self]>
  (<["symm_ops" := symm_ops self]>
  (<["num_max_kvec" := num_max_kvec self]>
  (<["kvecs" := kvecs self]>
  (<["num_kvec_symm_ops" := num_kvec_symm_ops self]>
  (<["symm_ops_in_little_cogroup" := symm_ops_in_little_cogroup self]>
  (<["traces" := traces self]> ∅))))))))))).

Definition init_args : list string :=
  ["vasp2trace_stdout"; "num_occ_bands"; "soc"; "num_symm_ops"; "symm_ops";
   "num_max_kvec"; "kvecs"; "num_kvec_symm_ops"; "symm_ops_in_little_cogroup";
   "traces"].

Definition is_meta_key (k : string) : bool :=
  match k with
  | String "@" _ => true
  | _ => false
  end.

(** A keyword argument, or the default [None] of the signature. *)
Definition kwarg {F} (kwargs : gmap string (value F)) (name : string) : value F :=
  default VNone (kwargs !! name).

Definition from_dict {F} (float : string → option F) (w : world)
    (d : gmap string (value F)) : result (instance F) :=
  let decoded := filter (λ kv, is_meta_key kv.1 = false) d in
  if bool_decide (dom decoded ⊆ list_to_set (C := gset string) init_args) then
    match decoded !! "vasp2trace_stdout" with
    | None => Raise TypeError
    | Some vasp2trace_stdout =>
        __init__ float w vasp2trace_stdout
          (kwarg decoded "num_occ_bands") (kwarg decoded "soc")
          (kwarg decoded "num_symm_ops") (kwarg decoded "symm_ops")
          (kwarg decoded "num_max_kvec") (kwarg decoded "kvecs")
          (kwarg decoded "num_kvec_symm_ops")
          (kwarg decoded "symm_ops_in_little_cogroup")
          (kwarg decoded "traces")
    end
  else Raise TypeError.

End Vasp2TraceOutput.

(** ** The layout of a trace file

    The layout of the text written by [vasp2trace]: three header lines,
    the rows of the symmetry operations, the number of k-vectors, the
    k-vectors, and one block per k-vector made of a line with the number
    of operations of the little cogroup, a line with their indices and a
    numeric table. *)

Module TraceFormat.
Import Vasp2TraceOutput.

Record block : Type := Block {
  count_line : string;
  index_line : string;
  table : list string;
}.

Record trace_file : Type := TraceFile {
  bands_line : string;
  soc_line : string;
  symm_count_line : string;
  symm_rows : list string;
  kvec_count_line : string;
  kvec_rows : list string;
  blocks : list block;
}.

Definition block_lines (b : block) : list string :=
  count_line b :: index_line b :: table b.

Definition blocks_lines (bs : list block) : list string :=
  concat (block_lines <$> bs).

(** The line numbers on which the blocks start, when the first one
    starts on line [start]. *)
Fixpoint block_offsets (start : Z) (bs : list block) : list Z :=
  match bs with
  | [] => []
  | b :: bs' => start :: block_offsets (start + len (block_lines b))%Z bs'
  end.

Definition header_lines (f : trace_file) : list string :=
  bands_line f :: soc_line f :: symm_count_line f ::
  symm_rows f ++ kvec_count_line f :: kvec_rows f.

Definition file_lines (f : trace_file) : list string :=
  header_lines f ++ blocks_lines (blocks f).

Definition reads_as (line : string) (n : Z) : bool :=
  match int line with
  | Ok m => bool_decide (m = n)
  | Raise _ => false
  end.

Section layout.
Context {F : Type} (float : string → option F).

(** A row of [ncols] numbers separated by whitespace. *)
Definition numeric_row (ncols : nat) (line : string) : bool :=
  let vals := split_line line in
  (length vals =? ncols)%nat && forallb (λ v, bool_decide (is_Some (float v))) vals.

(** Rows of numbers, all of the same positive width. *)
Definition numeric_table (rows : list string) : bool :=
  match rows with
  | [] => true
  | row :: _ =>
      let ncols := length (split_line row) in
      (0 <? ncols)%nat && forallb (numeric_row ncols) rows
  end.

(** A block: a line with a single entry, the count [n]; a line listing
    [n] integers; a numeric table. *)
Definition well_formed_block (b : block) : bool :=
  single_entry (count_line b) &&
  match int (count_line b), little_cogroup (index_line b) with
  | Ok n, Ok ops => bool_decide (len ops = n)
  | _, _ => false
  end &&
  numeric_table (table b).

(** A file laid out as described, with header counts [(B, soc, S, K)]. *)
Definition well_formed (f : trace_file) (B soc S K : Z) : bool :=
  reads_as (bands_line f) B &&
  reads_as (soc_line f) soc &&
  (bool_decide (soc = 0%Z) || bool_decide (soc = 1%Z)) &&
  reads_as (symm_count_line f) S &&
  bool_decide (len (symm_rows f) = S) &&
  numeric_table (symm_rows f) &&
  reads_as (kvec_count_line f) K &&
  bool_decide (len (kvec_rows f) = K) &&
  forallb (numeric_row 3) (kvec_rows f) &&
  bool_decide (len (blocks f) = K) &&
  forallb well_formed_block (blocks f).

(** The entries a record holds for k-vector [idx] are those of block
    [idx] of the file. *)
Definition reads_block (f : trace_file) (idx : nat) (count : Z)
    (ops : list Z) (trace : ndarray F) : Prop :=
  ∃ b, blocks f !! idx = Some b
       ∧ int (count_line b) = Ok count
       ∧ little_cogroup (index_line b) = Ok ops
       ∧ loadtxt float (table b) = Ok trace.

End layout.

(** The assumption behind the search for block starts: inside a block,
    only the first line has a single entry. *)
Definition one_start (b : block) : bool :=
  negb (single_entry (index_line b)) &&
  forallb (λ row, negb (single_entry row)) (table b).

Definition one_start_per_block (f : trace_file) : bool :=
  forallb one_start (blocks f).

(** The same of every block but the last: what the last block holds
    after its first line is not looked at when the blocks are located. *)
Definition one_start_but_last (f : trace_file) : bool :=
  forallb one_start (removelast (blocks f)).

(** The test of a block start in the words of the description: the line,
    split on whitespace and stripped of empties, has exactly one token. *)
Definition one_token (line : string) : bool :=
  (length (split_ws line) =? 1)%nat.

End TraceFormat.

(** ** [Vasp2TraceCaller] ([vasp2trace_caller.py], lines 38-85) *)

Module Vasp2TraceCaller.

(** What [process.communicate()] and [process.returncode] give back:
    the two outputs are byte strings. *)
Record process : Type := Process {
  p_stdout : bytes;
  p_stderr : bytes;
  returncode : Z;
}.

(** The effects of the constructor that outlive it, in order: the
    change of directory, the start of the program, the call of
    [warnings.warn]. *)
Inductive event : Type :=
| Chdir (path : string)
| Popen (args : list string)
| Warn (message : string).

(** [_stderr] holds the decoded text when the program printed
    something on its standard error, and the empty byte string
    otherwise. *)
Record instance (F : Type) : Type := Instance {
  _stdout : string;
  _stderr : bytes + string;
  output : Vasp2TraceOutput.instance F;
}.
Arguments Instance {F}.
Arguments _stdout {F} _.
Arguments _stderr {F} _.
Arguments output {F} _.

(** A run of the constructor: the world it leaves, the effects it had,
    and the instance or the exception. *)
Record run (A : Type) : Type := Run {
  final : world;
  log : list event;
  returned : result A;
}.
Arguments Run {A}.
Arguments final {A} _.
Arguments log {A} _.
Arguments returned {A} _.

Definition requires_message : string :=
  "Vasp2TraceCaller requires vasp2trace to be in the path.Please follow the instructions at http://www.cryst.ehu.es/cgi-bin/cryst/programs/topological.pl.".

Definition exit_message (code : Z) : string :=
  "vasp2trace exited with return code " +:+ pretty code +:+ ".".

(** Truth value of [which("vasp2trace")]. *)
Definition found (exe : option string) : bool :=
  match exe with
  | Some p => nonempty p
  | None => false
  end.

Section caller.
Context {F : Type} (float : string → option F).
(** [VASP2TRACEEXE] is computed once, when the module is imported. *)
Context (VASP2TRACEEXE : option string).
(** The external program: started in a world, either it cannot be
    started and [subprocess.Popen] raises, or it runs to its end, and
    then it has left files and the parent process collects its outputs
    and its return code. *)
Context (vasp2trace : world → io_error + gmap string node * process).
(** The warning filters in force: whether [warnings.warn] of a text
    raises the warning as an exception instead of reporting it. *)
Context (raises_warning : string → bool).

(** Lines 72-74: when the program printed on its standard error, the
    text is decoded and handed to [warnings.warn]. The effect and either
    the value kept for [_stderr] or the exception. *)
Definition report (stderr : bytes) : list event * result (bytes + string) :=
  if is_nil stderr then ([], Ok (inl stderr))
  else
    match decode stderr with
    | Raise e => ([], Raise e)
    | Ok stderr =>
        ([Warn stderr],
         if raises_warning stderr then Raise (UserWarning stderr)
         else Ok (inr stderr))
    end.

(** The constructor under its guard [@requires(VASP2TRACEEXE, ...)]: the
    guard raises before the body runs when the executable was not found.
    The body checks the two files, changes directory, runs the program,
    decodes what it printed, warns about what it printed on its standard
    error, checks the return code, and hands the text it printed on its
    standard output to [Vasp2TraceOutput], which opens it as a path. Each
    of these steps can raise, and what was done before it stays done. *)
Definition __init__ (w : world) (folder_name : string) : run (instance F) :=
  if negb (found VASP2TRACEEXE) then
    Run w [] (Raise (RuntimeError requires_message))
  else if negb (isfile w (folder_name +:+ "/OUTCAR"))
          || negb (isfile w (folder_name +:+ "/WAVECAR")) then
    Run w [] (Raise FileNotFoundError)
  else
    match chdir w folder_name with
    | Raise e => Run w [] (Raise e)
    | Ok w =>
        match vasp2trace w with
        | inl e => Run w [Chdir folder_name] (Raise (raise_io e))
        | inr (files_left, process) =>
            let w := {| files := files_left; descriptors := descriptors w;
                        cwd := cwd w |} in
            let effects := [Chdir folder_name; Popen ["vasp2trace"]] in
            match decode (p_stdout process) with
            | Raise e => Run w effects (Raise e)
            | Ok stdout =>
                let '(warned, stderr) := report (p_stderr process) in
                let effects := effects ++ warned in
                match stderr with
                | Raise e => Run w effects (Raise e)
                | Ok stderr =>
                    if negb (returncode process =? 0)%Z then
                      Run w effects
                        (Raise (RuntimeError
                                  (exit_message (returncode process))))
                    else
                      Run w effects
                        (output ← Vasp2TraceOutput.new float w stdout;
                         Ok {| _stdout := stdout; _stderr := stderr;
                               output := output |})
                end
            end
        end
    end.

End caller.

End Vasp2TraceCaller.

(** ** [analyzer.py]: values and the external library *)

Module Topology.

(** Python values that reach the analyzer. [VFloat m e] is the literal
    [m * 10^e]; [VObject] is an object owned by other code (a convergence
    result, a system, a function); [VOutput] is an instance of
    [BandTopologyAnalyzerOutput] with its four attributes. *)
Inductive value : Type :=
| VNone
| VBool (b : bool)
| VInt (z : Z)
| VFloat (m e : Z)
| VStr (s : string)
| VRange (start stop step : Z)
| VList (l : list value)
| VObject (id : nat)
| VOutput (_result surface chern_number z2_invariant : value).

(** What the code uses of [z2pack], and the application of a callable. *)
Record z2pack : Type := Z2pack {
  fp_kpoint_vasp : value;
  fp_System : gmap string value → result value;
  surface_run : gmap string value → result value;
  invariant_chern : value → result value;
  invariant_z2 : value → result value;
  call : value → list value → result value;
}.

Definition getitem (d : gmap string value) (k : string) : result value :=
  of_option KeyError (d !! k).

End Topology.

(** ** [BandTopologyAnalyzerOutput] ([analyzer.py], lines 131-162) *)

Module BandTopologyAnalyzerOutput.
Import Topology.

Record instance : Type := Instance {
  _result : value;
  surface : value;
  chern_number : value;
  z2_invariant : value;
}.

(** The instance as an argument of a call. *)
Definition as_value (self : instance) : value :=
  VOutput (_result self) (surface self) (chern_number self) (z2_invariant self).

Definition _parse_result (lib : z2pack) (self : instance)
    (result surface : value) : Py.result instance :=
  chern_number ← invariant_chern lib result;
  z2_invariant ← invariant_z2 lib result;
  let self :=
    {| _result := _result self;
       surface := BandTopologyAnalyzerOutput.surface self;
       chern_number := chern_number;
       z2_invariant := z2_invariant |} in
  surface_vec ← call lib surface [VStr "t1"; VStr "t2"];
  Ok {| _result := _result self;
        surface := surface_vec;
        chern_number := BandTopologyAnalyzerOutput.chern_number self;
        z2_invariant := BandTopologyAnalyzerOutput.z2_invariant self |}.

(** The constructor ends with [self._parse_result(self, result)]: the
    bound method receives the instance as [result] and the convergence
    result as [surface]. *)
Definition __init__ (lib : z2pack) (result surface chern_number z2_invariant : value)
  : Py.result instance :=
  let self :=
    {| _result := result;
       surface := surface;
       chern_number := chern_number;
       z2_invariant := z2_invariant |} in
  _parse_result lib self (as_value self) result.

(** [BandTopologyAnalyzerOutput(result, surface)] *)
Definition new (lib : z2pack) (result surface : value) : Py.result instance :=
  __init__ lib result surface VNone VNone.

(** Serialisation inherited from [monty.json.MSONable], as for
    [Vasp2TraceOutput]: the entry [result] holds the attribute [_result]. *)
Definition as_dict (self : instance) : gmap string value :=
  <["@module" := VStr "pymatgen.analysis.topology.analyzer"]>
  (<["@class" := VStr "BandTopologyAnalyzerOutput"]>
  (<["result" := _result self]>
  (<["surface" := surface self]>
  (<["chern_number" := chern_number self]>
  (<["z2_invariant" := z2_invariant self]> ∅))))).

Definition init_args : list string :=
  ["result"; "surface"; "chern_number"; "z2_invariant"].

Definition from_dict (lib : z2pack) (d : gmap string value)
  : Py.result instance :=
  let decoded :=
    filter (λ kv, Vasp2TraceOutput.is_meta_key kv.1 = false) d in
  if bool_decide (dom decoded ⊆ list_to_set (C := gset string) init_args) then
    match decoded !! "result", decoded !! "surface" with
    | Some result, Some surface =>
        __init__ lib result surface
          (default VNone (decoded !! "chern_number"))
          (default VNone (decoded !! "z2_invariant"))
    | _, _ => Raise TypeError
    end
  else Raise TypeError.

End BandTopologyAnalyzerOutput.

(** ** [BandTopologyAnalyzer] ([analyzer.py], lines 35-128) *)

Module BandTopologyAnalyzer.
Import Topology.

Record instance : Type := Instance {
  surface : value;
  system : value;
  output : option BandTopologyAnalyzerOutput.instance;
}.

Definition input_file_names : list string :=
  ["CHGCAR"; "INCAR"; "POSCAR"; "POTCAR"; "wannier90.win"].

Definition __init__ (lib : z2pack) (input_dir : string) (surface : value)
  : result instance :=
  let input_files := (λ s, VStr (input_dir +:+ "/" +:+ s)) <$> input_file_names in
  let kpt_fct := fp_kpoint_vasp lib in
  system ← fp_System lib
    (<["input_files" := VList input_files]>
    (<["kpt_fct" := kpt_fct]>
    (<["kpt_path" := VStr "KPOINTS"]>
    (<["command" := VStr "srun vasp_std >& log"]>
    (<["mmn_path" := VStr "wannier90.mmn"]> ∅)))));
  Ok {| surface := surface; system := system; output := None |}.

(** The defaults [z2d] of [run]. *)
Definition z2_defaults : gmap string value :=
  <["pos_tol" := VFloat 1 (-2)]>
  (<["gap_tol" := VFloat 3 (-1)]>
  (<["move_tol" := VFloat 3 (-1)]>
  (<["num_lines" := VInt 11]>
  (<["min_neighbour_dist" := VFloat 1 (-2)]>
  (<["iterator" := VRange 8 27 2]>
  (<["load" := VBool true]>
  (<["save_file" := VStr "z2run.json"]> ∅))))))).

(** [if z2_settings: for k, v in z2_settings.items(): z2d.update({k: v})];
    [None] and the empty dict are both false. *)
Definition update_defaults (z2d : gmap string value)
    (z2_settings : option (gmap string value)) : gmap string value :=
  match z2_settings with
  | None => z2d
  | Some settings =>
      if bool_decide (settings = ∅) then z2d
      else map_fold (λ k v z2d, <[k := v]> z2d) z2d settings
  end.

(** The keyword arguments of the call [z2pack.surface.run(...)]. *)
Definition surface_run_kwargs (self : instance)
    (z2_settings : option (gmap string value)) : result (gmap string value) :=
  let system := system self in
  let surface := surface self in
  let z2d := update_defaults z2_defaults z2_settings in
  pos_tol ← getitem z2d "pos_tol";
  gap_tol ← getitem z2d "gap_tol";
  move_tol ← getitem z2d "move_tol";
  num_lines ← getitem z2d "num_lines";
  min_neighbour_dist ← getitem z2d "min_neighbour_dist";
  iterator ← getitem z2d "iterator";
  save_file ← getitem z2d "save_file";
  Ok (<["system" := system]>
     (<["surface" := surface]>
     (<["pos_tol" := pos_tol]>
     (<["gap_tol" := gap_tol]>
     (<["move_tol" := move_tol]>
     (<["num_lines" := num_lines]>
     (<["min_neighbour_dist" := min_neighbour_dist]>
     (<["iterator" := iterator]>
     (<["save_file" := save_file]> ∅))))))))).

(** The settings named by the documentation of [run], and those among
    them that the call hands over. *)
Definition recognized_keys : list string :=
  ["pos_tol"; "gap_tol"; "move_tol"; "num_lines"; "min_neighbour_dist";
   "iterator"; "load"; "save_file"].

Definition forwarded_keys : list string :=
  ["pos_tol"; "gap_tol"; "move_tol"; "num_lines"; "min_neighbour_dist";
   "iterator"; "save_file"].

(** [z2_settings.get(k)] when settings are given. *)
Definition setting (z2_settings : option (gmap string value)) (k : string)
  : option value :=
  z2_settings ≫= (λ settings, settings !! k).

Definition run (lib : z2pack) (self : instance)
    (z2_settings : option (gmap string value)) : result instance :=
  kwargs ← surface_run_kwargs self z2_settings;
  result ← surface_run lib kwargs;
  output ← BandTopologyAnalyzerOutput.new lib result (surface self);
  Ok {| surface := surface self; system := system self; output := Some output |}.

End BandTopologyAnalyzer.

(** ** Concrete files, worlds and libraries used as test inputs *)

Module Fixtures.
Import TraceFormat.

Definition nl : string := String "010"%char EmptyString.

(** A line of text with its terminator. *)
Definition ln (s : string) : string := s +:+ nl.

Definition numeric_char (c : ascii) : bool :=
  let n := nat_of_ascii c in
  ((48 <=? n)%nat && (n <=? 57)%nat)
  || (n =? 43)%nat || (n =? 45)%nat || (n =? 46)%nat.

Fixpoint all_chars (p : ascii → bool) (s : string) : bool :=
  match s with
  | EmptyString => true
  | String c s' => p c && all_chars p s'
  end.

(** A conversion for the examples: a token made of digits, signs and
    points is accepted and kept as written. *)
Definition literal (s : string) : option string :=
  if nonempty s && all_chars numeric_char s then Some s else None.

Definition symm_rows_E_I : list string :=
  ln <$> ["1 0 0 0 1 0 0 0 1 0 0 0"; "-1 0 0 0 -1 0 0 0 -1 0 0 0"].

(** Two symmetry operations, two k-vectors, two operations in each
    little cogroup. *)
Definition file_two : trace_file :=
  {| bands_line := ln "68";
     soc_line := ln "0";
     symm_count_line := ln "2";
     symm_rows := symm_rows_E_I;
     kvec_count_line := ln "2";
     kvec_rows := ln <$> ["0.0 0.0 0.0"; "0.5 0.5 0.5"];
     blocks :=
       [ {| count_line := ln "2";
            index_line := ln "1 2";
            table := ln <$> ["1 1 -5.5 1.0 0.0 1.0 0.0";
                             "2 1 -4.5 1.0 0.0 -1.0 0.0"] |};
         {| count_line := ln "2";
            index_line := ln "1 2";
            table := ln <$> ["1 2 -5.2 2.0 0.0 0.0 0.0"] |} ] |}.

(** The little cogroup of the first k-vector holds one operation, so
    the line of its indices has a single entry. *)
Definition file_single_op : trace_file :=
  {| bands_line := ln "68";
     soc_line := ln "0";
     symm_count_line := ln "2";
     symm_rows := symm_rows_E_I;
     kvec_count_line := ln "2";
     kvec_rows := ln <$> ["0.1 0.2 0.3"; "0.5 0.5 0.5"];
     blocks :=
       [ {| count_line := ln "1";
            index_line := ln "1";
            table := ln <$> ["1 1 -5.5 1.0 0.0"] |};
         {| count_line := ln "2";
            index_line := ln "1 2";
            table := ln <$> ["1 1 -5.5 1.0 0.0 1.0 0.0"] |} ] |}.

(** The little cogroup of the last k-vector holds one operation: the
    single-entry line of its indices follows the last block start. *)
Definition file_last_single_op : trace_file :=
  {| bands_line := ln "68";
     soc_line := ln "0";
     symm_count_line := ln "2";
     symm_rows := symm_rows_E_I;
     kvec_count_line := ln "2";
     kvec_rows := ln <$> ["0.0 0.0 0.0"; "0.5 0.5 0.5"];
     blocks :=
       [ {| count_line := ln "2";
            index_line := ln "1 2";
            table := ln <$> ["1 1 -5.5 1.0 0.0 1.0 0.0"] |};
         {| count_line := ln "1";
            index_line := ln "2";
            table := ln <$> ["1 1 -5.2 1.0 0.0"] |} ] |}.

(** No occupied band, hence empty tables; the first little cogroup holds
    the second operation only. *)
Definition file_no_bands : trace_file :=
  {| bands_line := ln "0";
     soc_line := ln "0";
     symm_count_line := ln "2";
     symm_rows := symm_rows_E_I;
     kvec_count_line := ln "2";
     kvec_rows := ln <$> ["0.0 0.0 0.0"; "0.5 0.5 0.5"];
     blocks :=
       [ {| count_line := ln "1"; index_line := ln "2"; table := [] |};
         {| count_line := ln "1"; index_line := ln "1"; table := [] |} ] |}.

(** One k-vector only. *)
Definition file_one_kvec : trace_file :=
  {| bands_line := ln "68";
     soc_line := ln "0";
     symm_count_line := ln "2";
     symm_rows := symm_rows_E_I;
     kvec_count_line := ln "1";
     kvec_rows := ln <$> ["0.0 0.0 0.0"];
     blocks := take 1 (blocks file_two) |}.

(** One symmetry operation only; the lines of indices end with a space,
    which keeps them from having a single entry. *)
Definition file_one_symm_op : trace_file :=
  {| bands_line := ln "68";
     soc_line := ln "0";
     symm_count_line := ln "1";
     symm_rows := take 1 symm_rows_E_I;
     kvec_count_line := ln "2";
     kvec_rows := ln <$> ["0.0 0.0 0.0"; "0.5 0.5 0.5"];
     blocks :=
       [ {| count_line := ln "1";
            index_line := ln "1 ";
            table := ln <$> ["1 1 -5.5 1.0 0.0"] |};
         {| count_line := ln "1";
            index_line := ln "1 ";
            table := ln <$> ["1 1 -5.2 1.0 0.0"] |} ] |}.

(** [file_two] with a third k-vector that the header does not count. *)
Definition file_extra_kvec : trace_file :=
  {| bands_line := ln "68";
     soc_line := ln "0";
     symm_count_line := ln "2";
     symm_rows := symm_rows_E_I;
     kvec_count_line := ln "2";
     kvec_rows := ln <$> ["0.0 0.0 0.0"; "0.5 0.5 0.5"; "0.5 0.0 0.0"];
     blocks := blocks file_two |}.

(** [file_two] without its second block. *)
Definition file_one_block : trace_file :=
  {| bands_line := ln "68";
     soc_line := ln "0";
     symm_count_line := ln "2";
     symm_rows := symm_rows_E_I;
     kvec_count_line := ln "2";
     kvec_rows := ln <$> ["0.0 0.0 0.0"; "0.5 0.5 0.5"];
     blocks := take 1 (blocks file_two) |}.

(** [file_two] with a word in the table of its first block. *)
Definition file_bad_row : trace_file :=
  {| bands_line := ln "68";
     soc_line := ln "0";
     symm_count_line := ln "2";
     symm_rows := symm_rows_E_I;
     kvec_count_line := ln "2";
     kvec_rows := ln <$> ["0.0 0.0 0.0"; "0.5 0.5 0.5"];
     blocks :=
       [ {| count_line := ln "2";
            index_line := ln "1 2";
            table := ln <$> ["1 1 -5.5 1.0 0.0 1.0 0.0";
                             "2 1 ****** 1.0 0.0 -1.0 0.0"] |};
         {| count_line := ln "2";
            index_line := ln "1 2";
            table := ln <$> ["1 2 -5.2 2.0 0.0 0.0 0.0"] |} ] |}.

Definition trace_path : string := "/run/trace.txt".

(** A world whose only file is [trace_path], holding [f]. *)
Definition world_with (f : trace_file) : world :=
  {| files := {[ "/run" := directory;
                 trace_path := text_file (file_lines f) ]};
     descriptors := ∅;
     cwd := "/run" |}.

Definition world_empty : world :=
  {| files := {[ "/run" := directory ]}; descriptors := ∅; cwd := "/run" |}.

(** A directory with the output of a band-structure run, and one with
    the wave functions missing. *)
Definition world_calc : world :=
  {| files := {[ "/calc" := directory;
                 "/calc/OUTCAR" := text_file [ln "vasp"];
                 "/calc/WAVECAR" := text_file [ln "waves"];
                 "/tmp" := directory;
                 "/tmp/OUTCAR" := text_file [ln "vasp"];
                 "/home" := directory ]};
     descriptors := ∅;
     cwd := "/home" |}.

(** The two files in the root directory, seen from [/home]. *)
Definition world_root : world :=
  {| files := {[ "/" := directory;
                 "/OUTCAR" := text_file [ln "vasp"];
                 "/WAVECAR" := text_file [ln "waves"];
                 "/home" := directory ]};
     descriptors := ∅;
     cwd := "/home" |}.

(** The world [w] seen from the directory [dir]. *)
Definition seen_from (w : world) (dir : string) : world :=
  {| files := files w; descriptors := descriptors w; cwd := dir |}.

(** An external program that writes nothing and exits with [code],
    having printed [out] and [err]. *)
Definition program (out err : bytes) (code : Z) (w : world)
  : io_error + gmap string node * Vasp2TraceCaller.process :=
  inr (files w,
       {| Vasp2TraceCaller.p_stdout := out;
          Vasp2TraceCaller.p_stderr := err;
          Vasp2TraceCaller.returncode := code |}).

(** The default warning filters: a warning is reported, not raised. *)
Definition default_filters (message : string) : bool := false.

(** A library whose invariants are defined on convergence results only
    (objects with an even identifier) and in which the objects with an
    odd identifier are functions returning the surface [[t1, t2, 0]]. *)
Definition sample_lib : Topology.z2pack :=
  {| Topology.fp_kpoint_vasp := Topology.VObject 100;
     Topology.fp_System := λ _, Ok (Topology.VObject 102);
     Topology.surface_run := λ _, Ok (Topology.VObject 0);
     Topology.invariant_chern := λ v,
       match v with
       | Topology.VObject id =>
           if Nat.even id then Ok (Topology.VInt 1) else Raise AttributeError
       | _ => Raise AttributeError
       end;
     Topology.invariant_z2 := λ v,
       match v with
       | Topology.VObject id =>
           if Nat.even id then Ok (Topology.VInt 0) else Raise AttributeError
       | _ => Raise AttributeError
       end;
     Topology.call := λ f args,
       match f, args with
       | Topology.VObject id, [t1; t2] =>
           if Nat.even id then Raise TypeError
           else Ok (Topology.VList [t1; t2; Topology.VInt 0])
       | _, _ => Raise TypeError
       end |}.

Definition sample_analyzer : BandTopologyAnalyzer.instance :=
  {| BandTopologyAnalyzer.surface := Topology.VObject 1;
     BandTopologyAnalyzer.system := Topology.VObject 102;
     BandTopologyAnalyzer.output := None |}.

End Fixtures.

(** ** Further notions used to describe the parser and its callers *)

Module Coverage.
Import TraceFormat Vasp2TraceOutput.

(** A line that [loadtxt] skips: whitespace only, up to a comment. *)
Definition blank (line : string) : bool := is_nil (split_line line).

(** [n] space characters. *)
Fixpoint spaces (n : nat) : string :=
  match n with
  | O => EmptyString
  | S n' => String " " (spaces n')
  end.

(** No space character occurs in [s]. *)
Fixpoint no_space (s : string) : bool :=
  match s with
  | EmptyString => true
  | String c s' => negb (Ascii.eqb " "%char c) && no_space s'
  end.

(** Every whitespace character of [s] is a space: no tab, no line
    terminator. *)
Fixpoint space_separated (s : string) : bool :=
  match s with
  | EmptyString => true
  | String c s' =>
      Bool.eqb (is_space c) (Ascii.eqb " "%char c) && space_separated s'
  end.

Section turn.
Context {F : Type} (float : string → option F).

(** What the turn of k-vector [idx] reads to get its three entries: the
    block start of that index, the integer on that line, the indices on
    the next line and the table on the lines of [trace_rows]. *)
Definition turn_reads (lines : list string) (num_max_kvec : Z)
    (block_starts : list Z) (idx : nat) (count : Z) (ops : list Z)
    (trace : ndarray F) : Prop :=
  ∃ start_block trace_str count_line index_line,
    index block_starts (Z.of_nat idx) = Ok start_block
    ∧ trace_rows lines num_max_kvec block_starts idx start_block = Ok trace_str
    ∧ index lines start_block = Ok count_line
    ∧ int count_line = Ok count
    ∧ index lines (start_block + 1) = Ok index_line
    ∧ little_cogroup index_line = Ok ops
    ∧ loadtxt float trace_str = Ok trace.

End turn.

(** A run directory that also holds a trace file, [file_two]. *)
Definition world_traced : world :=
  {| files := {[ "/calc" := directory;
                 "/calc/." := directory;
                 "/calc/OUTCAR" := text_file [Fixtures.ln "vasp"];
                 "/calc/WAVECAR" := text_file [Fixtures.ln "waves"];
                 "/calc/trace.txt" := text_file (file_lines Fixtures.file_two);
                 "/home" := directory ]};
     descriptors := ∅;
     cwd := "/home" |}.

End Coverage.

(** * Properties *)

(** ** Facts about the Python primitives *)

Module PyFacts.

Lemma bind_ok {A B} (m : result A) (k : A → result B) b :
  m ≫= k = Ok b → ∃ a, m = Ok a ∧ k a = Ok b.
Proof. destruct m as [a|e]; simpl; [eauto | discriminate]. Qed.

(** One step through a bind whose first computation has returned. *)
Ltac step := cbn [mbind result_bind mret result_ret].
Tactic Notation "step" "in" hyp(H) :=
  cbn [mbind result_bind mret result_ret] in H.

Lemma index_nonneg {A} (l : list A) (i : Z) :
  (0 ≤ i)%Z → index l i = of_option IndexError (l !! Z.to_nat i).
Proof.
  intros Hi. unfold index.
  destruct (Z.ltb_spec i 0) as [?|_]; [lia|].
  destruct (Z.leb_spec 0 i) as [_|?]; [done|lia].
Qed.

Lemma index_lookup {A} (l : list A) (i : nat) x :
  l !! i = Some x → index l (Z.of_nat i) = Ok x.
Proof.
  intros Hl. rewrite index_nonneg by lia. by rewrite Nat2Z.id, Hl.
Qed.

Lemma index_middle {A} (pre post : list A) x (i : Z) :
  i = len pre → index (pre ++ x :: post) i = Ok x.
Proof.
  intros ->. unfold len. apply index_lookup.
  by rewrite lookup_app_r, Nat.sub_diag.
Qed.

Lemma index_short {A} (l : list A) (i : Z) :
  (len l ≤ i)%Z → index l i = Raise IndexError.
Proof.
  unfold len. intros Hi. rewrite index_nonneg by lia.
  rewrite lookup_ge_None_2; [done | lia].
Qed.

Lemma slice_bound_nonneg (n i : Z) :
  (0 ≤ i ≤ n)%Z → slice_bound n i = Z.to_nat i.
Proof.
  intros Hi. unfold slice_bound.
  destruct (Z.ltb_spec i 0); [lia|]. f_equal. lia.
Qed.

Lemma slice_middle {A} (pre mid post : list A) (a b : Z) :
  a = len pre → b = (len pre + len mid)%Z →
  slice (pre ++ mid ++ post) a b = mid.
Proof.
  intros -> ->. unfold slice, len.
  rewrite !slice_bound_nonneg by (rewrite !length_app; lia).
  rewrite Nat2Z.id, drop_app_length.
  replace (Z.to_nat _ - _)%nat with (length mid) by lia.
  by rewrite take_app_length.
Qed.

Lemma slice_from_end {A} (pre post : list A) (a : Z) :
  a = len pre → slice_from (pre ++ post) a = post.
Proof.
  intros ->. unfold slice_from, len.
  rewrite slice_bound_nonneg by (rewrite length_app; lia).
  by rewrite Nat2Z.id, drop_app_length.
Qed.

Lemma len_app {A} (l k : list A) : len (l ++ k) = (len l + len k)%Z.
Proof. unfold len. rewrite length_app. lia. Qed.

Lemma len_cons {A} (x : A) (l : list A) : len (x :: l) = (1 + len l)%Z.
Proof. unfold len. simpl. lia. Qed.

Lemma len_nonneg {A} (l : list A) : (0 ≤ len l)%Z.
Proof. unfold len. lia. Qed.

(** A comprehension succeeds when its element expression does. *)
Lemma comprehension_ok {A B} (f : A → result B) (P : A → B → Prop) l :
  Forall (λ x, ∃ y, f x = Ok y ∧ P x y) l →
  ∃ ys, comprehension f l = Ok ys ∧ Forall2 P l ys.
Proof.
  induction 1 as [|x l (y & Hy & HP) _ (ys & Hys & HF)]; simpl.
  - by exists [].
  - exists (y :: ys). rewrite Hy, Hys. simpl. by split; [|constructor].
Qed.

(** It raises as soon as the element expression raises once. *)
Lemma comprehension_raise {A B} (f : A → result B) l x :
  x ∈ l → is_ok (f x) = false → is_ok (comprehension f l) = false.
Proof.
  induction 1 as [x l|x z l _ IH]; simpl; intros Hx.
  - destruct (f x); [done | done].
  - destruct (f z); [simpl | done].
    specialize (IH Hx). by destruct (comprehension f l).
Qed.

(** A loop that ends normally ran its body normally in every turn. *)
Lemma for_each_ok {A B} (body : B → A → result B) l acc d x :
  for_each body l acc = Ok d → x ∈ l → ∃ acc', is_ok (body acc' x) = true.
Proof.
  revert acc. induction l as [|z l IH]; intros acc Hd Hx.
  - by apply elem_of_nil in Hx.
  - simpl in Hd. apply bind_ok in Hd as (acc1 & Hz & Hd).
    apply elem_of_cons in Hx as [->|Hx]; [|by eapply IH].
    exists acc. by rewrite Hz.
Qed.

(** Two loop bodies that agree on the elements of a list give the same
    loop. *)
Lemma for_each_ext {A B} (body1 body2 : B → A → result B) (l : list A)
    (acc : B) :
  (∀ acc x, x ∈ l → body1 acc x = body2 acc x) →
  for_each body1 l acc = for_each body2 l acc.
Proof.
  revert acc. induction l as [|x l IH]; intros acc Hext; [done|].
  simpl. rewrite Hext by (apply elem_of_cons; by left).
  destruct (body2 acc x) as [acc'|e]; [|done]. simpl.
  apply IH. intros acc'' y Hy. apply Hext. apply elem_of_cons. by right.
Qed.

End PyFacts.

(** ** Facts about [loadtxt] *)

Module NumpyFacts.
Import PyFacts TraceFormat Coverage.

Section facts.
Context {F : Type} (float : string → option F).

Lemma numeric_row_convert (ncols : nat) (line : string) :
  numeric_row float ncols line = true →
  ∃ cells, convert_row float ncols (split_line line) = Ok cells
           ∧ length cells = ncols.
Proof.
  unfold numeric_row, convert_row.
  intros [Hlen Hall]%andb_prop. rewrite Hlen.
  apply Nat.eqb_eq in Hlen. rewrite forallb_forall in Hall.
  destruct (comprehension_ok (λ v, of_option ValueError (float v))
              (λ _ _, True) (split_line line)) as (cells & -> & Hcells).
  - apply Forall_forall. intros v Hv%list_elem_of_In%Hall.
    apply bool_decide_eq_true in Hv as [x ->]. by exists x.
  - exists cells. split; [done|].
    apply Forall2_length in Hcells. congruence.
Qed.

Lemma numeric_rows_kept (ncols : nat) (rows : list string) :
  (0 < ncols)%nat →
  Forall (λ row, numeric_row float ncols row = true) rows →
  List.filter (λ vals, negb (is_nil vals)) (split_line <$> rows)
  = split_line <$> rows.
Proof.
  intros Hpos. induction 1 as [|row rows Hrow _ IH]; [done|].
  apply andb_prop in Hrow as [Hlen%Nat.eqb_eq _].
  rewrite fmap_cons. cbn [List.filter].
  destruct (split_line row) eqn:Hvals; [simpl in Hlen; lia|].
  cbn [is_nil negb]. by rewrite IH.
Qed.

Lemma concat_singletons {A} (rows : list (list A)) :
  Forall (λ row, length row = 1%nat) rows → length (concat rows) = length rows.
Proof.
  induction 1 as [|row rows Hrow _ IH]; [done|].
  simpl. rewrite length_app. lia.
Qed.

Lemma squeeze_rows (ncols : nat) (row row' : list F) (rows : list (list F)) :
  squeeze ncols (row :: row' :: rows)
  = if (ncols =? 1)%nat then Vector (column (row :: row' :: rows))
    else Matrix (row :: row' :: rows).
Proof. by destruct row as [|x [|]]. Qed.

Lemma squeeze_len (ncols : nat) (rows : list (list F)) :
  length rows ≠ 1%nat →
  Forall (λ row, length row = ncols) rows →
  array_len (squeeze ncols rows) = Ok (length rows).
Proof.
  intros Hne Hrows.
  destruct rows as [|row [|row' rows]]; [| done |].
  - unfold squeeze. by destruct (ncols =? 1)%nat.
  - rewrite squeeze_rows.
    destruct (Nat.eqb_spec ncols 1) as [->|_]; [|done].
    unfold column, array_len. by rewrite (concat_singletons _ Hrows).
Qed.

(** A numeric table is read without exception, and unless it has
    exactly one row the array has as many entries as the table has rows. *)
Lemma loadtxt_numeric_table (rows : list string) :
  numeric_table float rows = true →
  ∃ a, loadtxt float rows = Ok a
       ∧ (length rows ≠ 1%nat → array_len a = Ok (length rows)).
Proof.
  destruct rows as [|row rows]; [by exists (Vector [])|].
  unfold numeric_table. set (ncols := length (split_line row)).
  intros [Hpos%Nat.ltb_lt Hall]%andb_prop.
  assert (Forall (λ r, numeric_row float ncols r = true) (row :: rows)) as Hrows.
  { apply Forall_forall. intros r Hr%list_elem_of_In.
    rewrite forallb_forall in Hall. by apply Hall. }
  unfold loadtxt. rewrite (numeric_rows_kept ncols) by done.
  rewrite fmap_cons. fold ncols.
  destruct (comprehension_ok (convert_row float ncols)
              (λ _ cells, length cells = ncols) (split_line <$> row :: rows))
    as (cells & Hcells & Hshape).
  { apply Forall_fmap. eapply Forall_impl; [exact Hrows|].
    intros r Hr. by apply numeric_row_convert. }
  rewrite <- fmap_cons, Hcells.
  exists (squeeze ncols cells). split; [done|].
  assert (length cells = length (row :: rows)) as Hlen.
  { apply Forall2_length in Hshape. by rewrite length_fmap in Hshape. }
  intros Hne. rewrite <- Hlen. apply squeeze_len; [congruence|].
  clear -Hshape. induction Hshape; by constructor.
Qed.

(** A table with a token that is not a number is refused. *)
Lemma loadtxt_not_numeric (rows : list string) (row token : string) :
  row ∈ rows → token ∈ split_line row → float token = None →
  is_ok (loadtxt float rows) = false.
Proof.
  intros Hrow Htok Hbad. unfold loadtxt.
  set (table := List.filter _ _).
  assert (split_line row ∈ table) as Hin.
  { apply list_elem_of_In, filter_In. split.
    - apply list_elem_of_In, list_elem_of_fmap. eauto.
    - destruct (split_line row); [by apply elem_of_nil in Htok | done]. }
  destruct table as [|first_vals table']; [by apply elem_of_nil in Hin|].
  assert (is_ok (comprehension (convert_row float (length first_vals))
                   (first_vals :: table')) = false) as Hraise.
  { eapply comprehension_raise; [exact Hin|].
    unfold convert_row. destruct (_ =? _)%nat; [|done].
    eapply comprehension_raise; [exact Htok|]. by rewrite Hbad. }
  by destruct (comprehension _ _).
Qed.

(** [loadtxt] skips blank lines, at the end of its input as elsewhere. *)
Lemma loadtxt_blank_suffix (rows trailer : list string) :
  Forall (λ line, blank line = true) trailer →
  loadtxt float (rows ++ trailer) = loadtxt float rows.
Proof.
  intros Hblank. unfold loadtxt.
  rewrite fmap_app, List.filter_app.
  assert (List.filter (λ vals : list string, negb (is_nil vals))
            (split_line <$> trailer) = []) as ->.
  { induction Hblank as [|line trailer Hline _ IH]; [done|].
    rewrite fmap_cons. cbn [List.filter]. unfold blank in Hline.
    by rewrite Hline. }
  by rewrite app_nil_r.
Qed.

End facts.

End NumpyFacts.

(** ** The parser on well-formed files *)

Module ParseFacts.
Import PyFacts NumpyFacts TraceFormat Vasp2TraceOutput.

Lemma enumerate_app {A} (l k : list A) (start : Z) :
  enumerate (l ++ k) start = enumerate l start ++ enumerate k (start + len l)%Z.
Proof.
  revert start. induction l as [|x l IH]; intros start; simpl.
  - unfold len. simpl. by rewrite Z.add_0_r.
  - rewrite IH, len_cons. do 3 f_equal. lia.
Qed.

Lemma collect_rows (rows : list string) (start : Z) (acc : list Z) :
  Forall (λ row, single_entry row = false) rows →
  fold_left collect (enumerate rows start) acc = acc.
Proof.
  intros Hrows. revert start acc.
  induction Hrows as [|row rows Hrow _ IH]; intros start acc; [done|].
  simpl. rewrite Hrow. apply IH.
Qed.

(** The search only adds block starts to those it has. *)
Lemma collect_extends (l : list string) (start : Z) (acc : list Z) :
  ∃ extra, fold_left collect (enumerate l start) acc = acc ++ extra.
Proof.
  revert start acc. induction l as [|line l IH]; intros start acc.
  - exists []. by rewrite app_nil_r.
  - cbn [enumerate fold_left collect]. destruct (single_entry line).
    + destruct (IH (start + 1)%Z (acc ++ [start])) as [extra ->].
      exists (start :: extra). by rewrite <- app_assoc.
    + apply IH.
Qed.

Lemma blocks_lines_cons (b : block) (bs : list block) :
  blocks_lines (b :: bs)
  = count_line b :: index_line b :: table b ++ blocks_lines bs.
Proof. done. Qed.

Lemma blocks_lines_app (bs1 bs2 : list block) :
  blocks_lines (bs1 ++ bs2) = blocks_lines bs1 ++ blocks_lines bs2.
Proof. unfold blocks_lines. by rewrite fmap_app, concat_app. Qed.

Lemma len_block_lines (b : block) : len (block_lines b) = (2 + len (table b))%Z.
Proof. unfold block_lines. rewrite !len_cons. lia. Qed.

(** With one single-entry line per block, the search finds the first
    line of every block and nothing else. *)
Lemma collect_blocks (bs : list block) (start : Z) (acc : list Z) :
  Forall (λ b, single_entry (count_line b) = true ∧ one_start b = true) bs →
  fold_left collect (enumerate (blocks_lines bs) start) acc
  = acc ++ block_offsets start bs.
Proof.
  intros Hbs. revert start acc.
  induction Hbs as [|b bs [Hcount Hone] _ IH]; intros start acc.
  - simpl. by rewrite app_nil_r.
  - apply andb_prop in Hone as [Hindex%negb_true_iff Htable].
    rewrite blocks_lines_cons. cbn [enumerate fold_left collect].
    rewrite Hcount, Hindex.
    rewrite enumerate_app, fold_left_app, (collect_rows (table b)).
    + rewrite IH, <- app_assoc. cbn [block_offsets]. do 3 f_equal.
      rewrite len_block_lines. lia.
    + apply Forall_forall. intros row Hrow%list_elem_of_In.
      rewrite forallb_forall in Htable. by apply negb_true_iff, Htable.
Qed.

Lemma collect_cons (line : string) (l : list string) (start : Z)
    (acc : list Z) :
  fold_left collect (enumerate (line :: l) start) acc
  = fold_left collect (enumerate l (start + 1))
      (if single_entry line then acc ++ [start] else acc).
Proof. done. Qed.

(** When every block but the last has one single-entry line, the search
    finds the first line of every block, in order, and after them only
    lines of the last block. *)
Lemma collect_blocks_but_last (bs : list block) (start : Z) (acc : list Z) :
  Forall (λ b, single_entry (count_line b) = true) bs →
  forallb one_start (removelast bs) = true →
  ∃ extra,
    fold_left collect (enumerate (blocks_lines bs) start) acc
    = acc ++ block_offsets start bs ++ extra.
Proof.
  intros Hcount. revert start acc.
  induction Hcount as [|b bs Hb Hbs IH]; intros start acc Hone.
  - exists []. simpl. by rewrite app_nil_r.
  - rewrite blocks_lines_cons, collect_cons, Hb.
    destruct bs as [|b' bs'].
    + destruct (collect_extends (index_line b :: table b ++ blocks_lines [])
                  (start + 1) (acc ++ [start])) as [extra ->].
      exists extra. cbn [block_offsets]. by rewrite <- app_assoc.
    + change (removelast (b :: b' :: bs'))
        with (b :: removelast (b' :: bs')) in Hone.
      cbn [forallb] in Hone. apply andb_prop in Hone as [Hb1 Hone].
      apply andb_prop in Hb1 as [Hindex%negb_true_iff Htable].
      rewrite collect_cons, Hindex.
      rewrite enumerate_app, fold_left_app, (collect_rows (table b)).
      * destruct (IH (start + 1 + 1 + len (table b))%Z (acc ++ [start]) Hone)
          as [extra ->].
        exists extra. cbn [block_offsets].
        replace (start + len (block_lines b))%Z
          with (start + 1 + 1 + len (table b))%Z
          by (rewrite (len_block_lines b); lia).
        by rewrite <- !app_assoc.
      * apply Forall_forall. intros row Hrow%list_elem_of_In.
        rewrite forallb_forall in Htable. by apply negb_true_iff, Htable.
Qed.

Lemma forallb_removelast {A} (p : A → bool) (l : list A) :
  forallb p l = true → forallb p (removelast l) = true.
Proof.
  induction l as [|x l IH]; [done|].
  cbn [forallb]. intros [Hx Hl]%andb_prop.
  destruct l as [|y l]; [done|].
  change (removelast (x :: y :: l)) with (x :: removelast (y :: l)).
  cbn [forallb]. by rewrite Hx, (IH Hl).
Qed.

Lemma length_block_offsets (start : Z) (bs : list block) :
  length (block_offsets start bs) = length bs.
Proof.
  revert start. induction bs as [|b bs IH]; intros start; [done|].
  simpl. by rewrite IH.
Qed.

Lemma block_offsets_lookup (start : Z) (bs1 bs2 : list block) (b : block) :
  block_offsets start (bs1 ++ b :: bs2) !! length bs1
  = Some (start + len (blocks_lines bs1))%Z.
Proof.
  revert start. induction bs1 as [|b1 bs1 IH]; intros start; simpl.
  - f_equal. unfold len. simpl. lia.
  - rewrite IH. f_equal. change (blocks_lines (b1 :: bs1))
      with (block_lines b1 ++ blocks_lines bs1).
    rewrite len_app. lia.
Qed.

Lemma block_offsets_snoc (start : Z) (bs : list block) (b : block) :
  block_offsets start (bs ++ [b])
  = block_offsets start bs ++ [(start + len (blocks_lines bs))%Z].
Proof.
  revert start. induction bs as [|b1 bs IH]; intros start; simpl.
  - do 2 f_equal. unfold len. simpl. lia.
  - rewrite IH. do 3 f_equal.
    change (blocks_lines (b1 :: bs))
      with (block_lines b1 ++ blocks_lines bs).
    rewrite len_app. lia.
Qed.

(** Where a block sits among the lines. *)
Lemma block_at (pre rest table : list string) (count index_ : string) :
  let lines := pre ++ count :: index_ :: table ++ rest in
  index lines (len pre) = Ok count
  ∧ index lines (len pre + 1) = Ok index_
  ∧ slice lines (len pre + 2) (len pre + 2 + len table) = table
  ∧ (rest = [] → slice_from lines (len pre + 2) = table).
Proof.
  intros lines. split_and!.
  - by apply index_middle.
  - subst lines. rewrite (cons_middle count), app_assoc.
    apply index_middle. rewrite len_app. unfold len. simpl. lia.
  - subst lines.
    replace (pre ++ count :: index_ :: table ++ rest)
      with ((pre ++ [count; index_]) ++ table ++ rest)
      by (by rewrite <- app_assoc).
    apply slice_middle; rewrite len_app; unfold len; simpl; lia.
  - intros ->. subst lines. rewrite app_nil_r.
    replace (pre ++ count :: index_ :: table)
      with ((pre ++ [count; index_]) ++ table)
      by (by rewrite <- app_assoc).
    apply slice_from_end. rewrite len_app. unfold len. simpl. lia.
Qed.

End ParseFacts.

(** ** A well-formed file whose blocks have one start each is parsed
       as it is laid out *)

Module WellFormed.
Import PyFacts NumpyFacts ParseFacts TraceFormat Vasp2TraceOutput Coverage.

Lemma reads_as_int (line : string) (n : Z) :
  reads_as line n = true → int line = Ok n.
Proof.
  unfold reads_as. destruct (int line) as [m|]; [|done].
  by intros ->%bool_decide_eq_true.
Qed.

Section well_formed.
Context {F : Type} (float : string → option F).

Lemma well_formed_block_inv (b : block) :
  well_formed_block float b = true →
  single_entry (count_line b) = true
  ∧ ∃ n ops, int (count_line b) = Ok n
             ∧ little_cogroup (index_line b) = Ok ops
             ∧ len ops = n
             ∧ numeric_table float (table b) = true.
Proof.
  unfold well_formed_block.
  intros [[Hsingle Hcount]%andb_prop Htable]%andb_prop.
  split; [done|].
  destruct (int (count_line b)) as [n|]; [|done].
  destruct (little_cogroup (index_line b)) as [ops|]; [|done].
  apply bool_decide_eq_true in Hcount. by exists n, ops.
Qed.

(** One turn of the loop, on the block it is meant to read. *)
Lemma block_body_at (pre : list string) (bs1 bs2 : list block) (b : block)
    (acc : dicts F) (n : Z) (ops : list Z) (t : ndarray F) :
  int (count_line b) = Ok n →
  little_cogroup (index_line b) = Ok ops →
  loadtxt float (table b) = Ok t →
  block_body float (pre ++ blocks_lines (bs1 ++ b :: bs2))
    (len (bs1 ++ b :: bs2)) (block_offsets (len pre) (bs1 ++ b :: bs2))
    acc (length bs1)
  = Ok (store acc (length bs1) n ops t).
Proof.
  intros Hn Hops Ht.
  set (lines := pre ++ blocks_lines (bs1 ++ b :: bs2)).
  set (offsets := block_offsets (len pre) (bs1 ++ b :: bs2)).
  set (start := (len pre + len (blocks_lines bs1))%Z).
  assert (lines = (pre ++ blocks_lines bs1) ++
                  count_line b :: index_line b :: table b ++ blocks_lines bs2)
    as Hlines.
  { subst lines. by rewrite blocks_lines_app, blocks_lines_cons, app_assoc. }
  destruct (block_at (pre ++ blocks_lines bs1) (blocks_lines bs2) (table b)
              (count_line b) (index_line b)) as (Hcount & Hindex & Hmid & Hend).
  rewrite <- Hlines, len_app in Hcount, Hindex, Hmid, Hend.
  fold start in Hcount, Hindex, Hmid, Hend.
  assert (index offsets (Z.of_nat (length bs1)) = Ok start) as Hstart.
  { apply index_lookup, block_offsets_lookup. }
  assert (trace_rows lines (len (bs1 ++ b :: bs2)) offsets (length bs1) start
          = Ok (table b)) as Hrows.
  { assert (len (bs1 ++ b :: bs2) = Z.of_nat (length bs1) + 1 + len bs2)%Z
      as HK by (rewrite len_app, len_cons; unfold len; lia).
    unfold trace_rows. rewrite HK.
    destruct bs2 as [|b' bs2].
    - rewrite (proj2 (Z.ltb_ge _ _)) by (unfold len; simpl; lia).
      by rewrite Hend.
    - rewrite (proj2 (Z.ltb_lt _ _))
        by (rewrite len_cons; pose proof (len_nonneg bs2); lia).
      assert (index offsets (Z.of_nat (length bs1) + 1)
              = Ok (start + 2 + len (table b))%Z) as ->.
      { replace (Z.of_nat (length bs1) + 1)%Z
          with (Z.of_nat (length (bs1 ++ [b])))
          by (rewrite length_app; simpl; lia).
        apply index_lookup. subst offsets.
        replace (bs1 ++ b :: b' :: bs2) with ((bs1 ++ [b]) ++ b' :: bs2)
          by (by rewrite <- app_assoc).
        rewrite block_offsets_lookup. f_equal.
        rewrite blocks_lines_app. unfold blocks_lines at 2. simpl.
        rewrite app_nil_r, len_app, !len_cons. subst start. lia. }
      simpl. by rewrite Hmid. }
  unfold block_body. rewrite Hstart. simpl.
  rewrite Hrows. simpl. rewrite Hcount. simpl. rewrite Hn. simpl.
  rewrite Hindex. simpl. rewrite Hops. simpl. by rewrite Ht.
Qed.

(** One turn of the loop on its block, with lines after the last block
    and block starts found among them. *)
Lemma block_body_trailer (pre trailer : list string) (bs1 bs2 : list block)
    (b : block) (extra : list Z) (acc : dicts F) (n : Z) (ops : list Z)
    (t : ndarray F) :
  Forall (λ line, blank line = true) trailer →
  int (count_line b) = Ok n →
  little_cogroup (index_line b) = Ok ops →
  loadtxt float (table b) = Ok t →
  block_body float ((pre ++ blocks_lines (bs1 ++ b :: bs2)) ++ trailer)
    (len (bs1 ++ b :: bs2))
    (block_offsets (len pre) (bs1 ++ b :: bs2) ++ extra)
    acc (length bs1)
  = Ok (store acc (length bs1) n ops t).
Proof.
  intros Hblank Hn Hops Ht.
  set (lines := (pre ++ blocks_lines (bs1 ++ b :: bs2)) ++ trailer).
  set (offsets := block_offsets (len pre) (bs1 ++ b :: bs2)).
  set (start := (len pre + len (blocks_lines bs1))%Z).
  assert (lines = (pre ++ blocks_lines bs1) ++
                  count_line b :: index_line b :: table b ++
                  (blocks_lines bs2 ++ trailer))
    as Hlines.
  { subst lines. rewrite blocks_lines_app, blocks_lines_cons.
    rewrite <- !app_assoc. simpl. by rewrite <- !app_assoc. }
  destruct (block_at (pre ++ blocks_lines bs1) (blocks_lines bs2 ++ trailer)
              (table b) (count_line b) (index_line b))
    as (Hcount & Hindex & Hmid & _).
  rewrite <- Hlines, len_app in Hcount, Hindex, Hmid.
  fold start in Hcount, Hindex, Hmid.
  assert (index (offsets ++ extra) (Z.of_nat (length bs1)) = Ok start)
    as Hstart.
  { apply index_lookup, lookup_app_l_Some, block_offsets_lookup. }
  assert (∃ rows, trace_rows lines (len (bs1 ++ b :: bs2)) (offsets ++ extra)
                    (length bs1) start = Ok rows
                  ∧ loadtxt float rows = Ok t) as (rows & Hrows & Hload).
  { assert (len (bs1 ++ b :: bs2) = Z.of_nat (length bs1) + 1 + len bs2)%Z
      as HK by (rewrite len_app, len_cons; unfold len; lia).
    unfold trace_rows. rewrite HK.
    destruct bs2 as [|b' bs2].
    - rewrite (proj2 (Z.ltb_ge _ _)) by (unfold len; simpl; lia).
      exists (table b ++ trailer). split; [|by rewrite loadtxt_blank_suffix].
      f_equal. rewrite Hlines.
      replace ((pre ++ blocks_lines bs1) ++
               count_line b :: index_line b :: table b ++
               blocks_lines [] ++ trailer)
        with (((pre ++ blocks_lines bs1) ++ [count_line b; index_line b]) ++
              table b ++ trailer)
        by (by rewrite <- !app_assoc).
      apply slice_from_end. rewrite !len_app. subst start.
      unfold len. simpl. lia.
    - rewrite (proj2 (Z.ltb_lt _ _))
        by (rewrite len_cons; pose proof (len_nonneg bs2); lia).
      assert (index (offsets ++ extra) (Z.of_nat (length bs1) + 1)
              = Ok (start + 2 + len (table b))%Z) as ->.
      { replace (Z.of_nat (length bs1) + 1)%Z
          with (Z.of_nat (length (bs1 ++ [b])))
          by (rewrite length_app; simpl; lia).
        apply index_lookup, lookup_app_l_Some. subst offsets.
        replace (bs1 ++ b :: b' :: bs2) with ((bs1 ++ [b]) ++ b' :: bs2)
          by (by rewrite <- app_assoc).
        rewrite block_offsets_lookup. f_equal.
        rewrite blocks_lines_app. unfold blocks_lines at 2. simpl.
        rewrite app_nil_r, len_app, !len_cons. subst start. lia. }
      exists (table b). split; [|done]. simpl. by rewrite Hmid. }
  unfold block_body. rewrite Hstart. simpl.
  rewrite Hrows. simpl. rewrite Hcount. simpl. rewrite Hn. simpl.
  rewrite Hindex. simpl. rewrite Hops. simpl. by rewrite Hload.
Qed.

(** A loop whose every turn stores its three entries fills exactly the
    keys it runs over. *)
Lemma for_each_store (body : dicts F → nat → result (dicts F))
    (R : nat → Z → list Z → ndarray F → Prop) (n : nat) :
  (∀ acc i, (i < n)%nat →
     ∃ c ops t, body acc i = Ok (store acc i c ops t) ∧ R i c ops t) →
  ∀ m s acc, (s + m ≤ n)%nat →
  ∃ d, for_each body (seq s m) acc = Ok d
       ∧ ∀ i, ((s ≤ i < s + m)%nat →
                 ∃ c ops t, d_num_kvec_symm_ops d !! i = Some c
                            ∧ d_symm_ops_in_little_cogroup d !! i = Some ops
                            ∧ d_traces d !! i = Some t
                            ∧ R i c ops t)
              ∧ (¬ (s ≤ i < s + m)%nat →
                 d_num_kvec_symm_ops d !! i = d_num_kvec_symm_ops acc !! i
                 ∧ d_symm_ops_in_little_cogroup d !! i
                   = d_symm_ops_in_little_cogroup acc !! i
                 ∧ d_traces d !! i = d_traces acc !! i).
Proof.
  intros Hbody m. induction m as [|m IH]; intros s acc Hle.
  - exists acc. split; [done|]. intros i. split; [lia | done].
  - destruct (Hbody acc s) as (c & ops & t & Hturn & HR); [lia|].
    destruct (IH (S s) (store acc s c ops t)) as (d & Hd & Hfill); [lia|].
    exists d. split; [simpl; by rewrite Hturn|].
    intros i. destruct (Hfill i) as [Hin Hout]. split.
    + intros Hi. destruct (decide (i = s)) as [->|Hne]; [|apply Hin; lia].
      destruct Hout as (-> & -> & ->); [lia|].
      exists c, ops, t. unfold store; simpl. by rewrite !lookup_insert_eq.
    + intros Hi. destruct Hout as (-> & -> & ->); [lia|].
      unfold store; simpl. rewrite !lookup_insert_ne by lia. done.
Qed.

Lemma well_formed_inv (f : trace_file) (B soc S K : Z) :
  well_formed float f B soc S K = true →
  int (bands_line f) = Ok B
  ∧ int (soc_line f) = Ok soc
  ∧ int (symm_count_line f) = Ok S
  ∧ len (symm_rows f) = S
  ∧ numeric_table float (symm_rows f) = true
  ∧ int (kvec_count_line f) = Ok K
  ∧ len (kvec_rows f) = K
  ∧ forallb (numeric_row float 3) (kvec_rows f) = true
  ∧ len (blocks f) = K
  ∧ forallb (well_formed_block float) (blocks f) = true.
Proof.
  unfold well_formed. rewrite !andb_true_iff, !bool_decide_eq_true.
  intros. destruct_and!. split_and!; auto using reads_as_int.
Qed.

Lemma numeric_rows_table (ncols : nat) (rows : list string) :
  (0 < ncols)%nat →
  forallb (numeric_row float ncols) rows = true →
  numeric_table float rows = true.
Proof.
  intros Hpos Hrows. destruct rows as [|row rows]; [done|].
  unfold numeric_table.
  assert (length (split_line row) = ncols) as ->.
  { simpl in Hrows. apply andb_prop in Hrows as [Hrow _].
    by apply andb_prop in Hrow as [Hlen%Nat.eqb_eq _]. }
  rewrite Hrows. by apply andb_true_intro, conj; [apply Nat.ltb_lt|].
Qed.

Lemma file_lines_eq (f : trace_file) :
  file_lines f
  = [bands_line f; soc_line f; symm_count_line f] ++ symm_rows f ++
    kvec_count_line f :: kvec_rows f ++ blocks_lines (blocks f).
Proof. unfold file_lines, header_lines. simpl. by rewrite <- app_assoc. Qed.

Lemma len_header_lines (f : trace_file) :
  len (header_lines f) = (4 + len (symm_rows f) + len (kvec_rows f))%Z.
Proof. unfold header_lines. rewrite !len_cons, len_app, len_cons. lia. Qed.

(** The header of a well-formed file. *)
Lemma get_header_info_well_formed (f : trace_file) (B soc S K : Z) :
  well_formed float f B soc S K = true →
  ∃ a_s a_k,
    get_header_info float (file_lines f) = Ok (Header B soc S a_s K a_k)
    ∧ loadtxt float (symm_rows f) = Ok a_s
    ∧ loadtxt float (kvec_rows f) = Ok a_k
    ∧ (S ≠ 1%Z → array_len a_s = Ok (Z.to_nat S))
    ∧ (K ≠ 1%Z → array_len a_k = Ok (Z.to_nat K)).
Proof.
  intros (HB & Hsoc & HS & HlenS & Hsymm & HK & HlenK & Hkvec & _)%well_formed_inv.
  apply loadtxt_numeric_table in Hsymm as (a_s & Ha_s & Hlen_s).
  apply (numeric_rows_table 3), loadtxt_numeric_table in Hkvec
    as (a_k & Ha_k & Hlen_k); [|lia].
  exists a_s, a_k. split_and!; try done.
  - unfold get_header_info.
    assert (index (file_lines f) 0 = Ok (bands_line f)) as -> by done.
    step. rewrite HB. step.
    assert (index (file_lines f) 1 = Ok (soc_line f)) as -> by done.
    step. rewrite Hsoc. step.
    assert (index (file_lines f) 2 = Ok (symm_count_line f)) as -> by done.
    step. rewrite HS. step.
    rewrite file_lines_eq.
    rewrite (slice_middle _ (symm_rows f)) by (unfold len in *; simpl; lia).
    rewrite Ha_s. step.
    rewrite (app_assoc _ (symm_rows f)).
    rewrite (index_middle _ _ (kvec_count_line f))
      by (rewrite len_app; unfold len in *; simpl; lia).
    step. rewrite HK. step.
    rewrite cons_middle, (app_assoc _ [kvec_count_line f]).
    rewrite (slice_middle _ (kvec_rows f))
      by (rewrite !len_app; unfold len in *; simpl; lia).
    by rewrite Ha_k.
  - intros HS1. rewrite <- HlenS. unfold len. rewrite Nat2Z.id.
    apply Hlen_s. unfold len in HlenS. lia.
  - intros HK1. rewrite <- HlenK. unfold len. rewrite Nat2Z.id.
    apply Hlen_k. unfold len in HlenK. lia.
Qed.

(** The block starts found in a well-formed file with one start per
    block are the first lines of its blocks. *)
Lemma find_block_starts_well_formed (f : trace_file) (B soc S K : Z) :
  well_formed float f B soc S K = true →
  one_start_per_block f = true →
  find_block_starts (file_lines f) (5 + K + S)
  = block_offsets (len (header_lines f)) (blocks f).
Proof.
  intros Hwf Hone.
  pose proof Hwf as (_ & _ & _ & HlenS & _ & _ & HlenK & _ & _ & Hblocks)%well_formed_inv.
  unfold find_block_starts.
  assert (5 + K + S - 1 = len (header_lines f))%Z as ->
    by (rewrite len_header_lines; lia).
  unfold file_lines at 1. rewrite slice_from_end by done.
  rewrite collect_blocks; [done|].
  apply Forall_forall. intros b Hb%list_elem_of_In.
  rewrite forallb_forall in Hblocks. unfold one_start_per_block in Hone.
  rewrite forallb_forall in Hone.
  split; [|by apply Hone].
  by apply Hblocks, well_formed_block_inv in Hb as [? _].
Qed.

(** When only the last block may hold further single-entry lines, the
    block starts found are the first lines of the blocks, followed by
    line numbers inside the last block. *)
Lemma find_block_starts_but_last (f : trace_file) (B soc S K : Z) :
  well_formed float f B soc S K = true →
  one_start_but_last f = true →
  ∃ extra,
    find_block_starts (file_lines f) (5 + K + S)
    = block_offsets (len (header_lines f)) (blocks f) ++ extra.
Proof.
  intros Hwf Hone.
  pose proof Hwf as (_ & _ & _ & HlenS & _ & _ & HlenK & _ & _ & Hblocks)%well_formed_inv.
  unfold find_block_starts.
  assert (5 + K + S - 1 = len (header_lines f))%Z as ->
    by (rewrite len_header_lines; lia).
  unfold file_lines at 1. rewrite slice_from_end by done.
  destruct (collect_blocks_but_last (blocks f) (len (header_lines f)) [])
    as [extra ->]; [|done|by exists extra].
  apply Forall_forall. intros b Hb%list_elem_of_In.
  rewrite forallb_forall in Hblocks.
  by apply Hblocks, well_formed_block_inv in Hb as [? _].
Qed.

Lemma one_start_per_block_but_last (f : trace_file) :
  one_start_per_block f = true → one_start_but_last f = true.
Proof. apply forallb_removelast. Qed.

(** The record built from a well-formed file in which every block but
    the last has one block start, with a number of k-vectors other than
    one. *)
Lemma parse_lines_but_last (f : trace_file) (B soc S K : Z)
    (self : instance F) :
  well_formed float f B soc S K = true →
  one_start_but_last f = true →
  K ≠ 1%Z →
  ∃ a_s a_k d,
    parse_lines float self (file_lines f)
    = Ok {| _vasp2trace_stdout := _vasp2trace_stdout self;
            num_occ_bands := VInt B;
            soc := VInt soc;
            num_symm_ops := VInt S;
            symm_ops := VArray a_s;
            num_max_kvec := VInt K;
            kvecs := VArray a_k;
            num_kvec_symm_ops := VCounts (d_num_kvec_symm_ops d);
            symm_ops_in_little_cogroup :=
              VIndices (d_symm_ops_in_little_cogroup d);
            traces := VTraces (d_traces d) |}
    ∧ (S ≠ 1%Z → array_len a_s = Ok (Z.to_nat S))
    ∧ array_len a_k = Ok (Z.to_nat K)
    ∧ ∀ i, ((i < Z.to_nat K)%nat →
              ∃ c ops t, d_num_kvec_symm_ops d !! i = Some c
                         ∧ d_symm_ops_in_little_cogroup d !! i = Some ops
                         ∧ d_traces d !! i = Some t
                         ∧ reads_block float f i c ops t ∧ len ops = c)
           ∧ (¬ (i < Z.to_nat K)%nat →
              d_num_kvec_symm_ops d !! i = None
              ∧ d_symm_ops_in_little_cogroup d !! i = None
              ∧ d_traces d !! i = None).
Proof.
  intros Hwf Hone HK1.
  destruct (get_header_info_well_formed f B soc S K Hwf)
    as (a_s & a_k & Hheader & _ & _ & Hlen_s & Hlen_k).
  pose proof Hwf as (_ & _ & _ & _ & _ & _ & _ & _ & HlenK & Hblocks)%well_formed_inv.
  specialize (Hlen_k HK1).
  destruct (find_block_starts_but_last f B soc S K Hwf Hone)
    as [extra Hstarts].
  destruct (for_each_store
              (block_body float (file_lines f) K
                 (block_offsets (len (header_lines f)) (blocks f) ++ extra))
              (λ i c ops t, reads_block float f i c ops t ∧ len ops = c)
              (Z.to_nat K)) with (m := Z.to_nat K) (s := 0%nat)
              (acc := Dicts (F := F) ∅ ∅ ∅) as (d & Hd & Hfill); [|lia|].
  { intros acc i Hi.
    destruct (lookup_lt_is_Some_2 (blocks f) i) as [b Hb];
      [unfold len in HlenK; lia|].
    assert (well_formed_block float b = true) as Hwb.
    { rewrite forallb_forall in Hblocks.
      by eapply Hblocks, list_elem_of_In, list_elem_of_lookup_2. }
    apply well_formed_block_inv in Hwb
      as (_ & n & ops & Hn & Hops & Hlen & Htable).
    apply loadtxt_numeric_table in Htable as (t & Ht & _).
    exists n, ops, t. split; [|split; [by exists b | done]].
    apply list_elem_of_split_length in Hb as (bs1 & bs2 & Hsplit & ->).
    rewrite <- HlenK. unfold file_lines. rewrite Hsplit.
    rewrite <- (app_nil_r (header_lines f ++ _)).
    by apply block_body_trailer. }
  exists a_s, a_k, d. split_and!; try done.
  - unfold parse_lines. rewrite Hheader. step. cbn [h_kvecs].
    rewrite Hlen_k. step.
    cbn [h_num_symm_ops h_num_max_kvec h_num_occ_bands h_soc h_symm_ops].
    by rewrite Hstarts, Hd.
  - intros i. destruct (Hfill i) as [Hin Hout]. split.
    + intros Hi. apply Hin. lia.
    + intros Hi. destruct Hout as (-> & -> & ->); [lia | done].
Qed.

(** In particular when every block has one block start. *)
Lemma parse_lines_well_formed (f : trace_file) (B soc S K : Z)
    (self : instance F) :
  well_formed float f B soc S K = true →
  one_start_per_block f = true →
  K ≠ 1%Z →
  ∃ a_s a_k d,
    parse_lines float self (file_lines f)
    = Ok {| _vasp2trace_stdout := _vasp2trace_stdout self;
            num_occ_bands := VInt B;
            soc := VInt soc;
            num_symm_ops := VInt S;
            symm_ops := VArray a_s;
            num_max_kvec := VInt K;
            kvecs := VArray a_k;
            num_kvec_symm_ops := VCounts (d_num_kvec_symm_ops d);
            symm_ops_in_little_cogroup :=
              VIndices (d_symm_ops_in_little_cogroup d);
            traces := VTraces (d_traces d) |}
    ∧ (S ≠ 1%Z → array_len a_s = Ok (Z.to_nat S))
    ∧ array_len a_k = Ok (Z.to_nat K)
    ∧ ∀ i, ((i < Z.to_nat K)%nat →
              ∃ c ops t, d_num_kvec_symm_ops d !! i = Some c
                         ∧ d_symm_ops_in_little_cogroup d !! i = Some ops
                         ∧ d_traces d !! i = Some t
                         ∧ reads_block float f i c ops t ∧ len ops = c)
           ∧ (¬ (i < Z.to_nat K)%nat →
              d_num_kvec_symm_ops d !! i = None
              ∧ d_symm_ops_in_little_cogroup d !! i = None
              ∧ d_traces d !! i = None).
Proof.
  intros Hwf Hone HK1.
  apply parse_lines_but_last; [done | | done].
  by apply one_start_per_block_but_last.
Qed.

End well_formed.

End WellFormed.

(** ** Claims about the parsed record *)

Module ParsedRecord.
Import PyFacts NumpyFacts ParseFacts WellFormed.
Import TraceFormat Vasp2TraceOutput Fixtures.

Section parsed.
Context {F : Type} (float : string → option F).

Lemma new_lines (w : world) (path : string) (lines : list string) :
  readlines w path = Ok lines →
  new float w path
  = parse_lines float
      (Instance (VStr path) VNone VNone VNone VNone VNone VNone VNone VNone VNone)
      lines.
Proof.
  intros Hlines. unfold new, __init__, _parse_stdout, open_readlines.
  by rewrite Hlines.
Qed.

Lemma dom_filled {A} (d : gmap nat A) (n : nat) :
  (∀ i, ((i < n)%nat → is_Some (d !! i)) ∧ (¬ (i < n)%nat → d !! i = None)) →
  dom d = set_seq 0 n.
Proof.
  intros Hd. apply set_eq. intros i.
  rewrite elem_of_dom, elem_of_set_seq. destruct (Hd i) as [Hin Hout].
  split.
  - intros Hi. destruct (decide (i < n)%nat); [lia|].
    rewrite Hout in Hi by done. by destruct Hi.
  - intros Hi. apply Hin. lia.
Qed.

(** C2, as amended. For a well-formed trace file with header counts
    (B, soc, S, K) in which, in every block but the last, only the first
    line has a single entry, and with S and K other than one, the parser
    returns a record that holds the four header values, exactly S
    symmetry-operation rows and exactly K k-vectors, and whose three
    mappings have key set {0, ..., K-1}; the file ends with the table of
    the last block, which is read up to the end of the file. *)
Theorem parse_counts (w : world) (path : string) (f : trace_file)
    (B soc S K : Z) :
  readlines w path = Ok (file_lines f) →
  well_formed float f B soc S K = true →
  one_start_but_last f = true →
  S ≠ 1%Z → K ≠ 1%Z →
  ∃ self a_s a_k d1 d2 d3,
    new float w path = Ok self
    ∧ num_occ_bands self = VInt B ∧ Vasp2TraceOutput.soc self = VInt soc
    ∧ num_symm_ops self = VInt S ∧ num_max_kvec self = VInt K
    ∧ symm_ops self = VArray a_s ∧ array_len a_s = Ok (Z.to_nat S)
    ∧ kvecs self = VArray a_k ∧ array_len a_k = Ok (Z.to_nat K)
    ∧ num_kvec_symm_ops self = VCounts d1
    ∧ symm_ops_in_little_cogroup self = VIndices d2
    ∧ traces self = VTraces d3
    ∧ dom d1 = set_seq 0 (Z.to_nat K)
    ∧ dom d2 = set_seq 0 (Z.to_nat K)
    ∧ dom d3 = set_seq 0 (Z.to_nat K)
    ∧ (∀ b, last (blocks f) = Some b →
         ∃ t, d3 !! (Z.to_nat K - 1)%nat = Some t
              ∧ loadtxt float (table b) = Ok t).
Proof.
  intros Hread Hwf Hone HS HK.
  destruct (parse_lines_but_last float f B soc S K
              (Instance (VStr path) VNone VNone VNone VNone VNone VNone
                 VNone VNone VNone) Hwf Hone HK)
    as (a_s & a_k & d & Hparse & Hlen_s & Hlen_k & Hfill).
  eexists _, a_s, a_k, _, _, _.
  split; [by rewrite (new_lines w path _ Hread), Hparse|].
  cbn [num_occ_bands Vasp2TraceOutput.soc num_symm_ops num_max_kvec symm_ops
       kvecs num_kvec_symm_ops symm_ops_in_little_cogroup traces].
  split_and!; try done; try by apply Hlen_s.
  - apply dom_filled. intros i. destruct (Hfill i) as [Hin Hout]. split.
    + intros Hi. destruct (Hin Hi) as (c & ? & ? & -> & _). by exists c.
    + intros Hi. by destruct (Hout Hi) as (-> & _).
  - apply dom_filled. intros i. destruct (Hfill i) as [Hin Hout]. split.
    + intros Hi. destruct (Hin Hi) as (? & ops & ? & _ & -> & _). by exists ops.
    + intros Hi. by destruct (Hout Hi) as (_ & -> & _).
  - apply dom_filled. intros i. destruct (Hfill i) as [Hin Hout]. split.
    + intros Hi. destruct (Hin Hi) as (? & ? & t & _ & _ & -> & _). by exists t.
    + intros Hi. by destruct (Hout Hi) as (_ & _ & ->).
  - intros b Hlast.
    pose proof Hwf as (_ & _ & _ & _ & _ & _ & _ & _ & HlenK & _)%well_formed_inv.
    rewrite last_lookup in Hlast.
    assert (Z.to_nat K - 1 = pred (length (blocks f)))%nat as Hidx
      by (unfold len in HlenK; lia).
    destruct (Hfill (Z.to_nat K - 1)%nat) as [Hin _].
    destruct Hin as (c & ops & t & _ & _ & Ht & (b' & Hb' & _ & _ & Hload) & _).
    { apply lookup_lt_Some in Hlast. unfold len in HlenK. lia. }
    exists t. split; [done|]. rewrite Hidx in Hb'. congruence.
Qed.

(** X21. For a well-formed trace file in which, in every block but the
    last, only the first line has a single entry, with K other than one,
    the parsed record holds for every k-vector index i below K a list of
    operation indices whose length is the count stored for i, which is
    the count declared on the first line of block i. *)
Theorem little_cogroup_counts (w : world) (path : string) (f : trace_file)
    (B soc S K : Z) :
  readlines w path = Ok (file_lines f) →
  well_formed float f B soc S K = true →
  one_start_but_last f = true →
  K ≠ 1%Z →
  ∃ self d1 d2,
    new float w path = Ok self
    ∧ num_kvec_symm_ops self = VCounts d1
    ∧ symm_ops_in_little_cogroup self = VIndices d2
    ∧ ∀ i, (i < Z.to_nat K)%nat →
        ∃ n ops b, d1 !! i = Some n ∧ d2 !! i = Some ops ∧ len ops = n
                   ∧ blocks f !! i = Some b ∧ int (count_line b) = Ok n.
Proof.
  intros Hread Hwf Hone HK.
  destruct (parse_lines_but_last float f B soc S K
              (Instance (VStr path) VNone VNone VNone VNone VNone VNone
                 VNone VNone VNone) Hwf Hone HK)
    as (a_s & a_k & d & Hparse & _ & _ & Hfill).
  eexists _, _, _.
  split; [by rewrite (new_lines w path _ Hread), Hparse|].
  cbn [num_kvec_symm_ops symm_ops_in_little_cogroup].
  split_and!; try done.
  intros i Hi. destruct (Hfill i) as [Hin _].
  destruct (Hin Hi) as (c & ops & t & Hc & Hops & _ & (b & Hb & Hn & _) & Hlen).
  by exists c, ops, b.
Qed.

End parsed.

(** The two theorems at [file_last_single_op], whose last block holds a
    second single-entry line. *)
Lemma parse_counts_witness :
  readlines (world_with file_last_single_op) trace_path
  = Ok (file_lines file_last_single_op)
  ∧ well_formed literal file_last_single_op 68 0 2 2 = true
  ∧ one_start_but_last file_last_single_op = true
  ∧ 2%Z ≠ 1%Z
  ∧ ∃ self a_s a_k d1 d2 d3,
      new literal (world_with file_last_single_op) trace_path = Ok self
      ∧ num_occ_bands self = VInt 68 ∧ soc self = VInt 0
      ∧ num_symm_ops self = VInt 2 ∧ num_max_kvec self = VInt 2
      ∧ symm_ops self = VArray a_s ∧ array_len a_s = Ok (Z.to_nat 2)
      ∧ kvecs self = VArray a_k ∧ array_len a_k = Ok (Z.to_nat 2)
      ∧ num_kvec_symm_ops self = VCounts d1
      ∧ symm_ops_in_little_cogroup self = VIndices d2
      ∧ traces self = VTraces d3
      ∧ dom d1 = set_seq 0 (Z.to_nat 2)
      ∧ dom d2 = set_seq 0 (Z.to_nat 2)
      ∧ dom d3 = set_seq 0 (Z.to_nat 2)
      ∧ (∀ b, last (blocks file_last_single_op) = Some b →
           ∃ t, d3 !! (Z.to_nat 2 - 1)%nat = Some t
                ∧ loadtxt literal (table b) = Ok t).
Proof.
  assert (readlines (world_with file_last_single_op) trace_path
          = Ok (file_lines file_last_single_op)) as Hread
    by (vm_compute; reflexivity).
  assert (well_formed literal file_last_single_op 68 0 2 2 = true) as Hwf
    by (vm_compute; reflexivity).
  assert (one_start_but_last file_last_single_op = true) as Hone
    by (vm_compute; reflexivity).
  assert (2%Z ≠ 1%Z) as Hne by lia.
  split_and!; try assumption.
  exact (parse_counts literal (world_with file_last_single_op) trace_path
           file_last_single_op 68 0 2 2 Hread Hwf Hone Hne Hne).
Defined.

Lemma little_cogroup_counts_witness :
  readlines (world_with file_last_single_op) trace_path
  = Ok (file_lines file_last_single_op)
  ∧ well_formed literal file_last_single_op 68 0 2 2 = true
  ∧ one_start_but_last file_last_single_op = true
  ∧ 2%Z ≠ 1%Z
  ∧ ∃ self d1 d2,
      new literal (world_with file_last_single_op) trace_path = Ok self
      ∧ num_kvec_symm_ops self = VCounts d1
      ∧ symm_ops_in_little_cogroup self = VIndices d2
      ∧ ∀ i, (i < Z.to_nat 2)%nat →
          ∃ n ops b, d1 !! i = Some n ∧ d2 !! i = Some ops ∧ len ops = n
                     ∧ blocks file_last_single_op !! i = Some b
                     ∧ int (count_line b) = Ok n.
Proof.
  assert (readlines (world_with file_last_single_op) trace_path
          = Ok (file_lines file_last_single_op)) as Hread
    by (vm_compute; reflexivity).
  assert (well_formed literal file_last_single_op 68 0 2 2 = true) as Hwf
    by (vm_compute; reflexivity).
  assert (one_start_but_last file_last_single_op = true) as Hone
    by (vm_compute; reflexivity).
  assert (2%Z ≠ 1%Z) as Hne by lia.
  split_and!; try assumption.
  exact (little_cogroup_counts literal (world_with file_last_single_op)
           trace_path file_last_single_op 68 0 2 2 Hread Hwf Hone Hne).
Defined.

(** The last block of [file_last_single_op] has two single-entry lines,
    and both are found. *)
Example last_block_two_starts :
  one_start_per_block file_last_single_op = false
  ∧ find_block_starts (file_lines file_last_single_op) 9 = [8; 11; 12]%Z.
Proof. by vm_compute. Qed.

(** C2 as stated fails: [file_single_op] is laid out as the format
    prescribes, with header counts (68, 0, 2, 2), and the parser raises
    instead of returning a record. The single index of the first little
    cogroup, in a block that is not the last, is taken for the start of
    the second block, whose index list is then read from a table row. *)
Lemma parse_counts_single_op :
  well_formed literal file_single_op 68 0 2 2 = true
  ∧ one_start_but_last file_single_op = false
  ∧ readlines (world_with file_single_op) trace_path
    = Ok (file_lines file_single_op)
  ∧ new literal (world_with file_single_op) trace_path = Raise ValueError.
Proof. vm_compute. done. Qed.

(** C6 at a failing input. [file_no_bands] is laid out as the format
    prescribes: two k-vectors, no occupied band, and for the second
    k-vector a little cogroup of one operation, declared by the count 1
    and the index list [1] of its block. The parser returns a record in
    which the second k-vector has the count 2 and one operation index:
    the single index of the first block was taken for a block start, so
    the count was read from the index line of the first block and the
    list from the first line of the second. Neither is what the block of
    the k-vector declares, and the length of the list is not the count. *)
Theorem little_cogroup_counts_misread :
  well_formed literal file_no_bands 0 0 2 2 = true
  ∧ readlines (world_with file_no_bands) trace_path
    = Ok (file_lines file_no_bands)
  ∧ (∃ b, blocks file_no_bands !! 1%nat = Some b
          ∧ int (count_line b) = Ok 1%Z
          ∧ little_cogroup (index_line b) = Ok [1%Z])
  ∧ find_block_starts (file_lines file_no_bands) 9 = [8; 9; 10; 11]%Z
  ∧ ∃ self d1 d2,
      new literal (world_with file_no_bands) trace_path = Ok self
      ∧ num_kvec_symm_ops self = VCounts d1
      ∧ symm_ops_in_little_cogroup self = VIndices d2
      ∧ d1 !! 1%nat = Some 2%Z
      ∧ d2 !! 1%nat = Some [1%Z]
      ∧ len [1%Z] ≠ 2%Z.
Proof.
  split; [by vm_compute|]. split; [by vm_compute|].
  split.
  { exists {| count_line := ln "1"; index_line := ln "1"; table := [] |}.
    by vm_compute. }
  split; [by vm_compute|].
  eexists _, _, _. split; [vm_compute; reflexivity|].
  split; [reflexivity|]. split; [reflexivity|].
  split; [by vm_compute|]. split; [by vm_compute | done].
Qed.

(** Why the two counts must differ from one: [loadtxt] squeezes a table
    of one row to one dimension. With a single k-vector the loop runs over
    its three coordinates and the second turn finds no block start; with a
    single symmetry operation [symm_ops] has the twelve numbers of the row
    as entries. *)
Lemma one_kvec_raises :
  well_formed literal file_one_kvec 68 0 2 1 = true
  ∧ one_start_per_block file_one_kvec = true
  ∧ new literal (world_with file_one_kvec) trace_path = Raise IndexError.
Proof. by vm_compute. Qed.

Lemma one_symm_op_flattened :
  well_formed literal file_one_symm_op 68 0 1 2 = true
  ∧ one_start_per_block file_one_symm_op = true
  ∧ ∃ self a,
      new literal (world_with file_one_symm_op) trace_path = Ok self
      ∧ symm_ops self = VArray a
      ∧ array_len a = Ok 12%nat.
Proof.
  split; [by vm_compute|]. split; [by vm_compute|].
  eexists _, _. split; [vm_compute; reflexivity|].
  split; [reflexivity | by vm_compute].
Qed.

End ParsedRecord.

(** ** The search for block starts *)

Module BlockStarts.
Import PyFacts ParseFacts TraceFormat Vasp2TraceOutput Fixtures.

Lemma collect_elem (l : list string) (start : Z) (acc : list Z) (j : Z) :
  j ∈ fold_left collect (enumerate l start) acc ↔
  j ∈ acc ∨ ∃ i line, l !! i = Some line ∧ j = (start + Z.of_nat i)%Z
                      ∧ single_entry line = true.
Proof.
  revert start acc. induction l as [|x l IH]; intros start acc.
  - simpl. split; [by left|]. intros [?|(i & line & Hl & _)]; [done|].
    by rewrite lookup_nil in Hl.
  - cbn [enumerate fold_left]. rewrite IH. unfold collect. split.
    + intros [Hacc|(i & line & Hl & -> & Hline)].
      * destruct (single_entry x) eqn:Hx; [|by left].
        apply elem_of_app in Hacc as [?|Hj%list_elem_of_singleton]; [by left|].
        subst j. right. exists 0%nat, x. split_and!; [done | lia | done].
      * right. exists (S i), line. split_and!; [done | lia | done].
    + intros [Hacc|([|i] & line & Hl & -> & Hline)].
      * left. destruct (single_entry x); [|done].
        apply elem_of_app. by left.
      * simpl in Hl. injection Hl as ->. rewrite Hline. left.
        apply elem_of_app. right. apply list_elem_of_singleton. lia.
      * right. exists i, line. split_and!; [done | lia | done].
Qed.

Lemma sorted_snoc (acc : list Z) (x : Z) :
  StronglySorted Z.lt acc → Forall (λ y, (y < x)%Z) acc →
  StronglySorted Z.lt (acc ++ [x]).
Proof.
  induction 1 as [|y acc Hacc IH Hy]; intros Hlt; simpl.
  - repeat constructor.
  - apply Forall_cons in Hlt as [Hyx Hlt]. constructor; [by apply IH|].
    apply Forall_app. split; [done|]. by repeat constructor.
Qed.

Lemma collect_sorted (l : list string) (start : Z) (acc : list Z) :
  StronglySorted Z.lt acc → Forall (λ y, (y < start)%Z) acc →
  StronglySorted Z.lt (fold_left collect (enumerate l start) acc).
Proof.
  revert start acc. induction l as [|x l IH]; intros start acc Hacc Hlt; [done|].
  cbn [enumerate fold_left]. unfold collect.
  destruct (single_entry x).
  - apply IH; [by apply sorted_snoc|].
    apply Forall_app. split.
    + eapply Forall_impl; [exact Hlt|]. intros y Hy. simpl in Hy. lia.
    + repeat constructor. lia.
  - apply IH; [done|].
    eapply Forall_impl; [exact Hlt|]. intros y Hy. simpl in Hy. lia.
Qed.

(** C4, as amended. The lines of the trace section are the lines from
    [trace_start - 1] on. The line at position i of the trace section is
    recorded as a block start, under the number [trace_start - 1 + i], if
    and only if cutting it at every space character and discarding the
    empty fragments leaves exactly one fragment; every line of the
    section is tested, in order, so the block starts come out in
    increasing order. *)
Theorem block_starts_single_entry (lines : list string) (trace_start : Z) :
  (∀ j, j ∈ find_block_starts lines trace_start ↔
        ∃ i line, slice_from lines (trace_start - 1) !! i = Some line
                  ∧ j = (trace_start - 1 + Z.of_nat i)%Z
                  ∧ length (List.filter nonempty (split_space line)) = 1%nat)
  ∧ StronglySorted Z.lt (find_block_starts lines trace_start).
Proof.
  split.
  - intros j. unfold find_block_starts. rewrite collect_elem.
    split.
    + intros [Hnil|(i & line & Hl & Hj & Hline)];
        [by apply elem_of_nil in Hnil|].
      exists i, line. by apply Nat.eqb_eq in Hline.
    + intros (i & line & Hl & Hj & Hline). right.
      exists i, line. split_and!; [done..|]. by apply Nat.eqb_eq.
  - apply collect_sorted; constructor.
Qed.

(** In line numbers of the file, when the trace section starts inside
    or at the end of it. *)
Lemma block_starts_line_numbers (lines : list string) (trace_start j : Z) :
  (1 ≤ trace_start)%Z →
  j ∈ find_block_starts lines trace_start ↔
  (trace_start - 1 ≤ j)%Z
  ∧ ∃ line, lines !! Z.to_nat j = Some line ∧ single_entry line = true.
Proof.
  intros Hts. unfold find_block_starts. rewrite collect_elem.
  unfold slice_from, slice_bound.
  destruct (Z.ltb_spec (trace_start - 1) 0) as [?|_]; [lia|].
  split.
  - intros [Hnil|(i & line & Hl & -> & Hline)];
      [by apply elem_of_nil in Hnil|].
    rewrite lookup_drop in Hl. pose proof (lookup_lt_Some _ _ _ Hl) as Hlt.
    unfold len in *. split; [lia|]. exists line. split; [|done].
    rewrite <- Hl. f_equal. lia.
  - intros (Hj & line & Hl & Hline). right.
    pose proof (lookup_lt_Some _ _ _ Hl) as Hlt.
    exists (Z.to_nat (j - (trace_start - 1))), line.
    split_and!; [|lia|done].
    rewrite lookup_drop, <- Hl. f_equal. unfold len. lia.
Qed.

(** C4 as stated fails: in [file_two] followed by a blank line, the blank
    line (line 15) is recorded as a block start, although splitting it
    on whitespace leaves no token at all. *)
Lemma blank_line_is_block_start :
  find_block_starts (file_lines file_two ++ [nl]) 9 = [8; 12; 15]%Z
  ∧ (file_lines file_two ++ [nl]) !! 15%nat = Some nl
  ∧ split_ws nl = []
  ∧ one_token nl = false.
Proof. by vm_compute. Qed.

End BlockStarts.

(** ** Failures of the parse *)

Module ParseFailure.
Import PyFacts NumpyFacts ParseFacts TraceFormat Vasp2TraceOutput Fixtures.

Section failure.
Context {F : Type} (float : string → option F).

(** A record that is returned has all its parsed attributes set: the
    attributes are assigned together, after the last conversion. *)
Lemma new_populated (w : world) (path : string) (self : instance F) :
  new float w path = Ok self → populated self = true.
Proof.
  unfold new, __init__, _parse_stdout.
  intros (lines & _ & Hparse)%bind_ok. unfold parse_lines in Hparse.
  apply bind_ok in Hparse as (h & _ & Hparse).
  apply bind_ok in Hparse as (turns & _ & Hparse).
  apply bind_ok in Hparse as (d & _ & Hparse).
  by injection Hparse as <-.
Qed.

(** The turn of k-vector [idx] raises when a row of its table holds a
    token that is not a number. *)
Lemma block_body_not_numeric (lines : list string) (K : Z)
    (block_starts : list Z) (acc : dicts F) (idx : nat) (start : Z)
    (rows : list string) (row token : string) :
  index block_starts (Z.of_nat idx) = Ok start →
  trace_rows lines K block_starts idx start = Ok rows →
  row ∈ rows → token ∈ split_line row → float token = None →
  is_ok (block_body float lines K block_starts acc idx) = false.
Proof.
  intros Hstart Hrows Hrow Htoken Hbad.
  unfold block_body. rewrite Hstart. step. rewrite Hrows. step.
  destruct (index lines start) as [count_line|]; [step|done].
  destruct (int count_line) as [count|]; [step|done].
  destruct (index lines (start + 1)) as [index_line|]; [step|done].
  destruct (little_cogroup index_line) as [ops|]; [step|done].
  pose proof (loadtxt_not_numeric float rows row token Hrow Htoken Hbad).
  by destruct (loadtxt float rows).
Qed.

(** C9, as amended. The parse raises, and hands no record to the
    caller, when a block boundary is missing (there are fewer block
    starts than turns of the loop over the k-vectors) or when a row of the
    table of some turn holds a token that is not a number. Header counts
    that disagree with the contents of the file are not checked. *)
Theorem malformed_raises (w : world) (path : string) (lines : list string)
    (h : header F) (turns : nat) :
  readlines w path = Ok lines →
  get_header_info float lines = Ok h →
  array_len (h_kvecs h) = Ok turns →
  let block_starts :=
    find_block_starts lines (5 + h_num_max_kvec h + h_num_symm_ops h) in
  (length block_starts < turns)%nat
  ∨ (∃ idx start rows row token,
       (idx < turns)%nat
       ∧ index block_starts (Z.of_nat idx) = Ok start
       ∧ trace_rows lines (h_num_max_kvec h) block_starts idx start = Ok rows
       ∧ row ∈ rows ∧ token ∈ split_line row ∧ float token = None) →
  ∃ e, new float w path = Raise e.
Proof.
  intros Hread Hheader Hturns block_starts Hbad.
  destruct (new float w path) as [self|e] eqn:Hnew; [exfalso | by exists e].
  rewrite (ParsedRecord.new_lines float w path lines Hread) in Hnew.
  unfold parse_lines in Hnew. rewrite Hheader in Hnew. step in Hnew.
  rewrite Hturns in Hnew. step in Hnew.
  apply bind_ok in Hnew as (d & Hloop & _). fold block_starts in Hloop.
  destruct Hbad as [Hshort|(idx & start & rows & row & token & Hidx & Hstart
                            & Hrows & Hrow & Htoken & Hbad)].
  - destruct (for_each_ok _ _ _ _ (length block_starts) Hloop)
      as (acc & Hturn).
    { apply list_elem_of_In, in_seq. lia. }
    unfold block_body in Hturn.
    rewrite index_short in Hturn by (unfold len; lia). done.
  - destruct (for_each_ok _ _ _ _ idx Hloop) as (acc & Hturn).
    { apply list_elem_of_In, in_seq. lia. }
    by rewrite (block_body_not_numeric _ _ _ _ _ _ _ _ _ Hstart Hrows Hrow
                  Htoken Hbad) in Hturn.
Qed.

End failure.

(** The theorem at [file_one_block]: two k-vectors, one block. *)
Lemma malformed_raises_witness :
  ∃ h,
    readlines (world_with file_one_block) trace_path
    = Ok (file_lines file_one_block)
    ∧ get_header_info literal (file_lines file_one_block) = Ok h
    ∧ array_len (h_kvecs h) = Ok 2%nat
    ∧ (length (find_block_starts (file_lines file_one_block)
                (5 + h_num_max_kvec h + h_num_symm_ops h)) < 2)%nat
    ∧ ∃ e, new literal (world_with file_one_block) trace_path = Raise e.
Proof.
  eexists.
  assert (readlines (world_with file_one_block) trace_path
          = Ok (file_lines file_one_block)) as Hread
    by (vm_compute; reflexivity).
  split; [exact Hread|].
  eassert (get_header_info literal (file_lines file_one_block) = Ok _)
    as Hheader by (vm_compute; reflexivity).
  split; [exact Hheader|].
  split; [vm_compute; reflexivity|].
  split; [vm_compute; lia|].
  refine (malformed_raises literal (world_with file_one_block)
            trace_path (file_lines file_one_block) _ 2
            Hread Hheader _ (or_introl _)).
  - vm_compute; reflexivity.
  - vm_compute; lia.
Defined.

(** A row that is not numeric, and a header line that is not an
    integer: both make the parse raise [ValueError]. *)
Example bad_row_raises :
  new literal (world_with file_bad_row) trace_path = Raise ValueError
  ∧ parse_lines literal
      (Instance VNone VNone VNone VNone VNone VNone VNone VNone VNone VNone)
      [ln "sixty-eight"; ln "0"; ln "2"]
    = Raise ValueError.
Proof. by vm_compute. Qed.

(** C9 as stated fails: the header of [file_extra_kvec] announces two
    k-vectors and three follow, so no choice of header counts makes the
    file well formed; the parser returns a record all the same, with two
    k-vectors. *)
Lemma extra_kvec_is_parsed :
  (∀ B soc S K, well_formed literal file_extra_kvec B soc S K = false)
  ∧ ∃ self a_k,
      new literal (world_with file_extra_kvec) trace_path = Ok self
      ∧ kvecs self = VArray a_k ∧ array_len a_k = Ok 2%nat.
Proof.
  split.
  - intros B soc S K.
    destruct (well_formed literal file_extra_kvec B soc S K) eqn:Hwf; [|done].
    apply WellFormed.well_formed_inv
      in Hwf as (_ & _ & _ & _ & _ & HK & HlenK & _).
    vm_compute in HK. vm_compute in HlenK. congruence.
  - eexists _, _. split; [vm_compute; reflexivity|].
    split; [reflexivity | by vm_compute].
Qed.

End ParseFailure.

(** ** [Vasp2TraceCaller]: prerequisites, exit code, working directory *)

Module CallerFacts.
Import PyFacts Vasp2TraceCaller Fixtures.

Lemma bind_raise_inv {A B} (m : result A) (k : A → result B) e :
  m ≫= k = Raise e → m = Raise e ∨ ∃ a, m = Ok a ∧ k a = Raise e.
Proof.
  destruct m as [a|e']; simpl; intros H; [right; by exists a|].
  left. congruence.
Qed.

Lemma of_option_raise {A} (e0 e : exn) (o : option A) :
  of_option e0 o = Raise e → e = e0.
Proof. destruct o; simpl; congruence. Qed.

Lemma index_raise {A} (l : list A) (i : Z) e :
  index l i = Raise e → e = IndexError.
Proof.
  unfold index. destruct (_ <=? _)%Z; [apply of_option_raise | congruence].
Qed.

Lemma int_raise (s : string) e : int s = Raise e → e = ValueError.
Proof. apply of_option_raise. Qed.

Lemma comprehension_raise_inv {A B} (f : A → result B) (P : exn → Prop) l e :
  (∀ x e, f x = Raise e → P e) → comprehension f l = Raise e → P e.
Proof.
  intros Hf. induction l as [|x l IH]; simpl; [done|].
  intros [Hx|(y & _ & [Hl|(ys & _ & ?)]%bind_raise_inv)]%bind_raise_inv;
    [by eapply Hf | by apply IH | done].
Qed.

Lemma for_each_raise_inv {A B} (body : B → A → result B) (P : exn → Prop)
    l acc e :
  (∀ acc x e, body acc x = Raise e → P e) → for_each body l acc = Raise e → P e.
Proof.
  intros Hbody. revert acc. induction l as [|x l IH]; intros acc; simpl; [done|].
  intros [Hx|(acc' & _ & Hl)]%bind_raise_inv; [by eapply Hbody | by eapply IH].
Qed.

Lemma loadtxt_raise {F} (float : string → option F) (lines : list string) e :
  loadtxt float lines = Raise e → e = ValueError.
Proof.
  unfold loadtxt. destruct (List.filter _ _) as [|first_vals table]; [done|].
  intros [Hrows|(rows & _ & ?)]%bind_raise_inv; [|done].
  revert Hrows. apply (comprehension_raise_inv _ (λ e, e = ValueError)).
  intros vals e'.
  unfold convert_row. destruct (_ =? _)%nat; [|congruence].
  apply (comprehension_raise_inv _ (λ e, e = ValueError)).
  intros v e''. apply of_option_raise.
Qed.

Lemma little_cogroup_raise (line : string) e :
  Vasp2TraceOutput.little_cogroup line = Raise e → e = ValueError.
Proof.
  unfold Vasp2TraceOutput.little_cogroup.
  apply (comprehension_raise_inv _ (λ e, e = ValueError)).
  intros i e'. apply int_raise.
Qed.

Lemma trace_rows_raise (lines : list string) (K : Z) (block_starts : list Z)
    (idx : nat) (start : Z) e :
  Vasp2TraceOutput.trace_rows lines K block_starts idx start = Raise e →
  e = IndexError.
Proof.
  unfold Vasp2TraceOutput.trace_rows. destruct (_ <? _)%Z; [|done].
  intros [H|(? & _ & ?)]%bind_raise_inv; [by eapply index_raise | done].
Qed.

(** Breaks a failed sequence of binds at the computation that raised. *)
Ltac raised H :=
  repeat (apply bind_raise_inv in H as [H|(? & _ & H)];
          [first [ apply index_raise in H | apply int_raise in H
                 | apply loadtxt_raise in H | apply little_cogroup_raise in H
                 | apply trace_rows_raise in H | apply of_option_raise in H ];
           subst; naive_solver |]).

Lemma raise_io_not_runtime (e : io_error) (msg : string) :
  raise_io e ≠ RuntimeError msg.
Proof. by destruct e. Qed.

Lemma lift_io_raise {A} (r : io_error + A) (e : exn) :
  lift_io r = Raise e → ∃ e0, r = inl e0 ∧ e = raise_io e0.
Proof. destruct r as [e0|a]; simpl; [|done]. intros [= <-]. by exists e0. Qed.

Lemma readlines_not_runtime (w : world) (p : string) (e : exn) :
  readlines w p = Raise e → ∀ msg, e ≠ RuntimeError msg.
Proof.
  unfold readlines. intros (e0 & _ & ->)%lift_io_raise msg.
  apply raise_io_not_runtime.
Qed.

Lemma decode_raise (bs : bytes) (e : exn) :
  decode bs = Raise e → e = UnicodeDecodeError.
Proof. unfold decode. destruct (utf8 _ _ _ _); congruence. Qed.

(** The exceptions of the parse are those of the opening of the file
    and of the conversions it makes: none of them is a [RuntimeError]. *)
Lemma new_not_runtime_error {F} (float : string → option F) (w : world)
    (path : string) e :
  Vasp2TraceOutput.new float w path = Raise e → ∀ msg, e ≠ RuntimeError msg.
Proof.
  unfold Vasp2TraceOutput.new, Vasp2TraceOutput.__init__,
    Vasp2TraceOutput._parse_stdout, Vasp2TraceOutput.open_readlines,
    Vasp2TraceOutput.parse_lines.
  intros H. apply bind_raise_inv in H as [H|(lines & _ & H)].
  { by eapply readlines_not_runtime. }
  apply bind_raise_inv in H as [H|(h & _ & H)].
  { unfold Vasp2TraceOutput.get_header_info in H. raised H. done. }
  apply bind_raise_inv in H as [H|(turns & _ & H)].
  { destruct (Vasp2TraceOutput.h_kvecs h); simpl in H; [|done..].
    by injection H as <-. }
  apply bind_raise_inv in H as [H|(d & _ & H)]; [|done].
  revert H. apply (for_each_raise_inv _ (λ e, ∀ msg, e ≠ RuntimeError msg)).
  clear. intros acc idx e H.
  unfold Vasp2TraceOutput.block_body in H. raised H. done.
Qed.

Lemma append_dot_inj (s1 s2 : string) : s1 +:+ "." = s2 +:+ "." → s1 = s2.
Proof.
  revert s2. induction s1 as [|c s1 IH]; intros [|c' s2]; simpl; try done.
  - intros [= _ H]. by destruct s2.
  - intros [= _ H]. by destruct s1.
  - intros [= -> H]. f_equal. by apply IH.
Qed.

(** The message names the exit code, and one code only. *)
Lemma exit_message_inj (c c' : Z) : exit_message c = exit_message c' → c = c'.
Proof.
  unfold exit_message. intros H. simpl in H.
  injection H as H. apply append_dot_inj in H. by simplify_eq.
Qed.

Section caller.
Context {F : Type} (float : string → option F).
Context (exe : option string).
Context (vasp2trace : world → io_error + gmap string node * process).
Context (raises_warning : string → bool).

(** What lines 72-74 do with the standard error of the program. *)
Lemma report_ok (stderr : bytes) (warned : list event) (v : bytes + string) :
  report raises_warning stderr = (warned, Ok v) →
  (stderr = [] ∧ warned = [] ∧ v = inl [])
  ∨ (∃ s, stderr ≠ [] ∧ decode stderr = Ok s ∧ raises_warning s = false
          ∧ warned = [Warn s] ∧ v = inr s).
Proof.
  unfold report. destruct stderr as [|c bs]; simpl.
  { intros [= <- <-]. by left. }
  destruct (decode (c :: bs)) as [s|e]; [|done].
  destruct (raises_warning s) eqn:Hs; [done|].
  intros [= <- <-]. right. by exists s.
Qed.

Lemma report_quiet (stderr : bytes) :
  stderr = [] → report raises_warning stderr = ([], Ok (inl [])).
Proof. by intros ->. Qed.

Lemma report_warned (stderr : bytes) (s : string) :
  stderr ≠ [] → decode stderr = Ok s → raises_warning s = false →
  report raises_warning stderr = ([Warn s], Ok (inr s)).
Proof.
  intros Hne Hs Hquiet. unfold report.
  destruct stderr; [done|]. simpl. by rewrite Hs, Hquiet.
Qed.

Lemma report_raise (stderr : bytes) (warned : list event) (e : exn) :
  report raises_warning stderr = (warned, Raise e) →
  stderr ≠ []
  ∧ ((decode stderr = Raise UnicodeDecodeError ∧ e = UnicodeDecodeError
      ∧ warned = [])
     ∨ (∃ s, decode stderr = Ok s ∧ raises_warning s = true
             ∧ e = UserWarning s ∧ warned = [Warn s])).
Proof.
  unfold report. destruct stderr as [|c bs]; simpl; [done|].
  destruct (decode (c :: bs)) as [s|e'] eqn:Hdecode.
  - destruct (raises_warning s) eqn:Hs; [|done].
    intros [= <- <-]. split; [done|]. right. by exists s.
  - intros [= <- <-]. apply decode_raise in Hdecode as ->.
    split; [done|]. by left.
Qed.

(** The constructor once the program has run to its end. *)
Lemma init_started (w w1 : world) (folder_name : string)
    (files_left : gmap string node) (process : process) :
  found exe = true →
  isfile w (folder_name +:+ "/OUTCAR") = true →
  isfile w (folder_name +:+ "/WAVECAR") = true →
  chdir w folder_name = Ok w1 →
  vasp2trace w1 = inr (files_left, process) →
  __init__ float exe vasp2trace raises_warning w folder_name
  = let w2 := {| files := files_left; descriptors := descriptors w1;
                 cwd := cwd w1 |} in
    let effects := [Chdir folder_name; Popen ["vasp2trace"]] in
    match decode (p_stdout process) with
    | Raise e => Run w2 effects (Raise e)
    | Ok stdout =>
        let '(warned, stderr) := report raises_warning (p_stderr process) in
        match stderr with
        | Raise e => Run w2 (effects ++ warned) (Raise e)
        | Ok stderr =>
            if negb (returncode process =? 0)%Z then
              Run w2 (effects ++ warned)
                (Raise (RuntimeError (exit_message (returncode process))))
            else
              Run w2 (effects ++ warned)
                (output ← Vasp2TraceOutput.new float w2 stdout;
                 Ok {| _stdout := stdout; _stderr := stderr;
                       output := output |})
        end
    end.
Proof.
  intros Hexe Houtcar Hwavecar Hchdir Hpopen. unfold __init__.
  by rewrite Hexe, Houtcar, Hwavecar, Hchdir, Hpopen.
Qed.

(** The program was started only if the guard and the two tests passed,
    the directory was entered and [Popen] returned. *)
Lemma started_inv (w : world) (folder_name : string) (args : list string) :
  Popen args ∈ log (__init__ float exe vasp2trace raises_warning w folder_name) →
  found exe = true
  ∧ isfile w (folder_name +:+ "/OUTCAR") = true
  ∧ isfile w (folder_name +:+ "/WAVECAR") = true
  ∧ args = ["vasp2trace"]
  ∧ ∃ w1 files_left process,
      chdir w folder_name = Ok w1
      ∧ vasp2trace w1 = inr (files_left, process).
Proof.
  unfold __init__.
  destruct (found exe); simpl; [|by intros ?%elem_of_nil].
  destruct (isfile w (folder_name +:+ "/OUTCAR")); simpl;
    [|by intros ?%elem_of_nil].
  destruct (isfile w (folder_name +:+ "/WAVECAR")); simpl;
    [|by intros ?%elem_of_nil].
  destruct (chdir w folder_name) as [w1|e]; simpl; [|by intros ?%elem_of_nil].
  destruct (vasp2trace w1) as [e|[files_left process]] eqn:Hpopen; simpl.
  { intros [?|?%elem_of_nil]%elem_of_cons; done. }
  intros Hin. split_and!; try done; [|by exists w1, files_left, process].
  assert (∀ warned : list event,
            (∀ a, Popen a ∉ warned) →
            Popen args ∈ [Chdir folder_name; Popen ["vasp2trace"]] ++ warned →
            args = ["vasp2trace"]) as Hargs.
  { intros warned Hwarned. cbn [app]. rewrite !elem_of_cons.
    intros [?|[[= ->]|?]]; [done | done | by destruct (Hwarned args)]. }
  destruct (decode (p_stdout process)) as [stdout|e].
  2:{ by apply (Hargs []); [intros a ?%elem_of_nil|]. }
  destruct (report raises_warning (p_stderr process)) as [warned [v|e]]
    eqn:Hreport.
  - apply (Hargs warned).
    + apply report_ok in Hreport as [(_ & -> & _)|(s & _ & _ & _ & -> & _)];
        intros a; [by intros ?%elem_of_nil|].
      by intros [=]%list_elem_of_singleton.
    + by destruct (negb _).
  - apply (Hargs warned); [|done].
    apply report_raise in Hreport
      as (_ & [(_ & _ & ->)|(s & _ & _ & _ & ->)]);
      intros a; [by intros ?%elem_of_nil|].
    by intros [=]%list_elem_of_singleton.
Qed.

(** C7, as amended. When the directory lacks OUTCAR or WAVECAR, the
    constructor has no effect at all: no subprocess is started and the
    world is left as it was; and when the executable was found on the
    path, the exception it raises is the file-not-found error. *)
Theorem missing_prerequisite (w : world) (folder_name : string) :
  isfile w (folder_name +:+ "/OUTCAR") = false
  ∨ isfile w (folder_name +:+ "/WAVECAR") = false →
  let r := __init__ float exe vasp2trace raises_warning w folder_name in
  log r = [] ∧ final r = w
  ∧ (∃ e, returned r = Raise e)
  ∧ (found exe = true → returned r = Raise FileNotFoundError).
Proof.
  intros Hmissing. unfold __init__.
  destruct (found exe); simpl.
  2:{ split_and!; [done | done | by eexists | done]. }
  assert (negb (isfile w (folder_name +:+ "/OUTCAR"))
          || negb (isfile w (folder_name +:+ "/WAVECAR")) = true) as ->.
  { destruct Hmissing as [->| ->]; [done | apply orb_true_r]. }
  simpl. split_and!; [done | done | by eexists | done].
Qed.

(** C8, as amended. Once the subprocess has been started and has run
    to its end: if it exits with a return code other than zero, if what
    it printed on its standard output is well-formed UTF-8, and if it
    printed nothing on its standard error or printed well-formed UTF-8
    that the warning filters do not turn into an exception, then the
    constructor raises the runtime error whose message is
    "vasp2trace exited with return code ", the code in decimal, and a
    full stop, a message that no other code gives; and what the process
    printed on its standard error, if anything, has by then been handed
    to [warnings.warn], last of the effects. If it exits with zero, no
    runtime error is raised. *)
Theorem nonzero_exit (w w1 : world) (folder_name : string)
    (args : list string) (files_left : gmap string node)
    (process : process) :
  let r := __init__ float exe vasp2trace raises_warning w folder_name in
  Popen args ∈ log r →
  chdir w folder_name = Ok w1 →
  vasp2trace w1 = inr (files_left, process) →
  (returncode process ≠ 0%Z →
   ∀ stdout warned,
     decode (p_stdout process) = Ok stdout →
     (p_stderr process = [] ∧ warned = []
      ∨ ∃ s, p_stderr process ≠ [] ∧ decode (p_stderr process) = Ok s
             ∧ raises_warning s = false ∧ warned = [Warn s]) →
     returned r = Raise (RuntimeError (exit_message (returncode process)))
     ∧ exit_message (returncode process)
       = "vasp2trace exited with return code "
           +:+ pretty (returncode process) +:+ "."
     ∧ (∀ c, exit_message c = exit_message (returncode process) →
             c = returncode process)
     ∧ log r = [Chdir folder_name; Popen ["vasp2trace"]] ++ warned)
  ∧ (returncode process = 0%Z → ∀ msg, returned r ≠ Raise (RuntimeError msg)).
Proof.
  intros r Hstarted Hchdir Hpopen. subst r.
  apply started_inv in Hstarted
    as (Hexe & Houtcar & Hwavecar & _ & _).
  rewrite (init_started w w1 folder_name files_left process) by done.
  cbn zeta. split.
  - intros Hcode stdout warned -> Hwarned.
    apply Z.eqb_neq in Hcode.
    destruct Hwarned as [[Hnone ->]|(s & Hsome & Hs & Hquiet & ->)].
    + rewrite (report_quiet _ Hnone), Hcode. simpl.
      split_and!; [done | done | intros c Hc; by apply exit_message_inj | done].
    + rewrite (report_warned _ s Hsome Hs Hquiet), Hcode. simpl.
      split_and!; [done | done | intros c Hc; by apply exit_message_inj | done].
  - intros Hcode msg.
    destruct (decode (p_stdout process)) as [stdout|e] eqn:Hout; simpl.
    2:{ apply decode_raise in Hout as ->. done. }
    destruct (report raises_warning (p_stderr process)) as [warned [v|e]]
      eqn:Hreport.
    + rewrite Hcode. simpl. intros Hraise.
      apply bind_raise_inv in Hraise as [Hnew|(output & _ & ?)]; [|done].
      by eapply new_not_runtime_error in Hnew.
    + simpl.
      apply report_raise in Hreport
        as (_ & [(_ & -> & _)|(s & _ & _ & -> & _)]); done.
Qed.

(** C10, as amended. When the executable was found on the path, the two
    prerequisite files exist in the directory and the directory can be
    entered, the constructor changes the working directory to that
    directory and the change outlives it, whatever happens afterwards:
    whether the program can be started or not, whatever it prints and
    however it exits; in particular when it exits with a code other than
    zero, having printed text that can be decoded and reported, and the
    constructor raises the runtime error of that code. *)
Theorem chdir_persists (w w1 : world) (folder_name : string) :
  found exe = true →
  isfile w (folder_name +:+ "/OUTCAR") = true →
  isfile w (folder_name +:+ "/WAVECAR") = true →
  chdir w folder_name = Ok w1 →
  let r := __init__ float exe vasp2trace raises_warning w folder_name in
  cwd (final r) = resolve w folder_name
  ∧ Chdir folder_name ∈ log r
  ∧ (∀ files_left process stdout,
       vasp2trace w1 = inr (files_left, process) →
       returncode process ≠ 0%Z →
       decode (p_stdout process) = Ok stdout →
       (p_stderr process = []
        ∨ ∃ s, decode (p_stderr process) = Ok s
               ∧ raises_warning s = false) →
       returned r
       = Raise (RuntimeError (exit_message (returncode process)))).
Proof.
  intros Hexe Houtcar Hwavecar Hchdir r.
  assert (cwd w1 = resolve w folder_name) as Hcwd.
  { unfold chdir in Hchdir. destruct (entered _); [done|].
    by injection Hchdir as <-. }
  destruct (vasp2trace w1) as [e|[files_left process]] eqn:Hpopen.
  { subst r. unfold __init__.
    rewrite Hexe, Houtcar, Hwavecar, Hchdir, Hpopen. simpl.
    split_and!; [done | apply elem_of_cons; by left | done]. }
  subst r.
  rewrite (init_started w w1 folder_name files_left process) by done.
  cbn zeta.
  assert (∀ warned : list event,
            Chdir folder_name
            ∈ [Chdir folder_name; Popen ["vasp2trace"]] ++ warned) as Hin.
  { intros warned. cbn [app]. apply elem_of_cons. by left. }
  destruct (decode (p_stdout process)) as [stdout|e] eqn:Hout.
  2:{ simpl. split_and!; [done | apply (Hin []) |].
      intros ? ? ? [= <- <-]. by rewrite Hout. }
  destruct (report raises_warning (p_stderr process)) as [warned [v|e]]
    eqn:Hreport.
  - split_and!.
    + by destruct (negb _).
    + destruct (negb _); apply Hin.
    + intros ? ? ? [= <- <-] Hcode%Z.eqb_neq _ _. by rewrite Hcode.
  - split_and!; [done | apply Hin |].
    intros ? ? ? [= <- <-] _ _ Herr. exfalso.
    apply report_raise in Hreport
      as (Hne & [(Hbad & _)|(s & Hs & Hloud & _)]).
    + destruct Herr as [?|(s & Hs & _)]; [done | congruence].
    + destruct Herr as [?|(s' & Hs' & Hquiet)]; [done | congruence].
Qed.

End caller.

(** The three theorems in [world_calc]: the directory [/tmp] lacks
    WAVECAR, the directory [/calc] has both files, and the program exits
    with code 2 after a complaint on its standard error. *)
Lemma missing_prerequisite_witness :
  (isfile world_calc ("/tmp" +:+ "/OUTCAR") = false
   ∨ isfile world_calc ("/tmp" +:+ "/WAVECAR") = false)
  ∧ let r := __init__ literal (Some "/usr/bin/vasp2trace")
               (program [] [] 0) default_filters world_calc "/tmp" in
    log r = [] ∧ final r = world_calc
    ∧ (∃ e, returned r = Raise e)
    ∧ (found (Some "/usr/bin/vasp2trace") = true →
       returned r = Raise FileNotFoundError).
Proof.
  assert (isfile world_calc ("/tmp" +:+ "/OUTCAR") = false
          ∨ isfile world_calc ("/tmp" +:+ "/WAVECAR") = false) as Hmissing
    by (right; vm_compute; reflexivity).
  split; [exact Hmissing|].
  exact (missing_prerequisite literal (Some "/usr/bin/vasp2trace")
           (program [] [] 0) default_filters world_calc "/tmp" Hmissing).
Defined.

Lemma nonzero_exit_witness :
  let vasp2trace := program [] (bytes_of "bad WAVECAR") 2 in
  let w1 := seen_from world_calc "/calc" in
  let r := __init__ literal (Some "/usr/bin/vasp2trace") vasp2trace
             default_filters world_calc "/calc" in
  Popen ["vasp2trace"] ∈ log r
  ∧ chdir world_calc "/calc" = Ok w1
  ∧ vasp2trace w1 = inr (files w1, Process [] (bytes_of "bad WAVECAR") 2)
  ∧ returned r
    = Raise (RuntimeError "vasp2trace exited with return code 2.")
  ∧ log r = [Chdir "/calc"; Popen ["vasp2trace"]; Warn "bad WAVECAR"].
Proof.
  intros vasp2trace w1 r.
  assert (Popen ["vasp2trace"] ∈ log r) as Hstarted
    by (apply list_elem_of_In; vm_compute; right; left; reflexivity).
  assert (chdir world_calc "/calc" = Ok w1) as Hchdir by reflexivity.
  split; [exact Hstarted|]. split; [exact Hchdir|]. split; [reflexivity|].
  destruct (nonzero_exit literal (Some "/usr/bin/vasp2trace") vasp2trace
              default_filters world_calc w1 "/calc" ["vasp2trace"] _ _
              Hstarted Hchdir eq_refl) as [Hnonzero _].
  destruct (Hnonzero ltac:(discriminate) "" [Warn "bad WAVECAR"] eq_refl)
    as (Hraise & _ & _ & Hlog).
  { right. exists "bad WAVECAR". split; [discriminate|].
    split; [vm_compute; reflexivity|]. split; reflexivity. }
  split; [exact Hraise | exact Hlog].
Defined.

Lemma chdir_persists_witness :
  let vasp2trace := program [] (bytes_of "bad WAVECAR") 2 in
  let w1 := seen_from world_calc "/calc" in
  found (Some "/usr/bin/vasp2trace") = true
  ∧ isfile world_calc ("/calc" +:+ "/OUTCAR") = true
  ∧ isfile world_calc ("/calc" +:+ "/WAVECAR") = true
  ∧ chdir world_calc "/calc" = Ok w1
  ∧ let r := __init__ literal (Some "/usr/bin/vasp2trace") vasp2trace
               default_filters world_calc "/calc" in
    cwd (final r) = resolve world_calc "/calc"
    ∧ Chdir "/calc" ∈ log r
    ∧ (∀ files_left process stdout,
         vasp2trace w1 = inr (files_left, process) →
         returncode process ≠ 0%Z →
         decode (p_stdout process) = Ok stdout →
         (p_stderr process = []
          ∨ ∃ s, decode (p_stderr process) = Ok s
                 ∧ default_filters s = false) →
         returned r
         = Raise (RuntimeError (exit_message (returncode process)))).
Proof.
  intros vasp2trace w1.
  assert (found (Some "/usr/bin/vasp2trace") = true) as Hexe by reflexivity.
  assert (isfile world_calc ("/calc" +:+ "/OUTCAR") = true) as Houtcar
    by (vm_compute; reflexivity).
  assert (isfile world_calc ("/calc" +:+ "/WAVECAR") = true) as Hwavecar
    by (vm_compute; reflexivity).
  assert (chdir world_calc "/calc" = Ok w1) as Hchdir by reflexivity.
  split; [exact Hexe|]. split; [exact Houtcar|]. split; [exact Hwavecar|].
  split; [exact Hchdir|].
  exact (chdir_persists literal (Some "/usr/bin/vasp2trace") vasp2trace
           default_filters world_calc w1 "/calc"
           Hexe Houtcar Hwavecar Hchdir).
Defined.

(** The exit code 2 of that run is in the message. *)
Example exit_message_2 :
  exit_message 2 = "vasp2trace exited with return code 2.".
Proof. reflexivity. Qed.

(** C7 as stated fails: when [vasp2trace] was not found on the path, the
    guard of the constructor raises its own runtime error, whatever the
    directory holds; here WAVECAR is missing from [/tmp] and the
    exception is not the file-not-found error. *)
Lemma missing_prerequisite_no_executable :
  isfile world_calc ("/tmp" +:+ "/WAVECAR") = false
  ∧ returned (__init__ literal None (program [] [] 0) default_filters
                world_calc "/tmp")
    = Raise (RuntimeError requires_message)
  ∧ RuntimeError requires_message ≠ FileNotFoundError.
Proof. split; [by vm_compute|]. split; [reflexivity | discriminate]. Qed.

(** C8 as stated fails: the program is started in [/calc], prints the
    byte 0xff, which is not UTF-8, on its standard output and exits with
    code 2; the decoding of line 70 raises before the return code is
    looked at, and the exception is no runtime error. *)
Lemma nonzero_exit_undecodable :
  let vasp2trace := program ["255"%char] [] 2 in
  let r := __init__ literal (Some "/usr/bin/vasp2trace") vasp2trace
             default_filters world_calc "/calc" in
  log r = [Chdir "/calc"; Popen ["vasp2trace"]]
  ∧ chdir world_calc "/calc" = Ok (seen_from world_calc "/calc")
  ∧ vasp2trace (seen_from world_calc "/calc")
    = inr (files world_calc, Process ["255"%char] [] 2)
  ∧ returned r = Raise UnicodeDecodeError
  ∧ ∀ msg, UnicodeDecodeError ≠ RuntimeError msg.
Proof.
  intros vasp2trace r. split; [by vm_compute|].
  split; [reflexivity|]. split; [reflexivity|].
  split; [by vm_compute | done].
Qed.

(** C10 as stated fails: OUTCAR and WAVECAR exist in [/calc], but
    [vasp2trace] was not found on the path, the guard raises before the
    body of the constructor runs, and the working directory is still
    [/home]. *)
Lemma chdir_skipped_no_executable :
  isfile world_calc ("/calc" +:+ "/OUTCAR") = true
  ∧ isfile world_calc ("/calc" +:+ "/WAVECAR") = true
  ∧ cwd (final (__init__ literal None (program [] [] 0) default_filters
                  world_calc "/calc"))
    = "/home"
  ∧ resolve world_calc "/calc" = "/calc".
Proof. by vm_compute. Qed.

(** The directory must be one that can be entered: with the empty name
    the two tests look at [/OUTCAR] and [/WAVECAR], which exist in
    [world_root], and [os.chdir] of the empty name raises the
    file-not-found error; the working directory is still [/home]. *)
Example chdir_empty_name :
  let r := __init__ literal (Some "/usr/bin/vasp2trace") (program [] [] 0)
             default_filters world_root "" in
  isfile world_root ("" +:+ "/OUTCAR") = true
  ∧ isfile world_root ("" +:+ "/WAVECAR") = true
  ∧ chdir world_root "" = Raise FileNotFoundError
  ∧ returned r = Raise FileNotFoundError
  ∧ log r = []
  ∧ cwd (final r) = "/home".
Proof. by vm_compute. Qed.

End CallerFacts.

(** ** Serialisation: the round trip runs the constructor again *)

Module RoundTrip.
Import PyFacts TraceFormat Fixtures.

Section trace_record.
Import Vasp2TraceOutput.
Context {F : Type} (float : string → option F).

(** Deserialising what [as_dict] produced is calling the constructor on
    the attributes of the serialised instance. *)
Lemma from_dict_as_dict (w : world) (self : instance F) :
  from_dict float w (as_dict self)
  = __init__ float w (_vasp2trace_stdout self) (num_occ_bands self) (soc self)
      (num_symm_ops self) (symm_ops self) (num_max_kvec self) (kvecs self)
      (num_kvec_symm_ops self) (symm_ops_in_little_cogroup self) (traces self).
Proof.
  unfold from_dict.
  set (decoded := filter _ (as_dict self)).
  assert (bool_decide (dom decoded ⊆ list_to_set (C := gset string) init_args)
          = true) as -> by (by vm_compute).
  assert (decoded !! "vasp2trace_stdout" = Some (_vasp2trace_stdout self))
    as -> by (by vm_compute).
  assert (kwarg decoded "num_occ_bands" = num_occ_bands self)
    as -> by (by vm_compute).
  assert (kwarg decoded "soc" = soc self) as -> by (by vm_compute).
  assert (kwarg decoded "num_symm_ops" = num_symm_ops self)
    as -> by (by vm_compute).
  assert (kwarg decoded "symm_ops" = symm_ops self) as -> by (by vm_compute).
  assert (kwarg decoded "num_max_kvec" = num_max_kvec self)
    as -> by (by vm_compute).
  assert (kwarg decoded "kvecs" = kvecs self) as -> by (by vm_compute).
  assert (kwarg decoded "num_kvec_symm_ops" = num_kvec_symm_ops self)
    as -> by (by vm_compute).
  assert (kwarg decoded "symm_ops_in_little_cogroup"
          = symm_ops_in_little_cogroup self) as -> by (by vm_compute).
  assert (kwarg decoded "traces" = traces self) as -> by (by vm_compute).
  done.
Qed.

(** The constructor ignores the keyword arguments that carry the parsed
    attributes: what it returns is what the file holds. *)
Lemma init_ignores_kwargs (w : world) (path : value F)
    (a1 a2 a3 a4 a5 a6 a7 a8 a9 : value F) :
  __init__ float w path a1 a2 a3 a4 a5 a6 a7 a8 a9
  = __init__ float w path VNone VNone VNone VNone VNone VNone VNone VNone VNone.
Proof. done. Qed.

(** As long as the file at the recorded path is the one that was
    parsed, the round trip gives the record back. *)
Lemma round_trip_same_world (w : world) (path : string) (self : instance F) :
  new float w path = Ok self → from_dict float w (as_dict self) = Ok self.
Proof.
  intros Hnew. rewrite from_dict_as_dict, init_ignores_kwargs.
  assert (_vasp2trace_stdout self = VStr path) as ->; [|done].
  unfold new, __init__, _parse_stdout in Hnew.
  apply bind_ok in Hnew as (lines & _ & Hparse). unfold parse_lines in Hparse.
  apply bind_ok in Hparse as (h & _ & Hparse).
  apply bind_ok in Hparse as (turns & _ & Hparse).
  apply bind_ok in Hparse as (d & _ & Hparse).
  by injection Hparse as <-.
Qed.

End trace_record.

(** C5 at a failing input. Deserialising what was serialised is
    constructing from the recorded path, whatever the other entries say.
    The record parsed from [file_two] is serialised; deserialising it where
    the trace file is absent raises the file-not-found error, and
    deserialising it where the path holds another trace file returns a
    record with the attributes of that other file: 0 occupied bands
    instead of the 68 that were serialised. *)
Theorem round_trip_reads_file_again :
  (∀ F (float : string → option F) w (self : Vasp2TraceOutput.instance F),
     Vasp2TraceOutput.from_dict float w (Vasp2TraceOutput.as_dict self)
     = Vasp2TraceOutput._parse_stdout float w self
         (Vasp2TraceOutput._vasp2trace_stdout self))
  ∧ ∃ self,
      Vasp2TraceOutput.new literal (world_with file_two) trace_path = Ok self
      ∧ Vasp2TraceOutput.as_dict self !! "num_occ_bands"
        = Some (Vasp2TraceOutput.VInt 68)
      ∧ Vasp2TraceOutput.from_dict literal world_empty
          (Vasp2TraceOutput.as_dict self)
        = Raise FileNotFoundError
      ∧ ∃ other,
          Vasp2TraceOutput.from_dict literal (world_with file_no_bands)
            (Vasp2TraceOutput.as_dict self)
          = Ok other
          ∧ Vasp2TraceOutput.num_occ_bands other = Vasp2TraceOutput.VInt 0.
Proof.
  split.
  { intros F float w self. by rewrite from_dict_as_dict. }
  eexists. split; [vm_compute; reflexivity|].
  split; [by vm_compute|]. split; [by vm_compute|].
  eexists. split; [vm_compute; reflexivity | reflexivity].
Qed.

Section invariant_record.
Import Topology BandTopologyAnalyzerOutput.

(** For the invariant record as well, deserialising is constructing
    again: the invariants are extracted anew, from the new instance, and
    the stored convergence result is called as a function. *)
Lemma analyzer_from_dict_as_dict (lib : z2pack) (self : instance) :
  from_dict lib (as_dict self)
  = __init__ lib (_result self) (surface self) (chern_number self)
      (z2_invariant self).
Proof.
  unfold from_dict.
  set (decoded := filter _ (as_dict self)).
  assert (bool_decide (dom decoded ⊆ list_to_set (C := gset string) init_args)
          = true) as -> by (by vm_compute).
  assert (decoded !! "result" = Some (_result self)) as -> by (by vm_compute).
  assert (decoded !! "surface" = Some (surface self)) as -> by (by vm_compute).
  assert (decoded !! "chern_number" = Some (chern_number self))
    as -> by (by vm_compute).
  assert (decoded !! "z2_invariant" = Some (z2_invariant self))
    as -> by (by vm_compute).
  done.
Qed.

End invariant_record.

End RoundTrip.

(** ** [BandTopologyAnalyzer] and its output *)

Module AnalyzerFacts.
Import PyFacts Topology Fixtures.

Section output.
Import BandTopologyAnalyzerOutput.

(** What the constructor computes, whatever the library: the invariants
    of the instance under construction, and the convergence result
    applied to the two parameter names. *)
Lemma init_unfolded (lib : z2pack) (result surface chern_number z2_invariant : value) :
  __init__ lib result surface chern_number z2_invariant
  = (let self := VOutput result surface chern_number z2_invariant in
     c ← invariant_chern lib self;
     z ← invariant_z2 lib self;
     v ← call lib result [VStr "t1"; VStr "t2"];
     Ok {| _result := result; surface := v;
           chern_number := c; z2_invariant := z |}).
Proof. done. Qed.

(** C1 at a failing input. Whatever the library, the constructor
    extracts the invariants from the instance under construction and
    calls the convergence result as a function of the two parameter names.
    In [sample_lib] the convergence result [VObject 0] has Chern number 1
    and Z2 invariant 0, and the surface function [VObject 1] evaluates to
    [[t1, t2, 0]] at the parameter names; the constructor stores none of
    these: the extraction of the Chern number is handed the instance
    itself, and raises. *)
Theorem output_parses_itself :
  (∀ lib result surface,
     new lib result surface
     = (let self := VOutput result surface VNone VNone in
        c ← invariant_chern lib self;
        z ← invariant_z2 lib self;
        v ← call lib result [VStr "t1"; VStr "t2"];
        Ok {| _result := result; surface := v;
              chern_number := c; z2_invariant := z |}))
  ∧ invariant_chern sample_lib (VObject 0) = Ok (VInt 1)
  ∧ invariant_z2 sample_lib (VObject 0) = Ok (VInt 0)
  ∧ call sample_lib (VObject 1) [VStr "t1"; VStr "t2"]
    = Ok (VList [VStr "t1"; VStr "t2"; VInt 0])
  ∧ new sample_lib (VObject 0) (VObject 1) = Raise AttributeError.
Proof. split; [intros; apply init_unfolded | by vm_compute]. Qed.

End output.

Section run.
Import BandTopologyAnalyzer.

(** Every setting that the call hands over has a default. *)
Lemma forwarded_defaults :
  Forall (λ k, is_Some (z2_defaults !! k)) forwarded_keys.
Proof.
  unfold forwarded_keys.
  repeat (constructor; [apply (bool_decide_unpack _); by vm_compute|]).
  constructor.
Qed.

Lemma update_defaults_lookup (z2d : gmap string value)
    (z2_settings : option (gmap string value)) (k : string) :
  update_defaults z2d z2_settings !! k
  = match setting z2_settings k with
    | Some v => Some v
    | None => z2d !! k
    end.
Proof.
  destruct z2_settings as [settings|]; [|done].
  unfold update_defaults, setting. simpl. case_bool_decide as Hempty.
  { subst settings. by rewrite lookup_empty. }
  apply (map_fold_weak_ind
           (λ r (m : gmap string value),
              r !! k = match m !! k with
                       | Some v => Some v
                       | None => z2d !! k
                       end)).
  - by rewrite lookup_empty.
  - intros i x m r _ IH. destruct (decide (i = k)) as [->|Hne].
    + by rewrite !lookup_insert_eq.
    + by rewrite !lookup_insert_ne.
Qed.

(** C3, as amended. Whatever the settings, the call is made, with the
    system and the surface of the analyzer; each of the seven settings
    pos_tol, gap_tol, move_tol, num_lines, min_neighbour_dist, iterator
    and save_file is handed over with the value given in the settings
    when there is one and with its default otherwise; a key of the
    settings that is not one of the eight recognized ones is not handed
    over. *)
Theorem run_settings (self : instance)
    (z2_settings : option (gmap string value)) :
  ∃ kwargs,
    surface_run_kwargs self z2_settings = Ok kwargs
    ∧ kwargs !! "system" = Some (system self)
    ∧ kwargs !! "surface" = Some (surface self)
    ∧ (∀ k, k ∈ forwarded_keys →
         is_Some (z2_defaults !! k)
         ∧ kwargs !! k = match setting z2_settings k with
                         | Some v => Some v
                         | None => z2_defaults !! k
                         end)
    ∧ (∀ k, k ∉ recognized_keys → k ≠ "system" → k ≠ "surface" →
         kwargs !! k = None).
Proof.
  unfold surface_run_kwargs, getitem.
  set (z2d := update_defaults z2_defaults z2_settings).
  assert (∀ k, is_Some (z2_defaults !! k) → is_Some (z2d !! k)) as Hset.
  { intros k Hk. subst z2d. rewrite update_defaults_lookup.
    by destruct (setting z2_settings k). }
  pose proof forwarded_defaults as Hdefault.
  pose proof Hdefault as Hkeys. unfold forwarded_keys in Hkeys.
  repeat (apply Forall_cons in Hkeys as [?%Hset Hkeys]).
  repeat match goal with
         | H : is_Some (z2d !! _) |- _ =>
             let Hv := fresh "Hv" in destruct H as [? Hv]; rewrite Hv
         end.
  simpl. eexists. split; [done|].
  split; [by rewrite lookup_insert_eq|].
  split; [by rewrite lookup_insert_ne, lookup_insert_eq|].
  split.
  - intros k Hk. split; [by eapply Forall_forall in Hdefault|].
    rewrite <- update_defaults_lookup. fold z2d.
    unfold forwarded_keys in Hk.
    repeat (apply elem_of_cons in Hk as [->|Hk];
            [by repeat (rewrite lookup_insert_eq
                        || rewrite lookup_insert_ne by done)|]).
    by apply elem_of_nil in Hk.
  - intros k Hk Hsystem Hsurface. unfold recognized_keys in Hk.
    repeat (apply not_elem_of_cons in Hk as [? Hk]).
    by repeat (rewrite lookup_insert_ne by done).
Qed.

(** The setting [load] is among the defaults, and the call never has it. *)
Lemma load_not_forwarded (self : instance)
    (z2_settings : option (gmap string value)) (kwargs : gmap string value) :
  surface_run_kwargs self z2_settings = Ok kwargs →
  z2_defaults !! "load" = Some (VBool true) ∧ kwargs !! "load" = None.
Proof.
  intros Hkwargs. split; [by vm_compute|].
  unfold surface_run_kwargs in Hkwargs.
  repeat (apply bind_ok in Hkwargs as (? & _ & Hkwargs)).
  injection Hkwargs as <-. by repeat (rewrite lookup_insert_ne by done).
Qed.

(** C3 as stated fails: a setting [verbose], which is not among the
    recognized ones, is not handed to the routine. *)
Lemma unrecognized_setting_dropped :
  ("verbose" ∉ recognized_keys)
  ∧ (kwargs ← surface_run_kwargs sample_analyzer
                (Some {[ "verbose" := VBool true ]});
     Ok (kwargs !! "verbose", kwargs !! "pos_tol"))
    = Ok (None, Some (VFloat 1 (-2))).
Proof.
  split; [|by vm_compute].
  unfold recognized_keys. intros Hin.
  repeat (apply elem_of_cons in Hin as [?|Hin]; [done|]).
  by apply elem_of_nil in Hin.
Qed.

End run.

End AnalyzerFacts.

(** ** More about the parsed record: exceptions, sizes, mappings *)

Module RecordFacts.
Import PyFacts NumpyFacts ParseFacts WellFormed CallerFacts.
Import TraceFormat Vasp2TraceOutput Fixtures Coverage.

Lemma index_ok_bound {A} (l : list A) (i : Z) x :
  index l i = Ok x → (0 ≤ i)%Z → (i < len l)%Z.
Proof.
  intros Hx Hi. rewrite index_nonneg in Hx by done.
  destruct (l !! Z.to_nat i) eqn:Hl; [|done].
  apply lookup_lt_Some in Hl. unfold len. lia.
Qed.

Section record.
Context {F : Type} (float : string → option F).

(** X1. The exceptions of the constructor of [Vasp2TraceOutput]: when
    the file at the path cannot be opened and read, the exception of that
    attempt, whatever it is; otherwise an index error, a value error or a
    type error. *)
Theorem parse_exceptions (w : world) (path : string) (e : exn) :
  new float w path = Raise e →
  readlines w path = Raise e
  ∨ (is_ok (readlines w path) = true
     ∧ (e = IndexError ∨ e = ValueError ∨ e = TypeError)).
Proof.
  unfold new, __init__, _parse_stdout, open_readlines.
  intros H. apply bind_raise_inv in H as [H|(lines & Hlines & H)].
  { by left. }
  right. split; [by rewrite Hlines|]. unfold parse_lines in H.
  apply bind_raise_inv in H as [H|(h & _ & H)].
  { unfold get_header_info in H. raised H. done. }
  apply bind_raise_inv in H as [H|(turns & _ & H)].
  { destruct (h_kvecs h); simpl in H; [|done..]. injection H as <-. auto. }
  apply bind_raise_inv in H as [H|(d & _ & H)]; [|done].
  revert H.
  apply (for_each_raise_inv _
           (λ e, e = IndexError ∨ e = ValueError ∨ e = TypeError)).
  clear. intros acc idx e H. unfold block_body in H. raised H. done.
Qed.

(** X2. A record is returned only for a file of at least three lines
    that has a line after the rows of its symmetry operations: with S
    operations announced, S not negative, the file has more than 3 + S
    lines. *)
Theorem parsed_file_size (w : world) (path : string) (lines : list string)
    (self : instance F) :
  readlines w path = Ok lines →
  new float w path = Ok self →
  ∃ S, num_symm_ops self = VInt S
       ∧ (3 ≤ length lines)%nat
       ∧ ((0 ≤ S)%Z → (3 + S < len lines)%Z).
Proof.
  intros Hread Hnew. rewrite (ParsedRecord.new_lines float w path lines Hread) in Hnew.
  unfold parse_lines in Hnew.
  apply bind_ok in Hnew as (h & Hheader & Hnew).
  apply bind_ok in Hnew as (turns & _ & Hnew).
  apply bind_ok in Hnew as (d & _ & Hnew).
  injection Hnew as <-. exists (h_num_symm_ops h). split; [done|].
  unfold get_header_info in Hheader.
  apply bind_ok in Hheader as (line0 & _ & Hheader).
  apply bind_ok in Hheader as (B & _ & Hheader).
  apply bind_ok in Hheader as (line1 & _ & Hheader).
  apply bind_ok in Hheader as (soc & _ & Hheader).
  apply bind_ok in Hheader as (line2 & Hline2 & Hheader).
  apply bind_ok in Hheader as (S & _ & Hheader).
  apply bind_ok in Hheader as (a_s & _ & Hheader).
  apply bind_ok in Hheader as (line_k & Hline_k & Hheader).
  apply bind_ok in Hheader as (K & _ & Hheader).
  apply bind_ok in Hheader as (a_k & _ & Hheader).
  injection Hheader as <-. cbn [h_num_symm_ops].
  apply index_ok_bound in Hline2; [|lia]. unfold len in Hline2.
  split; [lia|]. intros HS. apply index_ok_bound in Hline_k; lia.
Qed.

(** What a turn that ends normally has read and stored. *)
Lemma block_body_inv (lines : list string) (K : Z) (block_starts : list Z)
    (acc d : dicts F) (idx : nat) :
  block_body float lines K block_starts acc idx = Ok d →
  ∃ c ops t, d = store acc idx c ops t
             ∧ turn_reads float lines K block_starts idx c ops t.
Proof.
  unfold block_body. intros H.
  apply bind_ok in H as (start & Hstart & H).
  apply bind_ok in H as (rows & Hrows & H).
  apply bind_ok in H as (count_line & Hcount_line & H).
  apply bind_ok in H as (c & Hc & H).
  apply bind_ok in H as (index_line & Hindex_line & H).
  apply bind_ok in H as (ops & Hops & H).
  apply bind_ok in H as (t & Ht & H).
  injection H as <-. exists c, ops, t. split; [done|].
  by exists start, rows, count_line, index_line.
Qed.

(** The loop that ends normally has stored one entry per turn, under the
    index of the turn, and nothing else. *)
Lemma for_each_store_inv (body : dicts F → nat → result (dicts F))
    (R : nat → Z → list Z → ndarray F → Prop) :
  (∀ acc i d, body acc i = Ok d →
     ∃ c ops t, d = store acc i c ops t ∧ R i c ops t) →
  ∀ m s acc d, for_each body (seq s m) acc = Ok d →
  ∀ i, ((s ≤ i < s + m)%nat →
          ∃ c ops t, d_num_kvec_symm_ops d !! i = Some c
                     ∧ d_symm_ops_in_little_cogroup d !! i = Some ops
                     ∧ d_traces d !! i = Some t
                     ∧ R i c ops t)
       ∧ (¬ (s ≤ i < s + m)%nat →
          d_num_kvec_symm_ops d !! i = d_num_kvec_symm_ops acc !! i
          ∧ d_symm_ops_in_little_cogroup d !! i
            = d_symm_ops_in_little_cogroup acc !! i
          ∧ d_traces d !! i = d_traces acc !! i).
Proof.
  intros Hbody m. induction m as [|m IH]; intros s acc d Hd i.
  - injection Hd as <-. split; [lia | done].
  - simpl in Hd. apply bind_ok in Hd as (acc' & Hturn & Hd).
    apply Hbody in Hturn as (c & ops & t & -> & HR).
    destruct (IH _ _ _ Hd i) as [Hin Hout]. split.
    + intros Hi. destruct (decide (i = s)) as [->|Hne]; [|apply Hin; lia].
      destruct Hout as (-> & -> & ->); [lia|].
      exists c, ops, t. unfold store; simpl. by rewrite !lookup_insert_eq.
    + intros Hi. destruct Hout as (-> & -> & ->); [lia|].
      unfold store; simpl. rewrite !lookup_insert_ne by lia. done.
Qed.

(** The parse that ends normally, taken apart. *)
Lemma parse_lines_inv (self0 self : instance F) (lines : list string) :
  parse_lines float self0 lines = Ok self →
  ∃ h turns d,
    get_header_info float lines = Ok h
    ∧ array_len (h_kvecs h) = Ok turns
    ∧ for_each
        (block_body float lines (h_num_max_kvec h)
           (find_block_starts lines
              (5 + h_num_max_kvec h + h_num_symm_ops h)))
        (seq 0 turns) (Dicts ∅ ∅ ∅) = Ok d
    ∧ num_symm_ops self = VInt (h_num_symm_ops h)
    ∧ symm_ops self = VArray (h_symm_ops h)
    ∧ num_max_kvec self = VInt (h_num_max_kvec h)
    ∧ kvecs self = VArray (h_kvecs h)
    ∧ num_kvec_symm_ops self = VCounts (d_num_kvec_symm_ops d)
    ∧ symm_ops_in_little_cogroup self
      = VIndices (d_symm_ops_in_little_cogroup d)
    ∧ traces self = VTraces (d_traces d).
Proof.
  unfold parse_lines. intros H.
  apply bind_ok in H as (h & Hheader & H).
  apply bind_ok in H as (turns & Hturns & H).
  apply bind_ok in H as (d & Hd & H).
  injection H as <-. by exists h, turns, d.
Qed.

(** X3. In every record that is returned, all parsed attributes are
    set and the three mappings have one and the same key set: the
    indices 0, ..., n-1, where n is the length of [kvecs], the number of
    turns of the loop. *)
Theorem record_mappings (w : world) (path : string) (self : instance F) :
  new float w path = Ok self →
  populated self = true
  ∧ ∃ a_k n d1 d2 d3,
      kvecs self = VArray a_k ∧ array_len a_k = Ok n
      ∧ num_kvec_symm_ops self = VCounts d1
      ∧ symm_ops_in_little_cogroup self = VIndices d2
      ∧ traces self = VTraces d3
      ∧ dom d1 = set_seq 0 n ∧ dom d2 = set_seq 0 n ∧ dom d3 = set_seq 0 n.
Proof.
  intros Hnew. split; [by eapply ParseFailure.new_populated|].
  unfold new, __init__, _parse_stdout in Hnew.
  apply bind_ok in Hnew as (lines & _ & Hparse).
  apply parse_lines_inv in Hparse
    as (h & turns & d & _ & Hturns & Hd & _ & _ & _ & -> & -> & -> & ->).
  exists (h_kvecs h), turns, (d_num_kvec_symm_ops d),
    (d_symm_ops_in_little_cogroup d), (d_traces d).
  pose proof (for_each_store_inv _ _
                (λ acc i d, block_body_inv _ _ _ acc d i) _ _ _ _ Hd) as Hfill.
  split_and!; try done.
  - apply ParsedRecord.dom_filled. intros i. destruct (Hfill i) as [Hin Hout].
    split.
    + intros Hi. destruct Hin as (c & ? & ? & -> & _); [lia | by exists c].
    + intros Hi. by destruct Hout as (-> & _); [lia|].
  - apply ParsedRecord.dom_filled. intros i. destruct (Hfill i) as [Hin Hout].
    split.
    + intros Hi. destruct Hin as (? & ops & ? & _ & -> & _); [lia | by exists ops].
    + intros Hi. by destruct Hout as (_ & -> & _); [lia|].
  - apply ParsedRecord.dom_filled. intros i. destruct (Hfill i) as [Hin Hout].
    split.
    + intros Hi. destruct Hin as (? & ? & t & _ & _ & -> & _); [lia | by exists t].
    + intros Hi. by destruct Hout as (_ & _ & ->); [lia|].
Qed.

(** X4. In every record that is returned, the entries stored for index i
    come from the i-th block start that was found: the count is the
    integer on that line, the indices are those of the next line, the
    table is read from the lines after it, up to the next block start or,
    in the last turn, to the end of the file. *)
Theorem record_entries (w : world) (path : string) (lines : list string)
    (self : instance F) :
  readlines w path = Ok lines →
  new float w path = Ok self →
  ∃ S K d1 d2 d3,
    num_symm_ops self = VInt S ∧ num_max_kvec self = VInt K
    ∧ num_kvec_symm_ops self = VCounts d1
    ∧ symm_ops_in_little_cogroup self = VIndices d2
    ∧ traces self = VTraces d3
    ∧ ∀ i, i ∈ dom d1 →
        ∃ c ops t, d1 !! i = Some c ∧ d2 !! i = Some ops ∧ d3 !! i = Some t
                   ∧ turn_reads float lines K
                       (find_block_starts lines (5 + K + S)) i c ops t.
Proof.
  intros Hread Hnew.
  rewrite (ParsedRecord.new_lines float w path lines Hread) in Hnew.
  apply parse_lines_inv in Hnew
    as (h & turns & d & _ & _ & Hd & -> & _ & -> & _ & -> & -> & ->).
  exists (h_num_symm_ops h), (h_num_max_kvec h), (d_num_kvec_symm_ops d),
    (d_symm_ops_in_little_cogroup d), (d_traces d).
  split_and!; try done.
  intros i Hi.
  destruct (for_each_store_inv _ _ (λ acc i d, block_body_inv _ _ _ acc d i)
              _ _ _ _ Hd i) as [Hin Hout].
  destruct (decide (0 ≤ i < 0 + turns)%nat) as [Hlt|Hge]; [by apply Hin|].
  apply elem_of_dom in Hi as [c Hc].
  destruct (Hout Hge) as (Hnone & _). simpl in Hnone.
  by rewrite Hc, lookup_empty in Hnone.
Qed.

(** One numeric row of at least two numbers is read as a vector. *)
Lemma loadtxt_one_row (ncols : nat) (row : string) :
  numeric_row float ncols row = true →
  ∃ cells, convert_row float ncols (split_line row) = Ok cells
           ∧ length cells = ncols
           ∧ loadtxt float [row]
             = Ok (match cells with [x] => Scalar x | _ => Vector cells end).
Proof.
  intros Hrow.
  pose proof (numeric_row_convert float ncols row Hrow) as (cells & Hcells & Hlen).
  exists cells. split; [done|]. split; [done|].
  apply andb_prop in Hrow as [Hn%Nat.eqb_eq _].
  unfold loadtxt. cbn [fmap list_fmap List.filter].
  destruct (split_line row) as [|v vals] eqn:Hvals.
  - simpl in Hn. subst ncols. cbn [is_nil negb].
    by destruct cells.
  - cbn [is_nil negb comprehension]. rewrite Hn, Hcells. step.
    by destruct cells as [|x [|y cells]].
Qed.

(** X5. A well-formed file with a single k-vector, in which only the
    first line of the block has a single entry, is never parsed: the
    row of the k-vector is read as a vector of three numbers, the loop
    runs over its coordinates, and the second turn finds no block start.
    The constructor raises the index error. *)
Theorem single_kvec_rejected (w : world) (path : string) (f : trace_file)
    (B soc S : Z) :
  readlines w path = Ok (file_lines f) →
  well_formed float f B soc S 1 = true →
  one_start_per_block f = true →
  new float w path = Raise IndexError.
Proof.
  intros Hread Hwf Hone.
  rewrite (ParsedRecord.new_lines float w path _ Hread).
  destruct (get_header_info_well_formed float f B soc S 1 Hwf)
    as (a_s & a_k & Hheader & _ & Ha_k & _ & _).
  pose proof Hwf
    as (_ & _ & _ & _ & _ & _ & HlenK & Hkvec & Hlen & Hblocks)%well_formed_inv.
  destruct (kvec_rows f) as [|row [|]] eqn:Hrows;
    try (unfold len in HlenK; simpl in HlenK; lia).
  destruct (blocks f) as [|b [|]] eqn:Hbs;
    try (unfold len in Hlen; simpl in Hlen; lia).
  simpl in Hkvec. apply andb_prop in Hkvec as [Hrow _].
  destruct (loadtxt_one_row 3 row Hrow) as (cells & _ & Hcells & Hload).
  rewrite Ha_k in Hload. injection Hload as ->.
  destruct cells as [|x [|y [|z [|]]]]; try done.
  simpl in Hblocks. apply andb_prop in Hblocks as [Hb _].
  apply well_formed_block_inv in Hb as (_ & n & ops & Hn & Hops & _ & Htable).
  apply loadtxt_numeric_table in Htable as (t & Ht & _).
  unfold parse_lines. rewrite Hheader. step.
  cbn [h_kvecs h_num_max_kvec h_num_symm_ops array_len length]. step.
  rewrite (find_block_starts_well_formed float f B soc S 1 Hwf Hone), Hbs.
  cbn [seq for_each].
  pose proof (block_body_at float (header_lines f) [] [] b
                (Dicts ∅ ∅ ∅) n ops t Hn Hops Ht) as Hfirst.
  unfold file_lines. rewrite Hbs.
  cbn [app length] in Hfirst. change (len [b]) with 1%Z in Hfirst.
  rewrite Hfirst. step.
  unfold block_body at 1. cbn [block_offsets].
  rewrite index_short; [done|]. unfold len. simpl. lia.
Qed.

(** X6. A well-formed file with a single symmetry operation, in which
    every block but the last has one block start, is parsed, but its
    [symm_ops] is not a table of one row: the row is read as a vector of
    its numbers (as a scalar when it holds one number). *)
Theorem single_symm_op_squeezed (w : world) (path : string) (f : trace_file)
    (B soc K : Z) :
  readlines w path = Ok (file_lines f) →
  well_formed float f B soc 1 K = true →
  one_start_but_last f = true →
  K ≠ 1%Z →
  ∃ self a row cells,
    new float w path = Ok self
    ∧ num_symm_ops self = VInt 1
    ∧ symm_ops self = VArray a
    ∧ symm_rows f = [row]
    ∧ convert_row float (length cells) (split_line row) = Ok cells
    ∧ a = match cells with [x] => Scalar x | _ => Vector cells end.
Proof.
  intros Hread Hwf Hone HK.
  destruct (parse_lines_but_last float f B soc 1 K
              (Instance (VStr path) VNone VNone VNone VNone VNone VNone
                 VNone VNone VNone) Hwf Hone HK)
    as (a_s & a_k & d & Hparse & _).
  destruct (get_header_info_well_formed float f B soc 1 K Hwf)
    as (a_s' & a_k' & Hheader & Ha_s & _).
  assert (a_s = a_s') as ->.
  { apply parse_lines_inv in Hparse
      as (h & _ & _ & Hh & _ & _ & _ & Hsymm & _).
    rewrite Hheader in Hh. injection Hh as <-.
    cbn [symm_ops h_symm_ops] in Hsymm. by injection Hsymm. }
  pose proof Hwf as (_ & _ & _ & HlenS & Htable & _)%well_formed_inv.
  destruct (symm_rows f) as [|row [|]] eqn:Hrows;
    try (unfold len in HlenS; simpl in HlenS; lia).
  unfold numeric_table in Htable.
  apply andb_prop in Htable as [_ Hrow]. simpl in Hrow.
  apply andb_prop in Hrow as [Hrow _].
  destruct (loadtxt_one_row _ row Hrow) as (cells & Hcells & Hlen & Hload).
  rewrite Ha_s in Hload. injection Hload as ->.
  eexists _, _, row, cells.
  split; [by rewrite (ParsedRecord.new_lines float w path _ Hread), Hparse|].
  split_and!; try done. by rewrite Hlen.
Qed.

End record.

(** The theorems of this part at [world_empty], [file_two],
    [file_one_kvec] and [file_one_symm_op]. *)
Lemma parse_exceptions_witness :
  new literal world_empty "/run" = Raise IsADirectoryError
  ∧ (readlines world_empty "/run" = Raise IsADirectoryError
     ∨ (is_ok (readlines world_empty "/run") = true
        ∧ (IsADirectoryError = IndexError ∨ IsADirectoryError = ValueError
           ∨ IsADirectoryError = TypeError))).
Proof.
  assert (new literal world_empty "/run" = Raise IsADirectoryError)
    as Hnew by (vm_compute; reflexivity).
  split; [exact Hnew|].
  exact (parse_exceptions literal world_empty "/run" _ Hnew).
Defined.

Lemma parsed_file_size_witness :
  ∃ self,
    readlines (world_with file_two) trace_path = Ok (file_lines file_two)
    ∧ new literal (world_with file_two) trace_path = Ok self
    ∧ ∃ S, num_symm_ops self = VInt S
           ∧ (3 ≤ length (file_lines file_two))%nat
           ∧ ((0 ≤ S)%Z → (3 + S < len (file_lines file_two))%Z).
Proof.
  eexists.
  assert (readlines (world_with file_two) trace_path
          = Ok (file_lines file_two)) as Hread by (vm_compute; reflexivity).
  eassert (new literal (world_with file_two) trace_path = Ok _) as Hnew
    by (vm_compute; reflexivity).
  split; [exact Hread|]. split; [exact Hnew|].
  exact (parsed_file_size literal (world_with file_two) trace_path _ _
           Hread Hnew).
Defined.

Lemma record_mappings_witness :
  ∃ self,
    new literal (world_with file_two) trace_path = Ok self
    ∧ populated self = true
    ∧ ∃ a_k n d1 d2 d3,
        kvecs self = VArray a_k ∧ array_len a_k = Ok n
        ∧ num_kvec_symm_ops self = VCounts d1
        ∧ symm_ops_in_little_cogroup self = VIndices d2
        ∧ traces self = VTraces d3
        ∧ dom d1 = set_seq 0 n ∧ dom d2 = set_seq 0 n ∧ dom d3 = set_seq 0 n.
Proof.
  eexists.
  eassert (new literal (world_with file_two) trace_path = Ok _) as Hnew
    by (vm_compute; reflexivity).
  split; [exact Hnew|].
  exact (record_mappings literal (world_with file_two) trace_path _ Hnew).
Defined.

Lemma record_entries_witness :
  ∃ self,
    readlines (world_with file_two) trace_path = Ok (file_lines file_two)
    ∧ new literal (world_with file_two) trace_path = Ok self
    ∧ ∃ S K d1 d2 d3,
        num_symm_ops self = VInt S ∧ num_max_kvec self = VInt K
        ∧ num_kvec_symm_ops self = VCounts d1
        ∧ symm_ops_in_little_cogroup self = VIndices d2
        ∧ traces self = VTraces d3
        ∧ ∀ i, i ∈ dom d1 →
            ∃ c ops t, d1 !! i = Some c ∧ d2 !! i = Some ops
                       ∧ d3 !! i = Some t
                       ∧ turn_reads literal (file_lines file_two) K
                           (find_block_starts (file_lines file_two)
                              (5 + K + S)) i c ops t.
Proof.
  eexists.
  assert (readlines (world_with file_two) trace_path
          = Ok (file_lines file_two)) as Hread by (vm_compute; reflexivity).
  eassert (new literal (world_with file_two) trace_path = Ok _) as Hnew
    by (vm_compute; reflexivity).
  split; [exact Hread|]. split; [exact Hnew|].
  exact (record_entries literal (world_with file_two) trace_path _ _
           Hread Hnew).
Defined.

Lemma single_kvec_rejected_witness :
  readlines (world_with file_one_kvec) trace_path
  = Ok (file_lines file_one_kvec)
  ∧ well_formed literal file_one_kvec 68 0 2 1 = true
  ∧ one_start_per_block file_one_kvec = true
  ∧ new literal (world_with file_one_kvec) trace_path = Raise IndexError.
Proof.
  assert (readlines (world_with file_one_kvec) trace_path
          = Ok (file_lines file_one_kvec)) as Hread
    by (vm_compute; reflexivity).
  assert (well_formed literal file_one_kvec 68 0 2 1 = true) as Hwf
    by (vm_compute; reflexivity).
  assert (one_start_per_block file_one_kvec = true) as Hone
    by (vm_compute; reflexivity).
  split_and!; try assumption.
  exact (single_kvec_rejected literal (world_with file_one_kvec) trace_path
           file_one_kvec 68 0 2 Hread Hwf Hone).
Defined.

Lemma single_symm_op_squeezed_witness :
  readlines (world_with file_one_symm_op) trace_path
  = Ok (file_lines file_one_symm_op)
  ∧ well_formed literal file_one_symm_op 68 0 1 2 = true
  ∧ one_start_but_last file_one_symm_op = true
  ∧ 2%Z ≠ 1%Z
  ∧ ∃ self a row cells,
      new literal (world_with file_one_symm_op) trace_path = Ok self
      ∧ num_symm_ops self = VInt 1
      ∧ symm_ops self = VArray a
      ∧ symm_rows file_one_symm_op = [row]
      ∧ convert_row literal (length cells) (split_line row) = Ok cells
      ∧ a = match cells with [x] => Scalar x | _ => Vector cells end.
Proof.
  assert (readlines (world_with file_one_symm_op) trace_path
          = Ok (file_lines file_one_symm_op)) as Hread
    by (vm_compute; reflexivity).
  assert (well_formed literal file_one_symm_op 68 0 1 2 = true) as Hwf
    by (vm_compute; reflexivity).
  assert (one_start_but_last file_one_symm_op = true) as Hone
    by (vm_compute; reflexivity).
  assert (2%Z ≠ 1%Z) as Hne by lia.
  split_and!; try assumption.
  exact (single_symm_op_squeezed literal (world_with file_one_symm_op)
           trace_path file_one_symm_op 68 0 2 Hread Hwf Hone Hne).
Defined.

End RecordFacts.

(** ** [Vasp2TraceCaller]: effects, success and the origin of errors *)

Module CallerEffects.
Import PyFacts CallerFacts Vasp2TraceCaller Fixtures Coverage.

Lemma requires_not_exit_message (c : Z) : requires_message ≠ exit_message c.
Proof. unfold requires_message, exit_message. simpl. discriminate. Qed.

Section caller.
Context {F : Type} (float : string → option F).
Context (exe : option string).
Context (vasp2trace : world → io_error + gmap string node * process).
Context (raises_warning : string → bool).

(** The call of [warnings.warn] is made exactly when the standard error
    is not empty and can be decoded, with the decoded text. *)
Lemma report_warn_iff (stderr : bytes) (msg : string) :
  Warn msg ∈ (report raises_warning stderr).1
  ↔ stderr ≠ [] ∧ decode stderr = Ok msg.
Proof.
  unfold report. destruct stderr as [|c bs]; simpl.
  { split; [by intros ?%elem_of_nil | by intros [? _]]. }
  destruct (decode (c :: bs)) as [s|e]; simpl.
  - rewrite list_elem_of_singleton. split.
    + by intros [= ->].
    + by intros [_ [= ->]].
  - split; [by intros ?%elem_of_nil | by intros [_ ?]].
Qed.

Lemma report_events (stderr : bytes) :
  (report raises_warning stderr).1 = []
  ∨ ∃ msg, (report raises_warning stderr).1 = [Warn msg].
Proof.
  unfold report. destruct stderr as [|c bs]; simpl; [by left|].
  destruct (decode (c :: bs)) as [s|e]; simpl; [right; by exists s | by left].
Qed.

(** The effects of the constructor, in terms of what each step gives. *)
Lemma init_log (w : world) (folder_name : string) :
  log (__init__ float exe vasp2trace raises_warning w folder_name)
  = if found exe && isfile w (folder_name +:+ "/OUTCAR")
       && isfile w (folder_name +:+ "/WAVECAR")
    then
      match chdir w folder_name with
      | Raise _ => []
      | Ok w1 =>
          Chdir folder_name ::
          match vasp2trace w1 with
          | inl _ => []
          | inr (_, process) =>
              Popen ["vasp2trace"] ::
              match decode (p_stdout process) with
              | Raise _ => []
              | Ok _ => (report raises_warning (p_stderr process)).1
              end
          end
      end
    else [].
Proof.
  unfold __init__.
  destruct (found exe); simpl; [|done].
  destruct (isfile w (folder_name +:+ "/OUTCAR")); simpl; [|done].
  destruct (isfile w (folder_name +:+ "/WAVECAR")); simpl; [|done].
  destruct (chdir w folder_name) as [w1|e]; [|done].
  destruct (vasp2trace w1) as [e|[files_left process]]; [done|].
  destruct (decode (p_stdout process)) as [stdout|e]; [|done].
  destruct (report raises_warning (p_stderr process)) as [warned [v|e]];
    [|done].
  by destruct (negb _).
Qed.

(** X7. The effects of the constructor, whatever its outcome. They
    come in the order: change of directory, start of the program, call
    of [warnings.warn], each at most once. The directory is changed
    exactly when the executable was found, both files exist and the
    directory can be entered; the program is started exactly when,
    moreover, [Popen] does not raise; [warnings.warn] is called exactly
    when, moreover, the standard output of the program can be decoded and
    its standard error is not empty and can be decoded, and it is called
    with that text. A constructor without effect leaves the world as it
    was. *)
Theorem constructor_effects (w : world) (folder_name : string) :
  let r := __init__ float exe vasp2trace raises_warning w folder_name in
  let ready := found exe && isfile w (folder_name +:+ "/OUTCAR")
               && isfile w (folder_name +:+ "/WAVECAR") in
  (∃ n msg, log r = take n [Chdir folder_name; Popen ["vasp2trace"];
                            Warn msg])
  ∧ (log r = [] → final r = w)
  ∧ (∀ p, Chdir p ∈ log r
          ↔ p = folder_name ∧ ready = true
            ∧ is_ok (chdir w folder_name) = true)
  ∧ (∀ args, Popen args ∈ log r
             ↔ args = ["vasp2trace"] ∧ ready = true
               ∧ ∃ w1 files_left process,
                   chdir w folder_name = Ok w1
                   ∧ vasp2trace w1 = inr (files_left, process))
  ∧ (∀ msg, Warn msg ∈ log r
            ↔ ready = true
              ∧ ∃ w1 files_left process,
                  chdir w folder_name = Ok w1
                  ∧ vasp2trace w1 = inr (files_left, process)
                  ∧ is_ok (decode (p_stdout process)) = true
                  ∧ p_stderr process ≠ []
                  ∧ decode (p_stderr process) = Ok msg).
Proof.
  intros r ready.
  assert (log r = [] → final r = w) as Hnone.
  { subst r. unfold __init__.
    destruct (found exe); simpl; [|done].
    destruct (isfile w (folder_name +:+ "/OUTCAR")); simpl; [|done].
    destruct (isfile w (folder_name +:+ "/WAVECAR")); simpl; [|done].
    destruct (chdir w folder_name) as [w1|e]; [|done].
    destruct (vasp2trace w1) as [e|[files_left process]]; [done|].
    destruct (decode (p_stdout process)) as [stdout|e]; [|done].
    destruct (report raises_warning (p_stderr process)) as [warned [v|e]];
      [|done].
    by destruct (negb _). }
  split; [|split; [exact Hnone|]]; subst r; rewrite init_log; fold ready;
    clear Hnone.
  - destruct ready; [|by exists 0%nat, ""].
    destruct (chdir w folder_name) as [w1|e]; [|by exists 0%nat, ""].
    destruct (vasp2trace w1) as [e|[files_left process]];
      [by exists 1%nat, ""|].
    destruct (decode (p_stdout process)) as [stdout|e];
      [|by exists 2%nat, ""].
    destruct (report_events (p_stderr process)) as [->|[msg ->]];
      [by exists 2%nat, "" | by exists 3%nat, msg].
  - destruct ready.
    2:{ split_and!; intros ?; (split; [by intros ?%elem_of_nil|]);
          [by intros (_ & ? & _) | by intros (_ & ? & _) | by intros (? & _)]. }
    destruct (chdir w folder_name) as [w1|e] eqn:Hchdir.
    2:{ split_and!; intros ?; (split; [by intros ?%elem_of_nil|]).
        - by intros (_ & _ & ?).
        - by intros (_ & _ & ? & ? & ? & ? & _).
        - by intros (_ & ? & ? & ? & ? & _). }
    destruct (vasp2trace w1) as [e|[files_left process]] eqn:Hpopen.
    { split_and!; intros ?; rewrite list_elem_of_singleton.
      - split; [by intros [= ->] | by intros (-> & _)].
      - split; [done|]. intros (_ & _ & ? & ? & ? & [= <-] & ?). congruence.
      - split; [done|]. intros (_ & ? & ? & ? & [= <-] & ? & _). congruence. }
    assert (∀ warned : list event,
              (∀ p, Chdir p ∉ warned) → (∀ a, Popen a ∉ warned) →
              (∀ p, Chdir p ∈ Chdir folder_name :: Popen ["vasp2trace"]
                                :: warned
                    ↔ p = folder_name ∧ true = true ∧ is_ok (Ok w1) = true)
              ∧ (∀ args, Popen args ∈ Chdir folder_name
                                      :: Popen ["vasp2trace"] :: warned
                         ↔ args = ["vasp2trace"] ∧ true = true
                           ∧ ∃ w2 files_left0 process0,
                               Ok w1 = Ok w2
                               ∧ vasp2trace w2 = inr (files_left0, process0)))
      as Hfirst.
    { intros warned Hchdirs Hpopens. split.
      - intros p. rewrite !elem_of_cons. split.
        + intros [[= ->]|[?|?]]; [done | done | by destruct (Hchdirs p)].
        + intros (-> & _). by left.
      - intros args. rewrite !elem_of_cons. split.
        + intros [?|[[= ->]|?]]; [done | | by destruct (Hpopens args)].
          split; [done|]. split; [done|]. by exists w1, files_left, process.
        + intros (-> & _). right. by left. }
    destruct (decode (p_stdout process)) as [stdout|e] eqn:Hout.
    2:{ destruct (Hfirst []) as [Hc Hp];
          [by intros ? ?%elem_of_nil | by intros ? ?%elem_of_nil|].
        split; [exact Hc|]. split; [exact Hp|].
        intros msg. rewrite !elem_of_cons. split.
        - intros [?|[?|?%elem_of_nil]]; done.
        - intros (_ & ? & ? & ? & [= <-] & Hp' & Hok & _).
          rewrite Hpopen in Hp'. injection Hp' as <- <-.
          by rewrite Hout in Hok. }
    destruct (Hfirst (report raises_warning (p_stderr process)).1)
      as [Hc Hp].
    { intros p. by destruct (report_events (p_stderr process))
        as [->|[msg ->]]; [intros ?%elem_of_nil
                          | intros [=]%list_elem_of_singleton]. }
    { intros a. by destruct (report_events (p_stderr process))
        as [->|[msg ->]]; [intros ?%elem_of_nil
                          | intros [=]%list_elem_of_singleton]. }
    split; [exact Hc|]. split; [exact Hp|].
    intros msg. rewrite !elem_of_cons, report_warn_iff. split.
    + intros [?|[?|[Hne Hmsg]]]; [done | done |].
      split; [done|]. exists w1, files_left, process. by rewrite Hout.
    + intros (_ & ? & ? & ? & [= <-] & Hp' & _ & Hne & Hmsg).
      rewrite Hpopen in Hp'. injection Hp' as <- <-. right. right. done.
Qed.

(** X8. When the constructor returns an instance, the executable was
    found, both files exist, the directory was entered, the program was
    started and exited with code 0; what it printed on its standard
    output is well-formed UTF-8, and that text is kept and was opened as
    a path, read in the world the program left, with the directory of the
    run as working directory; the record held by the instance is the
    parse of that file. What it printed on its standard error, if
    anything, was decoded, handed to [warnings.warn] without raising, and
    kept. *)
Theorem success_reads_stdout_as_path (w : world) (folder_name : string)
    (inst : instance F) :
  let r := __init__ float exe vasp2trace raises_warning w folder_name in
  returned r = Ok inst →
  found exe = true
  ∧ isfile w (folder_name +:+ "/OUTCAR") = true
  ∧ isfile w (folder_name +:+ "/WAVECAR") = true
  ∧ ∃ w1 files_left process,
      chdir w folder_name = Ok w1
      ∧ vasp2trace w1 = inr (files_left, process)
      ∧ returncode process = 0%Z
      ∧ decode (p_stdout process) = Ok (_stdout inst)
      ∧ (p_stderr process = [] ∧ _stderr inst = inl []
         ∨ ∃ s, p_stderr process ≠ [] ∧ decode (p_stderr process) = Ok s
                ∧ raises_warning s = false ∧ _stderr inst = inr s)
      ∧ cwd (final r) = resolve w folder_name
      ∧ files (final r) = files_left
      ∧ is_ok (readlines (final r) (_stdout inst)) = true
      ∧ Vasp2TraceOutput.new float (final r) (_stdout inst)
        = Ok (output inst).
Proof.
  unfold __init__.
  destruct (found exe); simpl; [|done].
  destruct (isfile w (folder_name +:+ "/OUTCAR")); simpl; [|done].
  destruct (isfile w (folder_name +:+ "/WAVECAR")); simpl; [|done].
  destruct (chdir w folder_name) as [w1|e] eqn:Hchdir; [|done].
  assert (cwd w1 = resolve w folder_name) as Hcwd.
  { unfold chdir in Hchdir. destruct (entered _); [done|].
    by injection Hchdir as <-. }
  destruct (vasp2trace w1) as [e|[files_left process]] eqn:Hpopen; [done|].
  destruct (decode (p_stdout process)) as [stdout|e] eqn:Hout; [|done].
  destruct (report raises_warning (p_stderr process)) as [warned [v|e]]
    eqn:Hreport; [|done].
  destruct (returncode process =? 0)%Z eqn:Hcode; simpl; [|done].
  apply Z.eqb_eq in Hcode. intros Hret.
  apply bind_ok in Hret as (out & Hnew & [= <-]). simpl.
  split_and!; try done.
  exists w1, files_left, process. split_and!; try done.
  - apply report_ok in Hreport
      as [(? & _ & ->)|(s & ? & ? & ? & _ & ->)]; [by left|].
    right. by exists s.
  - unfold Vasp2TraceOutput.new, Vasp2TraceOutput.__init__,
      Vasp2TraceOutput._parse_stdout in Hnew.
    apply bind_ok in Hnew as (lines & Hlines & _).
    simpl in Hlines. by rewrite Hlines.
Qed.

(** X9. When the program ran and exited with code 0 but the text it
    printed on its standard output cannot be opened and read as a file
    in the world it left (it names nothing, or a directory, or a file
    that may not be read), the constructor raises the exception of that
    attempt, after having changed directory and started the program. *)
Theorem stdout_not_a_file (w w1 : world) (folder_name : string)
    (files_left : gmap string node) (process : process) (stdout : string)
    (e : exn) :
  let r := __init__ float exe vasp2trace raises_warning w folder_name in
  found exe = true →
  isfile w (folder_name +:+ "/OUTCAR") = true →
  isfile w (folder_name +:+ "/WAVECAR") = true →
  chdir w folder_name = Ok w1 →
  vasp2trace w1 = inr (files_left, process) →
  returncode process = 0%Z →
  decode (p_stdout process) = Ok stdout →
  (p_stderr process = []
   ∨ ∃ s, decode (p_stderr process) = Ok s ∧ raises_warning s = false) →
  readlines {| files := files_left; descriptors := descriptors w1;
               cwd := cwd w1 |} stdout = Raise e →
  returned r = Raise e
  ∧ Popen ["vasp2trace"] ∈ log r
  ∧ cwd (final r) = resolve w folder_name.
Proof.
  intros r Hexe Houtcar Hwavecar Hchdir Hpopen Hcode Hout Herr Hopen.
  assert (cwd w1 = resolve w folder_name) as Hcwd.
  { unfold chdir in Hchdir. destruct (entered _); [done|].
    by injection Hchdir as <-. }
  subst r.
  rewrite (init_started float exe vasp2trace raises_warning w w1 folder_name
             files_left process) by done.
  cbn zeta. rewrite Hout, Hcode.
  assert (∃ warned v, report raises_warning (p_stderr process)
                      = (warned, Ok v)) as (warned & v & ->).
  { destruct Herr as [Hnone|(s & Hs & Hquiet)].
    - eexists _, _. by apply report_quiet.
    - destruct (p_stderr process) as [|c bs] eqn:Hbytes.
      + eexists _, _. by apply report_quiet.
      + eexists _, _. by apply report_warned. }
  simpl. split_and!; [|cbn [app]; rewrite !elem_of_cons; right; by left|done].
  unfold Vasp2TraceOutput.new, Vasp2TraceOutput.__init__,
    Vasp2TraceOutput._parse_stdout, Vasp2TraceOutput.open_readlines.
  by rewrite Hopen.
Qed.

(** X10. A runtime error of the constructor has one of two origins.
    Either the executable was not found: the message is the one of the
    guard and the constructor had no effect. Or the program was started
    and exited with a code other than zero: the message is the one built
    from that code, it differs from the message of the guard, and it is
    the message of no other code. *)
Theorem runtime_error_origin (w : world) (folder_name : string)
    (msg : string) :
  let r := __init__ float exe vasp2trace raises_warning w folder_name in
  returned r = Raise (RuntimeError msg) →
  (found exe = false ∧ msg = requires_message ∧ log r = [] ∧ final r = w)
  ∨ (found exe = true
     ∧ Popen ["vasp2trace"] ∈ log r
     ∧ ∃ w1 files_left process,
         chdir w folder_name = Ok w1
         ∧ vasp2trace w1 = inr (files_left, process)
         ∧ returncode process ≠ 0%Z
         ∧ msg = exit_message (returncode process)
         ∧ msg ≠ requires_message
         ∧ ∀ c, msg = exit_message c → c = returncode process).
Proof.
  unfold __init__.
  destruct (found exe); simpl; [|intros [= <-]; by left].
  destruct (negb (isfile w (folder_name +:+ "/OUTCAR"))
            || negb (isfile w (folder_name +:+ "/WAVECAR")));
    simpl; [done|].
  destruct (chdir w folder_name) as [w1|e] eqn:Hchdir.
  2:{ simpl. unfold chdir in Hchdir.
      destruct (entered _) as [e0|]; [|done]. injection Hchdir as <-.
      intros [= H]. by apply raise_io_not_runtime in H. }
  destruct (vasp2trace w1) as [e|[files_left process]] eqn:Hpopen.
  { simpl. intros [= H]. by apply raise_io_not_runtime in H. }
  destruct (decode (p_stdout process)) as [stdout|e] eqn:Hout.
  2:{ simpl. apply decode_raise in Hout as ->. done. }
  destruct (report raises_warning (p_stderr process)) as [warned [v|e]]
    eqn:Hreport.
  2:{ simpl. apply report_raise in Hreport
        as (_ & [(_ & -> & _)|(s & _ & _ & -> & _)]); done. }
  destruct (returncode process =? 0)%Z eqn:Hcode; simpl.
  - intros Hraise.
    apply bind_raise_inv in Hraise as [Hnew|(out & _ & ?)]; [|done].
    by eapply new_not_runtime_error in Hnew.
  - apply Z.eqb_neq in Hcode. intros [= <-]. right.
    split; [done|]. split.
    { rewrite !elem_of_cons. right. by left. }
    exists w1, files_left, process.
    split; [done|]. split; [done|]. split; [done|]. split; [done|]. split.
    { intros Heq. by eapply requires_not_exit_message. }
    intros c Heq. symmetry. by apply exit_message_inj.
Qed.

End caller.

(** The theorems of this part in [world_traced], where the program
    prints the name of the trace file, or the name [.] of the directory,
    and in [world_calc], where the program exits with code 2. *)
Lemma success_reads_stdout_as_path_witness :
  ∃ inst,
    let vasp2trace := program (bytes_of "trace.txt") [] 0 in
    let r := __init__ literal (Some "/usr/bin/vasp2trace") vasp2trace
               default_filters world_traced "/calc" in
    returned r = Ok inst
    ∧ found (Some "/usr/bin/vasp2trace") = true
    ∧ isfile world_traced ("/calc" +:+ "/OUTCAR") = true
    ∧ isfile world_traced ("/calc" +:+ "/WAVECAR") = true
    ∧ ∃ w1 files_left process,
        chdir world_traced "/calc" = Ok w1
        ∧ vasp2trace w1 = inr (files_left, process)
        ∧ returncode process = 0%Z
        ∧ decode (p_stdout process) = Ok (_stdout inst)
        ∧ (p_stderr process = [] ∧ _stderr inst = inl []
           ∨ ∃ s, p_stderr process ≠ [] ∧ decode (p_stderr process) = Ok s
                  ∧ default_filters s = false ∧ _stderr inst = inr s)
        ∧ cwd (final r) = resolve world_traced "/calc"
        ∧ files (final r) = files_left
        ∧ is_ok (readlines (final r) (_stdout inst)) = true
        ∧ Vasp2TraceOutput.new literal (final r) (_stdout inst)
          = Ok (output inst).
Proof.
  eexists. intros vasp2trace.
  eassert (returned (__init__ literal (Some "/usr/bin/vasp2trace")
                       vasp2trace default_filters world_traced "/calc")
           = Ok _) as Hret by (vm_compute; reflexivity).
  split; [exact Hret|].
  exact (success_reads_stdout_as_path literal (Some "/usr/bin/vasp2trace")
           vasp2trace default_filters world_traced "/calc" _ Hret).
Defined.

Lemma stdout_not_a_file_witness :
  let vasp2trace := program (bytes_of ".") [] 0 in
  let w1 := seen_from world_traced "/calc" in
  let r := __init__ literal (Some "/usr/bin/vasp2trace") vasp2trace
             default_filters world_traced "/calc" in
  found (Some "/usr/bin/vasp2trace") = true
  ∧ isfile world_traced ("/calc" +:+ "/OUTCAR") = true
  ∧ isfile world_traced ("/calc" +:+ "/WAVECAR") = true
  ∧ chdir world_traced "/calc" = Ok w1
  ∧ vasp2trace w1 = inr (files w1, Process (bytes_of ".") [] 0)
  ∧ decode (bytes_of ".") = Ok "."
  ∧ readlines {| files := files w1; descriptors := descriptors w1;
                 cwd := cwd w1 |} "." = Raise IsADirectoryError
  ∧ returned r = Raise IsADirectoryError
  ∧ Popen ["vasp2trace"] ∈ log r
  ∧ cwd (final r) = resolve world_traced "/calc".
Proof.
  intros vasp2trace w1 r.
  assert (found (Some "/usr/bin/vasp2trace") = true) as Hexe by reflexivity.
  assert (isfile world_traced ("/calc" +:+ "/OUTCAR") = true) as Houtcar
    by (vm_compute; reflexivity).
  assert (isfile world_traced ("/calc" +:+ "/WAVECAR") = true) as Hwavecar
    by (vm_compute; reflexivity).
  assert (chdir world_traced "/calc" = Ok w1) as Hchdir by reflexivity.
  assert (decode (bytes_of ".") = Ok ".") as Hout by (vm_compute; reflexivity).
  assert (readlines {| files := files w1; descriptors := descriptors w1;
                       cwd := cwd w1 |} "." = Raise IsADirectoryError)
    as Hopen by (vm_compute; reflexivity).
  split; [exact Hexe|]. split; [exact Houtcar|]. split; [exact Hwavecar|].
  split; [exact Hchdir|]. split; [reflexivity|]. split; [exact Hout|].
  split; [exact Hopen|].
  exact (stdout_not_a_file literal (Some "/usr/bin/vasp2trace") vasp2trace
           default_filters world_traced w1 "/calc" (files w1)
           (Process (bytes_of ".") [] 0) "." IsADirectoryError
           Hexe Houtcar Hwavecar Hchdir eq_refl eq_refl Hout
           (or_introl eq_refl) Hopen).
Defined.

(** The same with a text that names nothing: the file-not-found
    error. *)
Example stdout_names_nothing :
  returned (__init__ literal (Some "/usr/bin/vasp2trace")
              (program (bytes_of "68 bands") [] 0) default_filters
              world_traced "/calc")
  = Raise FileNotFoundError.
Proof. by vm_compute. Qed.

Lemma runtime_error_origin_witness :
  let vasp2trace := program [] (bytes_of "bad WAVECAR") 2 in
  let r := __init__ literal (Some "/usr/bin/vasp2trace") vasp2trace
             default_filters world_calc "/calc" in
  let msg := exit_message 2 in
  returned r = Raise (RuntimeError msg)
  ∧ ((found (Some "/usr/bin/vasp2trace") = false ∧ msg = requires_message
      ∧ log r = [] ∧ final r = world_calc)
     ∨ (found (Some "/usr/bin/vasp2trace") = true
        ∧ Popen ["vasp2trace"] ∈ log r
        ∧ ∃ w1 files_left process,
            chdir world_calc "/calc" = Ok w1
            ∧ vasp2trace w1 = inr (files_left, process)
            ∧ returncode process ≠ 0%Z
            ∧ msg = exit_message (returncode process)
            ∧ msg ≠ requires_message
            ∧ ∀ c, msg = exit_message c → c = returncode process)).
Proof.
  intros vasp2trace r msg.
  assert (returned r = Raise (RuntimeError msg)) as Hret
    by (vm_compute; reflexivity).
  split; [exact Hret|].
  exact (runtime_error_origin literal (Some "/usr/bin/vasp2trace")
           vasp2trace default_filters world_calc "/calc" _ Hret).
Defined.

End CallerEffects.

(** ** [BandTopologyAnalyzer.run]: settings, outcome and exceptions *)

Module RunFacts.
Import PyFacts CallerFacts AnalyzerFacts Topology Fixtures Coverage.
Import BandTopologyAnalyzer.

(** Whatever the settings, the keyword arguments of the call can be
    built: every name the call reads has a default. *)
Lemma surface_run_kwargs_ok (self : instance)
    (z2_settings : option (gmap string value)) :
  ∃ kwargs, surface_run_kwargs self z2_settings = Ok kwargs.
Proof.
  unfold surface_run_kwargs, getitem.
  set (z2d := update_defaults z2_defaults z2_settings).
  assert (∀ k, is_Some (z2_defaults !! k) → is_Some (z2d !! k)) as Hset.
  { intros k Hk. subst z2d. rewrite update_defaults_lookup.
    by destruct (setting z2_settings k). }
  pose proof forwarded_defaults as Hkeys. unfold forwarded_keys in Hkeys.
  repeat (apply Forall_cons in Hkeys as [?%Hset Hkeys]).
  repeat match goal with
         | H : is_Some (z2d !! _) |- _ =>
             let Hv := fresh "Hv" in destruct H as [? Hv]; rewrite Hv
         end.
  simpl. by eexists.
Qed.

(** X11. The loop that updates the defaults computes a dictionary union
    in which the settings win: the result does not depend on the order in
    which the settings are visited, and settings that are absent or empty
    leave the defaults as they are. Updating twice is updating once with
    the later settings laid over the earlier ones. *)
Theorem update_defaults_union (z2d : gmap string value)
    (z2_settings later : option (gmap string value)) :
  update_defaults z2d z2_settings = default ∅ z2_settings ∪ z2d
  ∧ update_defaults (update_defaults z2d z2_settings) later
    = update_defaults z2d (Some (default ∅ later ∪ default ∅ z2_settings)).
Proof.
  assert (∀ d o, update_defaults d o = default ∅ o ∪ d) as Hunion.
  { intros d o. apply map_eq. intros k.
    rewrite update_defaults_lookup, lookup_union.
    destruct o as [settings|]; simpl.
    - by destruct (settings !! k), (d !! k).
    - rewrite lookup_empty. by destruct (d !! k). }
  split; [apply Hunion|].
  rewrite !Hunion. simpl. by rewrite (assoc_L (∪)).
Qed.

(** X12. The call depends on the settings only through the seven names
    it hands over: two settings that agree on these names give the same
    keyword arguments, whatever else they hold, the setting [load]
    included. *)
Theorem settings_outside_call_ignored (self : instance)
    (settings1 settings2 : option (gmap string value)) :
  (∀ k, k ∈ forwarded_keys → setting settings1 k = setting settings2 k) →
  surface_run_kwargs self settings1 = surface_run_kwargs self settings2.
Proof.
  intros Hagree. unfold surface_run_kwargs, getitem.
  assert (∀ k, k ∈ forwarded_keys →
            update_defaults z2_defaults settings1 !! k
            = update_defaults z2_defaults settings2 !! k) as Hsame.
  { intros k Hk. by rewrite !update_defaults_lookup, Hagree. }
  rewrite (Hsame "pos_tol"), (Hsame "gap_tol"), (Hsame "move_tol"),
    (Hsame "num_lines"), (Hsame "min_neighbour_dist"), (Hsame "iterator"),
    (Hsame "save_file");
    [done | unfold forwarded_keys; rewrite !elem_of_cons; tauto ..].
Qed.

(** X13. With a library whose extraction of the Chern number refuses
    an instance of the output class, as that of z2pack does, [run] never
    returns: it raises the exception of the library routine or, when that
    routine returned a convergence result, the exception of the
    extraction, which was handed the output under construction. *)
Theorem run_never_returns (lib : z2pack) (self : instance)
    (z2_settings : option (gmap string value)) :
  (∀ result surface chern_number z2_invariant,
     is_ok (invariant_chern lib
              (VOutput result surface chern_number z2_invariant)) = false) →
  ∃ e kwargs,
    run lib self z2_settings = Raise e
    ∧ surface_run_kwargs self z2_settings = Ok kwargs
    ∧ (surface_run lib kwargs = Raise e
       ∨ ∃ result,
           surface_run lib kwargs = Ok result
           ∧ invariant_chern lib (VOutput result (surface self) VNone VNone)
             = Raise e).
Proof.
  intros Hrefuses.
  destruct (surface_run_kwargs_ok self z2_settings) as [kwargs Hkwargs].
  unfold run. rewrite Hkwargs. step.
  destruct (surface_run lib kwargs) as [result|e] eqn:Hresult.
  2:{ exists e, kwargs. split_and!; [done | done | by left]. }
  step.
  unfold BandTopologyAnalyzerOutput.new, BandTopologyAnalyzerOutput.__init__,
    BandTopologyAnalyzerOutput._parse_result,
    BandTopologyAnalyzerOutput.as_value.
  cbn [BandTopologyAnalyzerOutput._result BandTopologyAnalyzerOutput.surface
       BandTopologyAnalyzerOutput.chern_number
       BandTopologyAnalyzerOutput.z2_invariant].
  specialize (Hrefuses result (surface self) VNone VNone).
  destruct (invariant_chern lib (VOutput result (surface self) VNone VNone))
    as [c|e] eqn:Hchern; [done|].
  exists e, kwargs. split_and!; [done | done |].
  right. by exists result.
Qed.

(** X14. Reading the settings never fails. When [run] raises, the
    exception is the one raised by the routine of the library, called
    with the keyword arguments built from the settings, or, when that
    routine returned, the one raised by the construction of the output
    record. *)
Theorem run_exceptions (lib : z2pack) (self : instance)
    (z2_settings : option (gmap string value)) (e : exn) :
  run lib self z2_settings = Raise e →
  ∃ kwargs,
    surface_run_kwargs self z2_settings = Ok kwargs
    ∧ (surface_run lib kwargs = Raise e
       ∨ ∃ result,
           surface_run lib kwargs = Ok result
           ∧ BandTopologyAnalyzerOutput.new lib result (surface self)
             = Raise e).
Proof.
  destruct (surface_run_kwargs_ok self z2_settings) as [kwargs Hkwargs].
  unfold run. rewrite Hkwargs. simpl. intros Hrun.
  exists kwargs. split; [done|].
  destruct (surface_run lib kwargs) as [result|e'] eqn:Hresult; simpl in Hrun.
  - right. exists result. split; [done|].
    destruct (BandTopologyAnalyzerOutput.new lib result (surface self));
      simpl in Hrun; [done | by injection Hrun as ->].
  - left. by injection Hrun as ->.
Qed.

(** The theorems of this part at settings that hold [load] and an
    unknown name, and in [sample_lib], whose extractions refuse an
    instance of the output class. *)
Lemma settings_outside_call_ignored_witness :
  (∀ k, k ∈ forwarded_keys →
     setting None k
     = setting (Some {[ "load" := VBool false; "verbose" := VBool true ]}) k)
  ∧ surface_run_kwargs sample_analyzer None
    = surface_run_kwargs sample_analyzer
        (Some {[ "load" := VBool false; "verbose" := VBool true ]}).
Proof.
  assert (∀ k, k ∈ forwarded_keys →
            setting None k
            = setting (Some {[ "load" := VBool false;
                               "verbose" := VBool true ]}) k) as Hagree.
  { intros k Hk. unfold forwarded_keys in Hk.
    repeat (apply elem_of_cons in Hk as [->|Hk]; [vm_compute; reflexivity|]).
    by apply elem_of_nil in Hk. }
  split; [exact Hagree|].
  exact (settings_outside_call_ignored sample_analyzer None
           (Some {[ "load" := VBool false; "verbose" := VBool true ]}) Hagree).
Defined.

Lemma run_never_returns_witness :
  (∀ result surface chern_number z2_invariant,
     is_ok (invariant_chern sample_lib
              (VOutput result surface chern_number z2_invariant)) = false)
  ∧ ∃ e kwargs,
      run sample_lib sample_analyzer None = Raise e
      ∧ surface_run_kwargs sample_analyzer None = Ok kwargs
      ∧ (surface_run sample_lib kwargs = Raise e
         ∨ ∃ result,
             surface_run sample_lib kwargs = Ok result
             ∧ invariant_chern sample_lib
                 (VOutput result (surface sample_analyzer) VNone VNone)
               = Raise e).
Proof.
  assert (∀ result surface chern_number z2_invariant,
            is_ok (invariant_chern sample_lib
                     (VOutput result surface chern_number z2_invariant))
            = false) as Hrefuses by reflexivity.
  split; [exact Hrefuses|].
  exact (run_never_returns sample_lib sample_analyzer None Hrefuses).
Defined.

Lemma run_exceptions_witness :
  run sample_lib sample_analyzer None = Raise AttributeError
  ∧ ∃ kwargs,
      surface_run_kwargs sample_analyzer None = Ok kwargs
      ∧ (surface_run sample_lib kwargs = Raise AttributeError
         ∨ ∃ result,
             surface_run sample_lib kwargs = Ok result
             ∧ BandTopologyAnalyzerOutput.new sample_lib result
                 (surface sample_analyzer)
               = Raise AttributeError).
Proof.
  assert (run sample_lib sample_analyzer None = Raise AttributeError) as Hrun
    by (vm_compute; reflexivity).
  split; [exact Hrun|].
  exact (run_exceptions sample_lib sample_analyzer None AttributeError Hrun).
Defined.

End RunFacts.

(** ** The test of a block start, and lines after the last block *)

Module BlockStartTest.
Import PyFacts TraceFormat Vasp2TraceOutput Fixtures Coverage.

Lemma split_at_nonnil (p : ascii → bool) (s : string) : split_at p s ≠ [].
Proof.
  destruct s as [|c s]; simpl; [done|].
  destruct (p c); [done|]. by destruct (split_at p s).
Qed.

Lemma single_entry_space (s : string) :
  single_entry (String " " s) = single_entry s.
Proof. done. Qed.

Lemma split_space_spaces (n : nat) :
  split_space (spaces n) = replicate (S n) EmptyString.
Proof.
  induction n as [|n IH]; [done|].
  change (split_space (spaces (S n))) with (EmptyString :: split_space (spaces n)).
  by rewrite IH.
Qed.

Lemma split_space_word (t : string) (n : nat) :
  no_space t = true →
  split_space (t +:+ spaces n) = t :: replicate n EmptyString.
Proof.
  induction t as [|c t IH]; intros Ht.
  - apply split_space_spaces.
  - cbn [no_space] in Ht. apply andb_prop in Ht as [Hc%negb_true_iff Ht].
    unfold split_space in *.
    change (String c t +:+ spaces n) with (String c (t +:+ spaces n)).
    cbn [split_at]. rewrite Hc, (IH Ht). done.
Qed.

Lemma filter_nonempty_replicate (n : nat) :
  List.filter nonempty (replicate n EmptyString) = [].
Proof. induction n; [done | by simpl]. Qed.

(** The fragments of a split hold no space, and a string is its first
    fragment followed by one space per further fragment when those are
    empty. *)
Lemma split_space_join (s w : string) (ws : list string) :
  split_space s = w :: ws →
  no_space w = true
  ∧ (List.filter nonempty ws = [] → s = w +:+ spaces (length ws)).
Proof.
  unfold split_space. revert w ws.
  induction s as [|c s IH]; intros w ws; cbn [split_at].
  - by intros [= <- <-].
  - destruct (Ascii.eqb " " c) eqn:Hc.
    + apply Ascii.eqb_eq in Hc as <-. intros [= <- <-].
      split; [done|].
      destruct (split_at (Ascii.eqb " ") s) as [|w' ws'] eqn:Hs;
        [by apply split_at_nonnil in Hs|].
      destruct (IH w' ws' eq_refl) as [_ Hjoin].
      simpl. destruct w' as [|c' w']; [|done].
      intros Hws. by rewrite (Hjoin Hws).
    + destruct (split_at (Ascii.eqb " ") s) as [|w' ws'] eqn:Hs;
        [by apply split_at_nonnil in Hs|].
      destruct (IH w' ws' eq_refl) as [Hw' Hjoin].
      intros [= <- <-]. split; [cbn [no_space]; by rewrite Hc|].
      intros Hws.
      change (String c w' +:+ spaces (length ws'))
        with (String c (w' +:+ spaces (length ws'))).
      by rewrite <- (Hjoin Hws).
Qed.

(** X15. The test that makes a line a block start, as the loop over the
    lines applies it: the line holds exactly one run of characters other
    than the space, with any number of spaces before and after it. A
    line terminator, a tab or any other character counts as part of the
    run. *)
Theorem single_entry_shape (line : string) :
  single_entry line = true
  ↔ ∃ before after token,
      line = spaces before +:+ token +:+ spaces after
      ∧ nonempty token = true ∧ no_space token = true.
Proof.
  split.
  - induction line as [|c s IH]; [done|].
    destruct (Ascii.eqb " " c) eqn:Hc.
    + apply Ascii.eqb_eq in Hc as <-. rewrite single_entry_space.
      intros (a & b & t & -> & Ht)%IH. by exists (S a), b, t.
    + unfold single_entry, split_space. cbn [split_at]. rewrite Hc.
      destruct (split_at (Ascii.eqb " ") s) as [|w ws] eqn:Hs;
        [by apply split_at_nonnil in Hs|].
      destruct (split_space_join s w ws Hs) as [Hw Hjoin].
      simpl. intros Hlen%Nat.eqb_eq.
      assert (List.filter nonempty ws = []) as Hws.
      { destruct (List.filter nonempty ws); [done | simpl in Hlen; lia]. }
      exists 0%nat, (length ws), (String c w).
      split.
      { change (spaces 0 +:+ String c w +:+ spaces (length ws))
          with (String c (w +:+ spaces (length ws))).
        by rewrite <- (Hjoin Hws). }
      split; [done|]. cbn [no_space]. by rewrite Hc.
  - intros (a & b & t & -> & Hne & Ht).
    induction a as [|a IH].
    + change (spaces 0 +:+ t +:+ spaces b) with (t +:+ spaces b).
      unfold single_entry. rewrite (split_space_word t b Ht).
      destruct t as [|c t]; [done|]. cbn [List.filter nonempty].
      by rewrite filter_nonempty_replicate.
    + change (spaces (S a) +:+ t +:+ spaces b)
        with (String " " (spaces a +:+ t +:+ spaces b)).
      by rewrite single_entry_space.
Qed.

Lemma split_at_space_separated (s : string) :
  space_separated s = true →
  split_at is_space s = split_at (Ascii.eqb " ") s.
Proof.
  induction s as [|c s IH]; [done|].
  cbn [space_separated split_at].
  intros [Hc%Bool.eqb_prop Hs]%andb_prop. by rewrite Hc, (IH Hs).
Qed.

(** X16. On a line whose only whitespace characters are spaces, the
    test of a block start is the test for exactly one token between
    whitespace; the two tests differ only on lines that hold a tab, a
    line terminator or another whitespace character. *)
Theorem single_entry_one_token (line : string) :
  space_separated line = true → single_entry line = one_token line.
Proof.
  intros Hline. unfold single_entry, one_token, split_ws, split_space.
  by rewrite (split_at_space_separated line Hline).
Qed.

(** The theorem at a line without terminator. *)
Lemma single_entry_one_token_witness :
  space_separated "  12 " = true
  ∧ single_entry "  12 " = one_token "  12 ".
Proof.
  assert (space_separated "  12 " = true) as Hline
    by (vm_compute; reflexivity).
  split; [exact Hline|].
  exact (single_entry_one_token "  12 " Hline).
Defined.

End BlockStartTest.

(** ** Blank lines after the last block *)

Module TrailingLines.
Import PyFacts NumpyFacts ParseFacts WellFormed.
Import TraceFormat Vasp2TraceOutput Fixtures Coverage.

Section trailer.
Context {F : Type} (float : string → option F).

(** The header is read from the lines before the blocks. *)
Lemma get_header_info_trailer (f : trace_file) (B soc S K : Z)
    (trailer : list string) :
  well_formed float f B soc S K = true →
  get_header_info float (file_lines f ++ trailer)
  = get_header_info float (file_lines f).
Proof.
  intros Hwf.
  destruct (get_header_info_well_formed float f B soc S K Hwf)
    as (a_s & a_k & -> & Ha_s & Ha_k & _).
  apply well_formed_inv in Hwf
    as (HB & Hsoc & HS & HlenS & _ & HK & HlenK & _).
  assert (file_lines f ++ trailer
          = [bands_line f; soc_line f; symm_count_line f] ++ symm_rows f ++
            kvec_count_line f :: kvec_rows f ++
            (blocks_lines (blocks f) ++ trailer)) as ->.
  { rewrite file_lines_eq. simpl. rewrite <- !app_assoc. simpl.
    by rewrite <- !app_assoc. }
  unfold get_header_info.
  change (index (?l ++ _) 0) with (Ok (A := string) (bands_line f)).
  step. rewrite HB. step.
  change (index (?l ++ _) 1) with (Ok (A := string) (soc_line f)).
  step. rewrite Hsoc. step.
  change (index (?l ++ _) 2) with (Ok (A := string) (symm_count_line f)).
  step. rewrite HS. step.
  rewrite (slice_middle _ (symm_rows f)) by (unfold len in *; simpl; lia).
  rewrite Ha_s. step.
  rewrite (app_assoc _ (symm_rows f)).
  rewrite (index_middle _ _ (kvec_count_line f))
    by (rewrite len_app; unfold len in *; simpl; lia).
  step. rewrite HK. step.
  rewrite cons_middle, (app_assoc _ [kvec_count_line f]).
  rewrite (slice_middle _ (kvec_rows f))
    by (rewrite !len_app; unfold len in *; simpl; lia).
  by rewrite Ha_k.
Qed.

(** The block starts found are those of the blocks, followed by the
    numbers of the lines after the last block that pass the test. *)
Lemma find_block_starts_trailer (f : trace_file) (B soc S K : Z)
    (trailer : list string) :
  well_formed float f B soc S K = true →
  one_start_per_block f = true →
  ∃ extra,
    find_block_starts (file_lines f ++ trailer) (5 + K + S)
    = block_offsets (len (header_lines f)) (blocks f) ++ extra.
Proof.
  intros Hwf Hone.
  pose proof Hwf as (_ & _ & _ & HlenS & _ & _ & HlenK & _ & _ & Hblocks)%well_formed_inv.
  unfold find_block_starts.
  assert (5 + K + S - 1 = len (header_lines f))%Z as ->
    by (rewrite len_header_lines; lia).
  unfold file_lines. rewrite <- app_assoc, slice_from_end by done.
  rewrite enumerate_app, fold_left_app, collect_blocks.
  - apply collect_extends.
  - apply Forall_forall. intros b Hb%list_elem_of_In.
    rewrite forallb_forall in Hblocks. unfold one_start_per_block in Hone.
    rewrite forallb_forall in Hone.
    split; [|by apply Hone].
    by apply Hblocks, well_formed_block_inv in Hb as [? _].
Qed.

(** X17. Blank lines after the last block do not change what is read: a
    file laid out as the format says, with one block start per block and
    a number of k-vectors other than one, gives the same outcome with
    and without such lines. *)
Theorem trailing_blank_lines (w w' : world) (path : string) (f : trace_file)
    (B soc S K : Z) (trailer : list string) :
  readlines w path = Ok (file_lines f) →
  readlines w' path = Ok (file_lines f ++ trailer) →
  well_formed float f B soc S K = true →
  one_start_per_block f = true →
  K ≠ 1%Z →
  Forall (λ line, blank line = true) trailer →
  new float w' path = new float w path.
Proof.
  intros Hread Hread' Hwf Hone HK1 Hblank.
  unfold new, __init__, _parse_stdout, open_readlines.
  rewrite Hread, Hread'. step. unfold parse_lines.
  rewrite (get_header_info_trailer f B soc S K trailer Hwf).
  destruct (get_header_info_well_formed float f B soc S K Hwf)
    as (a_s & a_k & -> & _ & _ & _ & Hlen_k).
  specialize (Hlen_k HK1). step.
  cbn [h_kvecs h_num_symm_ops h_num_max_kvec h_num_occ_bands h_soc h_symm_ops].
  rewrite Hlen_k. step.
  rewrite (find_block_starts_well_formed float f B soc S K) by done.
  destruct (find_block_starts_trailer f B soc S K trailer Hwf Hone)
    as [extra ->].
  pose proof Hwf as (_ & _ & _ & _ & _ & _ & _ & _ & HlenK & Hblocks)%well_formed_inv.
  rewrite (for_each_ext
             (block_body float (file_lines f ++ trailer) K
                (block_offsets (len (header_lines f)) (blocks f) ++ extra))
             (block_body float (file_lines f) K
                (block_offsets (len (header_lines f)) (blocks f)))); [done|].
  intros acc i Hi%elem_of_seq.
  destruct (lookup_lt_is_Some_2 (blocks f) i) as [b Hb];
    [unfold len in HlenK; lia|].
  assert (well_formed_block float b = true) as Hwb.
  { rewrite forallb_forall in Hblocks.
    by eapply Hblocks, list_elem_of_In, list_elem_of_lookup_2. }
  apply well_formed_block_inv in Hwb
    as (_ & n & ops & Hn & Hops & Hlen & Htable).
  apply loadtxt_numeric_table in Htable as (t & Ht & _).
  apply list_elem_of_split_length in Hb as (bs1 & bs2 & Hsplit & ->).
  rewrite <- HlenK. unfold file_lines. rewrite Hsplit.
  rewrite (block_body_at float _ _ _ _ _ n ops t Hn Hops Ht).
  by apply block_body_trailer.
Qed.

End trailer.

(** The theorem at [file_two] followed by an empty line and a line of
    spaces. *)
Lemma trailing_blank_lines_witness :
  let w' := {| files := {[ trace_path :=
                             text_file (file_lines file_two
                                        ++ [ln ""; ln "  "]) ]};
               descriptors := ∅;
               cwd := "/run" |} in
  readlines (world_with file_two) trace_path = Ok (file_lines file_two)
  ∧ readlines w' trace_path = Ok (file_lines file_two ++ [ln ""; ln "  "])
  ∧ well_formed literal file_two 68 0 2 2 = true
  ∧ one_start_per_block file_two = true
  ∧ 2%Z ≠ 1%Z
  ∧ Forall (λ line, blank line = true) [ln ""; ln "  "]
  ∧ new literal w' trace_path = new literal (world_with file_two) trace_path.
Proof.
  intros w'.
  assert (readlines (world_with file_two) trace_path
          = Ok (file_lines file_two)) as Hread by (vm_compute; reflexivity).
  assert (readlines w' trace_path
          = Ok (file_lines file_two ++ [ln ""; ln "  "])) as Hread'
    by (vm_compute; reflexivity).
  assert (well_formed literal file_two 68 0 2 2 = true) as Hwf
    by (vm_compute; reflexivity).
  assert (one_start_per_block file_two = true) as Hone
    by (vm_compute; reflexivity).
  assert (2%Z ≠ 1%Z) as Hne by lia.
  assert (Forall (λ line, blank line = true) [ln ""; ln "  "]) as Hblank
    by (repeat constructor).
  split_and!; try assumption.
  exact (trailing_blank_lines literal (world_with file_two) w' trace_path
           file_two 68 0 2 2 [ln ""; ln "  "]
           Hread Hread' Hwf Hone Hne Hblank).
Defined.

End TrailingLines.

(** ** Where the header attributes come from, and what is not checked *)

Module HeaderFacts.
Import PyFacts ParseFacts CallerFacts TrailingLines.
Import TraceFormat Vasp2TraceOutput Fixtures Coverage.

Lemma index_tail2 {A} (x y x' y' : A) (rest : list A) (i : Z) :
  (2 ≤ i)%Z → index (x :: y :: rest) i = index (x' :: y' :: rest) i.
Proof.
  intros Hi. rewrite !index_nonneg by lia.
  replace (Z.to_nat i) with (S (S (Z.to_nat (i - 2)))) by lia. done.
Qed.

Lemma drop_tail2 {A} (x y x' y' : A) (rest : list A) (n : nat) :
  (2 ≤ n)%nat → drop n (x :: y :: rest) = drop n (x' :: y' :: rest).
Proof. intros Hn. destruct n as [|[|n]]; [lia | lia | done]. Qed.

Lemma slice_bound_tail2 (n a : Z) :
  (2 ≤ a)%Z → (2 ≤ n)%Z → (2 ≤ slice_bound n a)%nat.
Proof.
  intros Ha Hn. unfold slice_bound.
  destruct (Z.ltb_spec a 0); lia.
Qed.

Lemma slice_tail2 {A} (x y x' y' : A) (rest : list A) (a b : Z) :
  (2 ≤ a)%Z →
  slice (x :: y :: rest) a b = slice (x' :: y' :: rest) a b.
Proof.
  intros Ha. unfold slice.
  change (len (x' :: y' :: rest)) with (len (x :: y :: rest)).
  f_equal. apply drop_tail2, slice_bound_tail2; [done|].
  rewrite !len_cons. pose proof (len_nonneg rest). lia.
Qed.

Lemma slice_from_tail2 {A} (x y x' y' : A) (rest : list A) (a : Z) :
  (2 ≤ a)%Z →
  slice_from (x :: y :: rest) a = slice_from (x' :: y' :: rest) a.
Proof.
  intros Ha. unfold slice_from.
  change (len (x' :: y' :: rest)) with (len (x :: y :: rest)).
  apply drop_tail2, slice_bound_tail2; [done|].
  rewrite !len_cons. pose proof (len_nonneg rest). lia.
Qed.

Lemma index_elem {A} (l : list A) (i : nat) (x : A) :
  index l (Z.of_nat i) = Ok x → x ∈ l.
Proof.
  rewrite index_nonneg by lia. rewrite Nat2Z.id.
  destruct (l !! i) eqn:Hl; [|done].
  intros [= <-]. by eapply list_elem_of_lookup_2.
Qed.

Section header.
Context {F : Type} (float : string → option F).

(** X18. In every record that is returned, each header attribute was
    read at a fixed place of the file: the number of occupied bands, the
    spin-orbit flag and the number S of symmetry operations are the
    integers on lines 0, 1 and 2; the symmetry operations are the table
    on the lines 3 to 3 + S; the number K of k-vectors is the integer on
    line 3 + S; the k-vectors are the table on the K lines after it; the
    path is kept as given. *)
Theorem record_header (w : world) (path : string) (lines : list string)
    (self : instance F) :
  readlines w path = Ok lines →
  new float w path = Ok self →
  ∃ l0 l1 l2 lk B soc S K a_s a_k,
    index lines 0 = Ok l0 ∧ int l0 = Ok B
    ∧ index lines 1 = Ok l1 ∧ int l1 = Ok soc
    ∧ index lines 2 = Ok l2 ∧ int l2 = Ok S
    ∧ loadtxt float (slice lines 3 (3 + S)) = Ok a_s
    ∧ index lines (3 + S) = Ok lk ∧ int lk = Ok K
    ∧ loadtxt float (slice lines (4 + S) (4 + S + K)) = Ok a_k
    ∧ _vasp2trace_stdout self = VStr path
    ∧ num_occ_bands self = VInt B
    ∧ Vasp2TraceOutput.soc self = VInt soc
    ∧ num_symm_ops self = VInt S
    ∧ symm_ops self = VArray a_s
    ∧ num_max_kvec self = VInt K
    ∧ kvecs self = VArray a_k.
Proof.
  intros Hread Hnew.
  rewrite (ParsedRecord.new_lines float w path lines Hread) in Hnew.
  unfold parse_lines in Hnew.
  apply bind_ok in Hnew as (h & Hheader & Hnew).
  apply bind_ok in Hnew as (turns & _ & Hnew).
  apply bind_ok in Hnew as (d & _ & Hnew).
  injection Hnew as <-.
  unfold get_header_info in Hheader.
  apply bind_ok in Hheader as (l0 & Hl0 & Hheader).
  apply bind_ok in Hheader as (B & HB & Hheader).
  apply bind_ok in Hheader as (l1 & Hl1 & Hheader).
  apply bind_ok in Hheader as (soc & Hsoc & Hheader).
  apply bind_ok in Hheader as (l2 & Hl2 & Hheader).
  apply bind_ok in Hheader as (S & HS & Hheader).
  apply bind_ok in Hheader as (a_s & Ha_s & Hheader).
  apply bind_ok in Hheader as (lk & Hlk & Hheader).
  apply bind_ok in Hheader as (K & HK & Hheader).
  apply bind_ok in Hheader as (a_k & Ha_k & Hheader).
  injection Hheader as <-.
  exists l0, l1, l2, lk, B, soc, S, K, a_s, a_k. by split_and!.
Qed.

(** One turn of the loop reads nothing of the first two lines when
    every block start lies after them. *)
Lemma block_body_tail2 (l0 l1 l0' l1' : string) (rest : list string) (K : Z)
    (block_starts : list Z) (acc : dicts F) (idx : nat) :
  Forall (λ j, (2 ≤ j)%Z) block_starts →
  block_body float (l0' :: l1' :: rest) K block_starts acc idx
  = block_body float (l0 :: l1 :: rest) K block_starts acc idx.
Proof.
  intros Hstarts. unfold block_body.
  destruct (index block_starts (Z.of_nat idx)) as [start|e] eqn:Hstart;
    [|done].
  step.
  assert (2 ≤ start)%Z as Hle.
  { apply index_elem in Hstart. rewrite Forall_forall in Hstarts.
    by apply Hstarts. }
  assert (trace_rows (l0' :: l1' :: rest) K block_starts idx start
          = trace_rows (l0 :: l1 :: rest) K block_starts idx start) as ->.
  { unfold trace_rows. destruct (_ <? _)%Z.
    - destruct (index block_starts (Z.of_nat idx + 1)); [|done]. step.
      f_equal. apply slice_tail2. lia.
    - f_equal. apply slice_from_tail2. lia. }
  rewrite (index_tail2 l0' l1' l0 l1 rest start) by lia.
  by rewrite (index_tail2 l0' l1' l0 l1 rest (start + 1)) by lia.
Qed.

(** X19. The first two lines of the file are read as integers and
    nothing else is done with them: the number of occupied bands is not
    compared with the tables, and the spin-orbit flag may be any integer.
    When a file is parsed into a record with counts S and K that are not
    negative, the same file with any two other integers on its first two
    lines is parsed into the same record but for these two attributes. *)
Theorem bands_and_soc_not_checked (w w' : world) (path : string)
    (l0 l1 l0' l1' : string) (rest : list string) (B' soc' S K : Z)
    (self : instance F) :
  readlines w path = Ok (l0 :: l1 :: rest) →
  readlines w' path = Ok (l0' :: l1' :: rest) →
  int l0' = Ok B' →
  int l1' = Ok soc' →
  new float w path = Ok self →
  num_symm_ops self = VInt S →
  num_max_kvec self = VInt K →
  (0 ≤ S)%Z →
  (0 ≤ K)%Z →
  new float w' path
  = Ok {| _vasp2trace_stdout := _vasp2trace_stdout self;
          num_occ_bands := VInt B';
          soc := VInt soc';
          num_symm_ops := num_symm_ops self;
          symm_ops := symm_ops self;
          num_max_kvec := num_max_kvec self;
          kvecs := kvecs self;
          num_kvec_symm_ops := num_kvec_symm_ops self;
          symm_ops_in_little_cogroup := symm_ops_in_little_cogroup self;
          traces := traces self |}.
Proof.
  intros Hread Hread' HB' Hsoc' Hnew HS HK H0S H0K.
  rewrite (ParsedRecord.new_lines float w path _ Hread) in Hnew.
  rewrite (ParsedRecord.new_lines float w' path _ Hread').
  unfold parse_lines in *.
  apply bind_ok in Hnew as (h & Hheader & Hnew).
  apply bind_ok in Hnew as (turns & Hturns & Hnew).
  apply bind_ok in Hnew as (d & Hd & Hnew).
  injection Hnew as <-. cbn in HS, HK.
  injection HS as HS. injection HK as HK.
  assert (get_header_info float (l0' :: l1' :: rest)
          = Ok (Header B' soc' (h_num_symm_ops h) (h_symm_ops h)
                  (h_num_max_kvec h) (h_kvecs h))) as ->.
  { unfold get_header_info in *.
    apply bind_ok in Hheader as (? & _ & Hheader).
    apply bind_ok in Hheader as (B & _ & Hheader).
    apply bind_ok in Hheader as (? & _ & Hheader).
    apply bind_ok in Hheader as (soc & _ & Hheader).
    apply bind_ok in Hheader as (l2 & Hl2 & Hheader).
    apply bind_ok in Hheader as (S0 & HS0 & Hheader).
    apply bind_ok in Hheader as (a_s & Ha_s & Hheader).
    apply bind_ok in Hheader as (lk & Hlk & Hheader).
    apply bind_ok in Hheader as (K0 & HK0 & Hheader).
    apply bind_ok in Hheader as (a_k & Ha_k & Hheader).
    injection Hheader as <-. cbn in HS, HK. subst S0 K0.
    change (index (l0' :: l1' :: rest) 0) with (Ok (A := string) l0').
    step. rewrite HB'. step.
    change (index (l0' :: l1' :: rest) 1) with (Ok (A := string) l1').
    step. rewrite Hsoc'. step.
    rewrite (index_tail2 l0' l1' l0 l1 rest 2), Hl2 by lia. step.
    rewrite HS0. step.
    rewrite (slice_tail2 l0' l1' l0 l1 rest 3), Ha_s by lia. step.
    rewrite (index_tail2 l0' l1' l0 l1 rest (3 + S)), Hlk by lia. step.
    rewrite HK0. step.
    rewrite (slice_tail2 l0' l1' l0 l1 rest (4 + S)), Ha_k by lia.
    done. }
  step. cbn [h_kvecs h_num_symm_ops h_num_max_kvec h_num_occ_bands h_soc
             h_symm_ops].
  rewrite Hturns. step.
  assert (find_block_starts (l0' :: l1' :: rest)
            (5 + h_num_max_kvec h + h_num_symm_ops h)
          = find_block_starts (l0 :: l1 :: rest)
              (5 + h_num_max_kvec h + h_num_symm_ops h)) as ->.
  { unfold find_block_starts.
    by rewrite (slice_from_tail2 l0' l1' l0 l1 rest) by lia. }
  rewrite (for_each_ext
             (block_body float (l0' :: l1' :: rest) (h_num_max_kvec h)
                (find_block_starts (l0 :: l1 :: rest)
                   (5 + h_num_max_kvec h + h_num_symm_ops h)))
             (block_body float (l0 :: l1 :: rest) (h_num_max_kvec h)
                (find_block_starts (l0 :: l1 :: rest)
                   (5 + h_num_max_kvec h + h_num_symm_ops h)))).
  - by rewrite Hd.
  - intros acc i _. apply block_body_tail2.
    apply Forall_forall. intros j Hj.
    apply BlockStarts.block_starts_line_numbers in Hj as [Hj _]; lia.
Qed.

(** X20. Deserialising the serialised form of a parsed record gives the
    record back in every world in which the recorded path still reads
    the same lines, whatever else has changed. *)
Theorem round_trip_same_lines (w w' : world) (path : string)
    (self : instance F) :
  readlines w' path = readlines w path →
  new float w path = Ok self →
  from_dict float w' (as_dict self) = Ok self.
Proof.
  intros Hsame Hnew.
  rewrite RoundTrip.from_dict_as_dict, RoundTrip.init_ignores_kwargs.
  assert (_vasp2trace_stdout self = VStr path) as ->.
  { unfold new, __init__, _parse_stdout in Hnew.
    apply bind_ok in Hnew as (lines & _ & Hparse). unfold parse_lines in Hparse.
    apply bind_ok in Hparse as (h & _ & Hparse).
    apply bind_ok in Hparse as (turns & _ & Hparse).
    apply bind_ok in Hparse as (d & _ & Hparse).
    by injection Hparse as <-. }
  rewrite <- Hnew. unfold new, __init__, _parse_stdout, open_readlines.
  by rewrite Hsame.
Qed.

End header.

(** The theorems of this part at [file_two]: as it is, with 7 and 5 on
    its first two lines, and in a world that holds other files and has
    another working directory. *)
Lemma record_header_witness :
  ∃ self,
    readlines (world_with file_two) trace_path = Ok (file_lines file_two)
    ∧ new literal (world_with file_two) trace_path = Ok self
    ∧ ∃ l0 l1 l2 lk B soc S K a_s a_k,
        index (file_lines file_two) 0 = Ok l0 ∧ int l0 = Ok B
        ∧ index (file_lines file_two) 1 = Ok l1 ∧ int l1 = Ok soc
        ∧ index (file_lines file_two) 2 = Ok l2 ∧ int l2 = Ok S
        ∧ loadtxt literal (slice (file_lines file_two) 3 (3 + S)) = Ok a_s
        ∧ index (file_lines file_two) (3 + S) = Ok lk ∧ int lk = Ok K
        ∧ loadtxt literal (slice (file_lines file_two) (4 + S) (4 + S + K))
          = Ok a_k
        ∧ _vasp2trace_stdout self = VStr trace_path
        ∧ num_occ_bands self = VInt B
        ∧ Vasp2TraceOutput.soc self = VInt soc
        ∧ num_symm_ops self = VInt S
        ∧ symm_ops self = VArray a_s
        ∧ num_max_kvec self = VInt K
        ∧ kvecs self = VArray a_k.
Proof.
  eexists.
  assert (readlines (world_with file_two) trace_path
          = Ok (file_lines file_two)) as Hread by (vm_compute; reflexivity).
  eassert (new literal (world_with file_two) trace_path = Ok _) as Hnew
    by (vm_compute; reflexivity).
  split; [exact Hread|]. split; [exact Hnew|].
  exact (record_header literal (world_with file_two) trace_path _ _
           Hread Hnew).
Defined.

Lemma bands_and_soc_not_checked_witness :
  let rest := drop 2 (file_lines file_two) in
  let w' := {| files := {[ trace_path :=
                             text_file (ln "7" :: ln "5" :: rest) ]};
               descriptors := ∅;
               cwd := "/run" |} in
  ∃ self,
    readlines (world_with file_two) trace_path
    = Ok (ln "68" :: ln "0" :: rest)
    ∧ readlines w' trace_path = Ok (ln "7" :: ln "5" :: rest)
    ∧ int (ln "7") = Ok 7%Z
    ∧ int (ln "5") = Ok 5%Z
    ∧ new literal (world_with file_two) trace_path = Ok self
    ∧ num_symm_ops self = VInt 2
    ∧ num_max_kvec self = VInt 2
    ∧ (0 ≤ 2)%Z
    ∧ (0 ≤ 2)%Z
    ∧ new literal w' trace_path
      = Ok {| _vasp2trace_stdout := _vasp2trace_stdout self;
              num_occ_bands := VInt 7;
              soc := VInt 5;
              num_symm_ops := num_symm_ops self;
              symm_ops := symm_ops self;
              num_max_kvec := num_max_kvec self;
              kvecs := kvecs self;
              num_kvec_symm_ops := num_kvec_symm_ops self;
              symm_ops_in_little_cogroup := symm_ops_in_little_cogroup self;
              traces := traces self |}.
Proof.
  intros rest w'. eexists.
  assert (readlines (world_with file_two) trace_path
          = Ok (ln "68" :: ln "0" :: rest)) as Hread
    by (vm_compute; reflexivity).
  assert (readlines w' trace_path = Ok (ln "7" :: ln "5" :: rest)) as Hread'
    by (vm_compute; reflexivity).
  assert (int (ln "7") = Ok 7%Z) as HB by (vm_compute; reflexivity).
  assert (int (ln "5") = Ok 5%Z) as Hsoc by (vm_compute; reflexivity).
  eassert (new literal (world_with file_two) trace_path = Ok _) as Hnew
    by (vm_compute; reflexivity).
  assert (0 ≤ 2)%Z as Hle by lia.
  split; [exact Hread|]. split; [exact Hread'|].
  split; [exact HB|]. split; [exact Hsoc|]. split; [exact Hnew|].
  split; [reflexivity|]. split; [reflexivity|].
  split; [exact Hle|]. split; [exact Hle|].
  exact (bands_and_soc_not_checked literal (world_with file_two) w'
           trace_path (ln "68") (ln "0") (ln "7") (ln "5") rest 7 5 2 2 _
           Hread Hread' HB Hsoc Hnew eq_refl eq_refl Hle Hle).
Defined.

Lemma round_trip_same_lines_witness :
  let w' := {| files := {[ trace_path := text_file (file_lines file_two);
                           "/calc/OUTCAR" := text_file [ln "vasp"] ]};
               descriptors := ∅;
               cwd := "/home" |} in
  ∃ self,
    readlines w' trace_path = readlines (world_with file_two) trace_path
    ∧ new literal (world_with file_two) trace_path = Ok self
    ∧ from_dict literal w' (as_dict self) = Ok self.
Proof.
  intros w'. eexists.
  assert (readlines w' trace_path
          = readlines (world_with file_two) trace_path) as Hsame
    by (vm_compute; reflexivity).
  eassert (new literal (world_with file_two) trace_path = Ok _) as Hnew
    by (vm_compute; reflexivity).
  split; [exact Hsame|]. split; [exact Hnew|].
  exact (round_trip_same_lines literal (world_with file_two) w' trace_path _
           Hsame Hnew).
Defined.

End HeaderFacts.
